(** * Mass allocation and emission-factor resolution of the donation carbon engine

    A shallow embedding of [src/carbonCalculator.ts], [src/donationBreakdown.ts]
    and [src/donationBuckets.ts], with the properties
    the specification states about them.

    Conventions of the embedding.
    - A JavaScript number that passed [Number.isFinite] is a rational [Q]:
      arithmetic is exact, the rounding of IEEE doubles is not modelled. A
      comparison in the source and its exact counterpart fall the same way
      unless the exact value is the threshold itself, where the rounding of
      the source's arithmetic decides; a sum of doubles, unlike an exact sum,
      depends on the order of its terms in the last digits. The thresholds
      concerned are the share sums 95 and 100.5 of a component, the leaf
      fraction 0.10 and the plate-share sums 0.97 and 1.03 of a dish; a
      statement that says so in its text assumes the exact value off the
      threshold (see [clearlySignificant], [offShareThresholds],
      [noLeafOnThreshold] and [offPlateThresholds]).
    - A value read from the store and then passed through [Number(...)] is a
      [jsval]: [JNull] (null or undefined), [JNum q] (converts to the finite
      number [q]) or [JNaN] (converts to NaN or an infinity).
    - A string is a sequence of 8-bit character codes, read as the code units
      U+0000..U+00FF.
    - The store is a record of tables (lists of rows); a query is a filter over
      a table that keeps the table's order, and it always answers: transport
      errors of the client are outside the model. A write stores the row as
      it is sent: the rounding of a [numeric] column is outside the model.
    - [throw new Error(...)] is the [Err] outcome of the [result] monad; the
      message text is replaced by a constructor carrying the values the message
      interpolates. *)

From Stdlib Require Import QArith Qminmax Qabs Qround Lqa Lia ZArith List String Ascii Bool.
From stdpp Require Import gmap strings pretty.
From Stdlib Require Import Sorted.
Import ListNotations.

Open Scope Q_scope.

(** ** Numbers *)

Inductive jsval : Type :=
| JNull
| JNum (q : Q)
| JNaN.

(** [Number(x)]; [None] stands for a non-finite result. [Number(null)] is 0. *)
Definition Number (x : jsval) : option Q :=
  match x with
  | JNull => Some 0
  | JNum q => Some q
  | JNaN => None
  end.

(** [toNum]: null stays null, a non-finite conversion becomes null. *)
Definition toNum (x : jsval) : option Q :=
  match x with
  | JNull => None
  | _ => Number x
  end.

(** A [number | null] field seen again as an [unknown] argument. *)
Definition ofField (x : option Q) : jsval :=
  match x with
  | Some q => JNum q
  | None => JNull
  end.

Definition Qlt_bool (x y : Q) : bool := negb (Qle_bool y x).

(** [Math.max(lo, Math.min(hi, n))] *)
Definition clamp (n lo hi : Q) : Q := Qmax lo (Qmin hi n).

(** [arr.reduce((acc, v) => acc + v, 0)] *)
Definition sumNums (arr : list Q) : Q := fold_left Qplus arr 0.

Definition MIN_SHARE_FRAC : Q := 0.10.
Definition PLATE_SHARE_NORMALIZE_EPS : Q := 0.03.
Definition ING_SHARE_NORMALIZE_EPS : Q := 5.
Definition ING_SHARE_MAX_OVER_EPS : Q := 0.5.

(** The literal [1e-9] of the remainder test. *)
Definition REMAINDER_EPS : Q := 0.000000001.

(** ** Strings *)

Module Str.

Definition code (c : ascii) : N := N_of_ascii c.

Definition between (lo hi : N) (c : ascii) : bool :=
  (N.leb lo (code c) && N.leb (code c) hi)%bool.

Definition isDigit (c : ascii) : bool := between 48 57 c.
Definition isUpper (c : ascii) : bool := between 65 90 c.
Definition isLower (c : ascii) : bool := between 97 122 c.

(** [\w] *)
Definition isWord (c : ascii) : bool :=
  (isDigit c || isUpper c || isLower c || N.eqb (code c) 95)%bool.

(** [\s], and the characters [trim] strips, below U+0100:
    TAB, LF, VT, FF, CR, SPACE and NBSP. *)
Definition isSpace (c : ascii) : bool :=
  (between 9 13 c || N.eqb (code c) 32 || N.eqb (code c) 160)%bool.

(** [/[.,]/] *)
Definition isSep (c : ascii) : bool :=
  (N.eqb (code c) 46 || N.eqb (code c) 44)%bool.

Definition shift (d : Z) (c : ascii) : ascii :=
  ascii_of_N (Z.to_N (Z.of_N (code c) + d)).

(** [toLowerCase]: A-Z and the capital letters U+00C0..U+00DE (U+00D7, the
    multiplication sign, is not a letter). *)
Definition lowerChar (c : ascii) : ascii :=
  if (isUpper c || (between 192 222 c && negb (N.eqb (code c) 215)))%bool
  then shift 32 c else c.

Definition toLowerCase (s : string) : string :=
  string_of_list_ascii (map lowerChar (list_ascii_of_string s)).

(** [toUpperCase]: a-z and the small letters U+00E0..U+00FE (U+00F7, the
    division sign, is not a letter); U+00DF becomes "SS". The images of
    U+00B5 and U+00FF lie above U+00FF; those two characters are left in
    place, which no later step of [normalizeCoreFromName] can tell apart
    (both they and their images are neither word characters nor spaces). *)
Definition upperChar (c : ascii) : list ascii :=
  if N.eqb (code c) 223 then ["S"; "S"]%char
  else if (isLower c || (between 224 254 c && negb (N.eqb (code c) 247)))%bool
  then [shift (-32) c] else [c].

Definition toUpperCase (s : list ascii) : list ascii := concat (map upperChar s).

Fixpoint dropSpaces (s : list ascii) : list ascii :=
  match s with
  | c :: rest => if isSpace c then dropSpaces rest else s
  | [] => []
  end.

Definition trim (s : list ascii) : list ascii :=
  rev (dropSpaces (rev (dropSpaces s))).

Definition isWordOpt (c : option ascii) : bool :=
  match c with Some c => isWord c | None => false end.

(** [\b] between the character before and the character after a position. *)
Definition boundary (prev next : option ascii) : bool :=
  xorb (isWordOpt prev) (isWordOpt next).

(** *** A backtracking matcher for the patterns of [normalizeCoreFromName]

    A pattern is written in continuation-passing style: a matcher receives the
    character before the current position and the remaining input, and
    answers with the number of characters left after the whole match, or
    [None]. Greedy quantifiers try the longest repetition first and give
    characters back when the continuation fails, as the JavaScript engine
    does. *)
Definition matcher : Type := option ascii -> list ascii -> option nat.

Definition kEnd : matcher := fun _ s => Some (length s).

Definition kChar (p : ascii -> bool) (k : matcher) : matcher :=
  fun _ s =>
    match s with
    | c :: rest => if p c then k (Some c) rest else None
    | [] => None
    end.

(** [p*] *)
Fixpoint kStarFrom (p : ascii -> bool) (k : matcher) (prev : option ascii) (s : list ascii)
  : option nat :=
  match s with
  | c :: rest =>
      if p c then
        match kStarFrom p k (Some c) rest with
        | Some r => Some r
        | None => k prev s
        end
      else k prev s
  | [] => k prev s
  end.

Definition kStar (p : ascii -> bool) (k : matcher) : matcher := kStarFrom p k.

(** [p+] *)
Definition kPlus (p : ascii -> bool) (k : matcher) : matcher := kChar p (kStar p k).

(** [p?] *)
Definition kOpt (p : ascii -> bool) (k : matcher) : matcher :=
  fun prev s =>
    match kChar p k prev s with
    | Some r => Some r
    | None => k prev s
    end.

(** [\b] *)
Definition kBound (k : matcher) : matcher :=
  fun prev s => if boundary prev (head s) then k prev s else None.

(** [^] (no multiline flag) and [$] *)
Definition kBegin (k : matcher) : matcher :=
  fun prev s => match prev with None => k prev s | Some _ => None end.

Definition kEos (k : matcher) : matcher :=
  fun prev s => match s with [] => k prev s | _ :: _ => None end.

(** A literal word. *)
Fixpoint kLit (w : list ascii) (k : matcher) (prev : option ascii) (s : list ascii)
  : option nat :=
  match w with
  | [] => k prev s
  | a :: w' =>
      match s with
      | c :: rest => if Ascii.eqb a c then kLit w' k (Some c) rest else None
      | [] => None
      end
  end.

(** [a|b]: the left alternative first. *)
Definition kOr (a b : matcher) : matcher :=
  fun prev s =>
    match a prev s with
    | Some r => Some r
    | None => b prev s
    end.

(** [(w1|w2|...)] over literal words. *)
Fixpoint kWords (ws : list string) (k : matcher) : matcher :=
  match ws with
  | [] => fun _ _ => None
  | w :: more => kOr (kLit (list_ascii_of_string w) k) (kWords more k)
  end.

Definition matchLen (m : matcher) (prev : option ascii) (s : list ascii) : option nat :=
  match m prev s with
  | Some r => Some (length s - r)%nat
  | None => None
  end.

(** [s.replace(/re/g, rep)] for a pattern that never matches the empty
    string. The scan goes left to right and resumes after each match; [skip]
    counts the characters of the current match that are still to be dropped. *)
Section ReplaceAll.
Variable m : matcher.
Variable rep : list ascii.

Fixpoint replaceFrom (prev : option ascii) (skip : nat) (s : list ascii) : list ascii :=
  match s with
  | [] => []
  | c :: rest =>
      match skip with
      | S k => replaceFrom (Some c) k rest
      | O =>
          match matchLen m prev s with
          | Some (S n) => rep ++ replaceFrom (Some c) n rest
          | _ => c :: replaceFrom (Some c) 0%nat rest
          end
      end
  end.

Definition replaceAll (s : list ascii) : list ascii := replaceFrom None 0%nat s.
End ReplaceAll.

Definition isChar (n : N) (c : ascii) : bool := N.eqb (code c) n.

(** [/\b\d+[.,]?\d*\s*(KG|G|L|DL|CL|ML)\b/] *)
Definition reQuantity : matcher :=
  kBound (kPlus isDigit (kOpt isSep (kStar isDigit (kStar isSpace
    (kWords ["KG"; "G"; "L"; "DL"; "CL"; "ML"]%string (kBound kEnd)))))).

(** [/\b\d+[.,]?\d*\b/] *)
Definition reNumber : matcher :=
  kBound (kPlus isDigit (kOpt isSep (kStar isDigit (kBound kEnd)))).

(** [/\b(RTU|KPA|LTN|TANKO)\b/] *)
Definition reNoise : matcher :=
  kBound (kWords ["RTU"; "KPA"; "LTN"; "TANKO"]%string (kBound kEnd)).

(** [/[^A-Z0-9]+/] *)
Definition reNonAlnum : matcher :=
  kPlus (fun c => negb (isUpper c || isDigit c)) kEnd.

(** [/_+/] and [/^_+|_+$/] *)
Definition reUnderscores : matcher := kPlus (isChar 95) kEnd.
Definition reEdgeUnderscores : matcher :=
  kOr (kBegin (kPlus (isChar 95) kEnd)) (kPlus (isChar 95) (kEos kEnd)).

Definition mapChar (from : N) (to : ascii) (c : ascii) : ascii :=
  if isChar from c then to else c.

End Str.

(** [normalizeCoreFromName]: the mapping key derived from a component name. *)
Definition normalizeCoreFromName (nameRaw : string) : string :=
  let s := Str.toUpperCase (Str.trim (list_ascii_of_string nameRaw)) in
  let s := map (Str.mapChar 197 "A") (map (Str.mapChar 214 "O") (map (Str.mapChar 196 "A") s)) in
  let s := Str.replaceAll Str.reQuantity [" "%char] s in
  let s := Str.replaceAll Str.reNumber [" "%char] s in
  let s := Str.replaceAll Str.reNoise [" "%char] s in
  let s := Str.replaceAll Str.reNonAlnum ["_"%char] s in
  let s := Str.replaceAll Str.reEdgeUnderscores [] (Str.replaceAll Str.reUnderscores ["_"%char] s) in
  match s with
  | [] => "UNKNOWN"%string
  | _ :: _ => string_of_list_ascii s
  end.


(** ** The store *)

(** Rows as the queries of the three modules select them; a column a module
    does not select is simply not read by it. *)
Record DonationRow : Type := {
  donation_id_of : Z;
  donation_kitchen_id : option string;
  donation_dish_id : option Z;
  donation_component_id : option Z;
  donation_weight : jsval;
}.

Record DishComponentRow : Type := {
  component_id_of : Z;
  component_dish_id : Z;
  component_name_raw : option string;
  component_type_of : option string;
  component_plate_share : jsval;
}.

Record ComponentIngredientRow : Type := {
  ing_component_id : Z;
  ing_seq_no : option Z;
  ing_base_name : option string;
  ing_core : string;
  ing_share_of_component : jsval;
  ing_is_water : bool;
  ing_is_salt : bool;
}.

Record IngredientMappingRow : Type := {
  im_source_system : string;
  im_is_active : bool;
  im_core : string;
  im_luke_foodid : option Z;
  im_match_type : option string;
  im_weight_state : option string;
  im_yield_cooked_per_raw : jsval;
  im_co2_override_per_kg : jsval;
}.

Record LukeFoodsRow : Type := {
  lf_foodid : Z;
  lf_name_fi : option string;
  lf_name_en : option string;
  lf_kg_co2e_per_kg : jsval;
  lf_g_co2e_per_100g : jsval;
}.

Record DonationMetricsRow : Type := {
  dm_donation_id : Z;
  dm_total_co2e_kg : Q;
  dm_total_food_mass_kg : Q;
  dm_unmapped_mass_kg : Q;
}.

Record Db : Type := {
  env_MAPPING_SOURCE_SYSTEM : option string;
  donations : list DonationRow;
  dish_components : list DishComponentRow;
  component_ingredients : list ComponentIngredientRow;
  ingredient_mappings : list IngredientMappingRow;
  luke_foods : list LukeFoodsRow;
  donation_metrics : list DonationMetricsRow;
}.

(** [process.env.MAPPING_SOURCE_SYSTEM || "SODEXO"] *)
Definition SOURCE_SYSTEM (db : Db) : string :=
  match env_MAPPING_SOURCE_SYSTEM db with
  | Some s => if String.eqb s "" then "SODEXO"%string else s
  | None => "SODEXO"%string
  end.

(** [.single()]: the row when the selection has exactly one. *)
Definition single {A : Type} (rows : list A) : option A :=
  match rows with
  | [r] => Some r
  | _ => None
  end.

(** [.eq("source_system", SOURCE_SYSTEM).eq("is_active", true)] *)
Definition activeMapping (db : Db) (m : IngredientMappingRow) : bool :=
  (String.eqb (im_source_system m) (SOURCE_SYSTEM db) && im_is_active m)%bool.

Definition memString (s : string) (l : list string) : bool := existsb (String.eqb s) l.
Definition memZ (z : Z) (l : list Z) : bool := existsb (Z.eqb z) l.

(** [Array.from(new Set(xs))]: the first occurrence of each element, in order. *)
Fixpoint uniqFrom {A : Type} (mem : A -> list A -> bool) (seen xs : list A) : list A :=
  match xs with
  | [] => []
  | x :: rest =>
      if mem x seen then uniqFrom mem seen rest else x :: uniqFrom mem (x :: seen) rest
  end.

Definition uniqStrings (xs : list string) : list string := uniqFrom memString [] xs.
Definition uniqZ (xs : list Z) : list Z := uniqFrom memZ [] xs.

(** [v == null] *)
Definition isNull {A : Type} (v : option A) : bool :=
  match v with
  | None => true
  | Some _ => false
  end.

(** [donation_metrics.upsert(row)], keyed by [donation_id]. The write is taken
    to succeed and the row to be stored as sent; the source logs a failed
    write and carries on, and the table rounds to four decimals. *)
Definition upsertMetrics (row : DonationMetricsRow) (db : Db) : Db :=
  {| env_MAPPING_SOURCE_SYSTEM := env_MAPPING_SOURCE_SYSTEM db;
     donations := donations db;
     dish_components := dish_components db;
     component_ingredients := component_ingredients db;
     ingredient_mappings := ingredient_mappings db;
     luke_foods := luke_foods db;
     donation_metrics :=
       if existsb (fun r => Z.eqb (dm_donation_id r) (dm_donation_id row)) (donation_metrics db)
       then map (fun r => if Z.eqb (dm_donation_id r) (dm_donation_id row) then row else r)
                (donation_metrics db)
       else donation_metrics db ++ [row] |}.

(** ** Errors *)

Inductive error : Type :=
| DonationNotFound (donationId : Z)
| InvalidDonatedWeight (donationId : Z)
| NeitherDishNorComponent (donationId : Z)
| IngredientShareSumExceeds (componentId : Z) (sumPct : Q)
| PlateShareSumExceeds (dishId : option Z) (sumFinal : Q)
| ComponentLoadFailed (componentId : Z).

Inductive result (A : Type) : Type :=
| Ok (a : A)
| Err (e : error).
Arguments Ok {A} a.
Arguments Err {A} e.

Definition bind {A B : Type} (r : result A) (f : A -> result B) : result B :=
  match r with
  | Ok a => f a
  | Err e => Err e
  end.

Notation "'let*' x ':=' r 'in' k" := (bind r (fun x => k))
  (at level 10, x pattern, r at level 100, k at level 200).

(** ** Mapping and reference-food rows as the calculators hold them *)

Module Loaded.

Record MappingRow : Type := {
  ingredient_core : string;
  luke_foodid : option Z;
  match_type : option string;
  weight_state : option string;
  yield_cooked_per_raw : option Q;
  co2_override_per_kg : option Q;
}.

Record LukeFoodRow : Type := {
  foodid : Z;
  name_fi : option string;
  name_en : option string;
  kg_co2e_per_kg : option Q;
  g_co2e_per_100g : option Q;
}.

End Loaded.
Import Loaded.

Definition toMappingRow (m : IngredientMappingRow) : MappingRow :=
  {| ingredient_core := im_core m;
     luke_foodid := im_luke_foodid m;
     match_type := im_match_type m;
     weight_state := im_weight_state m;
     yield_cooked_per_raw := toNum (im_yield_cooked_per_raw m);
     co2_override_per_kg := toNum (im_co2_override_per_kg m) |}.

Definition toLukeFoodRow (f : LukeFoodsRow) : LukeFoodRow :=
  {| foodid := lf_foodid f;
     name_fi := lf_name_fi f;
     name_en := lf_name_en f;
     kg_co2e_per_kg := toNum (lf_kg_co2e_per_kg f);
     g_co2e_per_100g := toNum (lf_g_co2e_per_100g f) |}.

(** [new Map()] filled by [set] in row order: a later row replaces an earlier
    one with the same key. *)
Definition mappingsByCore (rows : list IngredientMappingRow) : gmap string MappingRow :=
  fold_left (fun m r => <[im_core r := toMappingRow r]> m) rows ∅.

Definition foodsById (rows : list LukeFoodsRow) : gmap Z LukeFoodRow :=
  fold_left (fun m r => <[lf_foodid r := toLukeFoodRow r]> m) rows ∅.

(** [(mapping.weight_state || "ignore").toLowerCase()] *)
Definition weightStateOf (ws : option string) : string :=
  Str.toLowerCase
    (match ws with
     | Some s => if String.eqb s "" then "ignore"%string else s
     | None => "ignore"%string
     end).

(** The ids the food query is restricted to: the non-null [luke_foodid]s of the
    loaded mappings. *)
Definition foodidsOf (rows : list (option Z)) : list Z :=
  uniqZ (omap (fun x => x) rows).

(** ** Code that the modules repeat verbatim *)

(** [let massForFactorKg = cookedKg; if (weightState === "raw") { ... }]:
    the mass the factor applies to, or [None] where the source leaves the mass
    unmapped because the raw conversion has no positive yield. *)
Definition massForFactorKg (weightState : string) (mapping : MappingRow) (cookedKg : Q)
  : option Q :=
  if String.eqb weightState "raw" then
    match yield_cooked_per_raw mapping with
    | Some y => if Qlt_bool 0 y then Some (cookedKg / y) else None
    | None => None
    end
  else Some cookedKg.

(** [normFactor]: rescale only when no share is missing and the sum is close
    to 100. *)
Definition normFactorOf (hasMissingShare : bool) (sumPct : Q) : Q :=
  if (negb hasMissingShare && Qle_bool (Qabs (sumPct - 100)) ING_SHARE_NORMALIZE_EPS)%bool
  then 100 / sumPct else 1.

(** [frac] and [cookedKg] of a row with share [pctRaw]:
    [clamp((pctRaw * normFactor) / 100, 0, 1)] and its product with the
    component weight. *)
Definition fracOf (normFactor pctRaw : Q) : Q := clamp (pctRaw * normFactor / 100) 0 1.
Definition cookedKgOf (componentWeightKg normFactor pctRaw : Q) : Q :=
  componentWeightKg * fracOf normFactor pctRaw.

(** ** src/carbonCalculator.ts *)

Module CarbonCalculator.

(** The four accumulators of a component computation. *)
Record Carbon : Type := {
  co2eKg : Q;
  unmappedKg : Q;
  mappedKg : Q;
  ignoredKg : Q;
}.

Definition noCarbon : Carbon :=
  {| co2eKg := 0; unmappedKg := 0; mappedKg := 0; ignoredKg := 0 |}.

(** [unmappedKg += kg], [ignoredKg += kg], and the pair
    [co2eKg += co2; mappedKg += kg]. *)
Definition addUnmapped (acc : Carbon) (kg : Q) : Carbon :=
  {| co2eKg := co2eKg acc; unmappedKg := unmappedKg acc + kg;
     mappedKg := mappedKg acc; ignoredKg := ignoredKg acc |}.

Definition addIgnored (acc : Carbon) (kg : Q) : Carbon :=
  {| co2eKg := co2eKg acc; unmappedKg := unmappedKg acc;
     mappedKg := mappedKg acc; ignoredKg := ignoredKg acc + kg |}.

Definition addMapped (acc : Carbon) (kg co2 : Q) : Carbon :=
  {| co2eKg := co2eKg acc + co2; unmappedKg := unmappedKg acc;
     mappedKg := mappedKg acc + kg; ignoredKg := ignoredKg acc |}.

Definition getCo2FactorKgPerKg (mapping : option MappingRow) (food : option LukeFoodRow)
  : option Q :=
  match toNum (ofField (mapping ≫= co2_override_per_kg)) with
  | Some ov => Some ov
  | None =>
      match toNum (ofField (food ≫= kg_co2e_per_kg)) with
      | Some kg => Some kg
      | None =>
          match toNum (ofField (food ≫= g_co2e_per_100g)) with
          | Some g => Some (g * 0.01)
          | None => None
          end
      end
  end.

Definition computeComponentFallbackCarbonFromName (db : Db) (componentId : Z)
    (componentCookedWeightKg : Q) : Carbon :=
  match single (List.filter (fun c => Z.eqb (component_id_of c) componentId)
                            (dish_components db)) with
  | None => {| co2eKg := 0; unmappedKg := componentCookedWeightKg; mappedKg := 0; ignoredKg := 0 |}
  | Some comp =>
      let core := normalizeCoreFromName (default ""%string (component_name_raw comp)) in
      if (String.eqb core "" || String.eqb core "UNKNOWN")%bool then
        {| co2eKg := 0; unmappedKg := componentCookedWeightKg; mappedKg := 0; ignoredKg := 0 |}
      else
        match head (List.filter (fun m => (activeMapping db m && String.eqb (im_core m) core)%bool)
                                (ingredient_mappings db)) with
        | None =>
            {| co2eKg := 0; unmappedKg := componentCookedWeightKg; mappedKg := 0; ignoredKg := 0 |}
        | Some m =>
            let mapping := toMappingRow m in
            let weightState := weightStateOf (weight_state mapping) in
            if String.eqb weightState "ignore" then
              {| co2eKg := 0; unmappedKg := 0; mappedKg := 0; ignoredKg := componentCookedWeightKg |}
            else
              let food :=
                match luke_foodid mapping with
                | Some fid =>
                    toLukeFoodRow <$>
                      head (List.filter (fun f => Z.eqb (lf_foodid f) fid) (luke_foods db))
                | None => None
                end in
              match getCo2FactorKgPerKg (Some mapping) food with
              | None =>
                  {| co2eKg := 0; unmappedKg := componentCookedWeightKg;
                     mappedKg := 0; ignoredKg := 0 |}
              | Some factor =>
                  match massForFactorKg weightState mapping componentCookedWeightKg with
                  | None =>
                      {| co2eKg := 0; unmappedKg := componentCookedWeightKg;
                         mappedKg := 0; ignoredKg := 0 |}
                  | Some massKg =>
                      {| co2eKg := massKg * factor; unmappedKg := 0;
                         mappedKg := componentCookedWeightKg; ignoredKg := 0 |}
                  end
              end
        end
  end.

(** [sharePctByRow]: the clamped share of a row, or null. *)
Definition sharePct (v : jsval) : option Q :=
  match v with
  | JNull => None
  | _ => match Number v with
         | None => None
         | Some n => Some (clamp n 0 100)
         end
  end.

(** The body of the loop over the ingredient rows; each [continue] of the
    source is a branch that returns the accumulators. *)
Definition ingredientStep (componentCookedWeightKg normFactor : Q)
    (mappingByCore : gmap string MappingRow) (foodById : gmap Z LukeFoodRow)
    (acc : Carbon) (rowShare : ComponentIngredientRow * option Q) : Carbon :=
  let '(row, pctRaw) := rowShare in
  match pctRaw with
  | None => acc
  | Some pctRaw =>
      let frac := fracOf normFactor pctRaw in
      let cookedKg := componentCookedWeightKg * frac in
      if (ing_is_water row || ing_is_salt row)%bool then addIgnored acc cookedKg
      else if Qlt_bool frac MIN_SHARE_FRAC then addIgnored acc cookedKg
      else
        match mappingByCore !! ing_core row with
        | None => addUnmapped acc cookedKg
        | Some mapping =>
            let weightState := weightStateOf (weight_state mapping) in
            if String.eqb weightState "ignore" then addIgnored acc cookedKg
            else
              let food := luke_foodid mapping ≫= fun fid => foodById !! fid in
              match getCo2FactorKgPerKg (Some mapping) food with
              | None => addUnmapped acc cookedKg
              | Some factor =>
                  match massForFactorKg weightState mapping cookedKg with
                  | None => addUnmapped acc cookedKg
                  | Some massKg => addMapped acc cookedKg (massKg * factor)
                  end
              end
        end
  end.

(** The rows, mappings and foods a component computation loads. *)
Definition ingredientsOf (db : Db) (componentId : Z) : list ComponentIngredientRow :=
  List.filter (fun r => Z.eqb (ing_component_id r) componentId) (component_ingredients db).

Definition mappingsDataOf (db : Db) (cores : list string) : list IngredientMappingRow :=
  List.filter (fun m => (activeMapping db m && memString (im_core m) cores)%bool)
              (ingredient_mappings db).

Definition foodsDataOf (db : Db) (foodids : list Z) : list LukeFoodsRow :=
  match foodids with
  | [] => []
  | _ :: _ => List.filter (fun f => memZ (lf_foodid f) foodids) (luke_foods db)
  end.

Definition computeComponentCarbon (db : Db) (componentId : Z) (componentCookedWeightKg : Q)
  : result Carbon :=
  if Qle_bool componentCookedWeightKg 0 then Ok noCarbon
  else
    let ingredients := ingredientsOf db componentId in
    match ingredients with
    | [] => Ok (computeComponentFallbackCarbonFromName db componentId componentCookedWeightKg)
    | _ :: _ =>
        let sharePctByRow := map (fun r => sharePct (ing_share_of_component r)) ingredients in
        let hasMissingShare := existsb isNull sharePctByRow in
        let validShares := map (default 0) sharePctByRow in
        let sumPct := sumNums validShares in
        if Qle_bool sumPct 0 then
          Ok (computeComponentFallbackCarbonFromName db componentId componentCookedWeightKg)
        else if Qlt_bool (100 + ING_SHARE_MAX_OVER_EPS) sumPct then
          Err (IngredientShareSumExceeds componentId sumPct)
        else
          let normFactor := normFactorOf hasMissingShare sumPct in
          let cores := uniqStrings (map ing_core ingredients) in
          let mappingsData := mappingsDataOf db cores in
          let mappingByCore := mappingsByCore mappingsData in
          let foodids := foodidsOf (map im_luke_foodid mappingsData) in
          let foodById := foodsById (foodsDataOf db foodids) in
          let allocatedFrac := clamp (sumPct * normFactor / 100) 0 1 in
          let unallocatedKg := componentCookedWeightKg * (1 - allocatedFrac) in
          let acc :=
            fold_left (ingredientStep componentCookedWeightKg normFactor mappingByCore foodById)
                      (combine ingredients sharePctByRow) noCarbon in
          if (Qlt_bool REMAINDER_EPS unallocatedKg && Qeq_bool normFactor 1)%bool
          then Ok (addUnmapped acc unallocatedKg)
          else Ok acc
    end.

Record DonationCarbonResult : Type := {
  donation_id : Z;
  dish_id : option Z;
  component_id : option Z;
  donated_weight_kg : Q;
  total_co2e_kg : Q;
  total_food_mass_kg : Q;
  unmapped_mass_kg : Q;
  co2_per_kg : Q;
  mapped_mass_kg : Q;
  ignored_mass_kg : Q;
  mapping_source_system : string;
}.

(** [totalCo2eKg += r.co2eKg; unmappedMassKg += r.unmappedKg; ...] *)
Definition addCarbon (acc r : Carbon) : Carbon :=
  {| co2eKg := co2eKg acc + co2eKg r;
     unmappedKg := unmappedKg acc + unmappedKg r;
     mappedKg := mappedKg acc + mappedKg r;
     ignoredKg := ignoredKg acc + ignoredKg r |}.

(** [providedShares]: the clamped plate share of a component, or null. *)
Definition plateShare (v : jsval) : option Q :=
  match v with
  | JNull => None
  | _ => match Number v with
         | None => None
         | Some n => Some (clamp n 0 1)
         end
  end.

Definition ofNat (n : nat) : Q := inject_Z (Z.of_nat n).

(** [missingIdx]: the positions of the null entries. *)
Definition missingIdxOf (provided : list (option Q)) : list nat :=
  map snd (List.filter (fun x => isNull (fst x)) (imap (fun i v => (v, i)) provided)).

(** [for (const i of missingIdx) shares[i] += add] *)
Definition addAt (add : Q) (missingIdx : list nat) (shares : list Q) : list Q :=
  fold_left (fun sh i => alter (fun x => x + add) i sh) missingIdx shares.

(** The [shares] array that [computeDonationCarbon] builds for the components
    of a dish. *)
Definition dishShares (dishId : Z) (comps : list DishComponentRow) : result (list Q) :=
  let providedShares := map (fun c => plateShare (component_plate_share c)) comps in
  let sumProvided := fold_left (fun acc v => acc + default 0 v) providedShares 0 in
  let shares := repeat 0 (length comps) in
  if Qle_bool sumProvided 0 then
    let eq := 1 / ofNat (length comps) in
    Ok (map (fun _ => eq) shares)
  else
    let shares := map (default 0) providedShares in
    let missingIdx := missingIdxOf providedShares in
    let sumNow := sumNums shares in
    let remainder := 1 - sumNow in
    let shares :=
      if (negb (Nat.eqb (length missingIdx) 0) && Qlt_bool 0 remainder)%bool
      then addAt (remainder / ofNat (length missingIdx)) missingIdx shares
      else shares in
    let sumFinal := sumNums shares in
    if Qlt_bool (1 + PLATE_SHARE_NORMALIZE_EPS) sumFinal then
      Err (PlateShareSumExceeds (Some dishId) sumFinal)
    else if (Qlt_bool 0 sumFinal
             && Qle_bool (Qabs (sumFinal - 1)) PLATE_SHARE_NORMALIZE_EPS)%bool
    then Ok (map (fun s => s / sumFinal) shares)
    else Ok shares.

(** The loop over the components of a dish; it stops at the first error. *)
Fixpoint componentsLoop (db : Db) (donated_weight_kg : Q)
    (compShares : list (DishComponentRow * Q)) (acc : Carbon) : result Carbon :=
  match compShares with
  | [] => Ok acc
  | (c, share) :: rest =>
      let compWeightKg := donated_weight_kg * share in
      if Qle_bool compWeightKg 0 then componentsLoop db donated_weight_kg rest acc
      else
        let* r := computeComponentCarbon db (component_id_of c) compWeightKg in
        componentsLoop db donated_weight_kg rest (addCarbon acc r)
  end.

Definition componentsOfDish (db : Db) (dishId : Z) : list DishComponentRow :=
  List.filter (fun c => Z.eqb (component_dish_id c) dishId) (dish_components db).

(** The totals of a donation whose row has been read and whose weight has
    been validated. *)
Definition donationTotals (db : Db) (donationId : Z) (donation : DonationRow)
    (donated_weight_kg : Q) : result Carbon :=
  match donation_component_id donation with
  | Some componentId =>
      let* r := computeComponentCarbon db componentId donated_weight_kg in
      Ok (addCarbon noCarbon r)
  | None =>
      match donation_dish_id donation with
      | Some dishId =>
          let comps := componentsOfDish db dishId in
          match comps with
          | [] => Ok {| co2eKg := 0; unmappedKg := donated_weight_kg;
                        mappedKg := 0; ignoredKg := 0 |}
          | _ :: _ =>
              let* shares := dishShares dishId comps in
              componentsLoop db donated_weight_kg (combine comps shares) noCarbon
          end
      | None => Err (NeitherDishNorComponent donationId)
      end
  end.

(** [computeDonationCarbon]: the result, and the store after the upsert of the
    [donation_metrics] row. *)
Definition computeDonationCarbon (db : Db) (donationId : Z)
  : result (DonationCarbonResult * Db) :=
  match single (List.filter (fun d => Z.eqb (donation_id_of d) donationId) (donations db)) with
  | None => Err (DonationNotFound donationId)
  | Some donation =>
      match Number (donation_weight donation) with
      | None => Err (InvalidDonatedWeight donationId)
      | Some donated_weight_kg =>
          if Qle_bool donated_weight_kg 0 then Err (InvalidDonatedWeight donationId)
          else
            let* totals := donationTotals db donationId donation donated_weight_kg in
            let totalFoodMassKg := donated_weight_kg in
            let co2PerKg :=
              if Qlt_bool 0 totalFoodMassKg then co2eKg totals / totalFoodMassKg else 0 in
            let db' :=
              upsertMetrics {| dm_donation_id := donationId;
                               dm_total_co2e_kg := co2eKg totals;
                               dm_total_food_mass_kg := totalFoodMassKg;
                               dm_unmapped_mass_kg := unmappedKg totals |} db in
            Ok ({| donation_id := donationId;
                   dish_id := donation_dish_id donation;
                   component_id := donation_component_id donation;
                   donated_weight_kg := donated_weight_kg;
                   total_co2e_kg := co2eKg totals;
                   total_food_mass_kg := totalFoodMassKg;
                   unmapped_mass_kg := unmappedKg totals;
                   co2_per_kg := co2PerKg;
                   mapped_mass_kg := mappedKg totals;
                   ignored_mass_kg := ignoredKg totals;
                   mapping_source_system := SOURCE_SYSTEM db |}, db')
      end
  end.

End CarbonCalculator.

(** ** src/donationBreakdown.ts *)

Module DonationBreakdown.

Record Factor : Type := {
  source : string;
  value : option Q;
}.

Definition resolveFactor (mapping : option MappingRow) (food : option LukeFoodRow) : Factor :=
  match toNum (ofField (mapping ≫= co2_override_per_kg)) with
  | Some ov => {| source := "override"; value := Some ov |}
  | None =>
      match toNum (ofField (food ≫= kg_co2e_per_kg)) with
      | Some kg => {| source := "luke_kg"; value := Some kg |}
      | None =>
          match toNum (ofField (food ≫= g_co2e_per_100g)) with
          | Some g => {| source := "luke_g100"; value := Some (g * 0.01) |}
          | None => {| source := "none"; value := None |}
          end
      end
  end.

Definition ofNat (n : nat) : Q := inject_Z (Z.of_nat n).

Definition missingIdxOf (provided : list (option Q)) : list nat :=
  map snd (List.filter (fun x => isNull (fst x)) (imap (fun i v => (v, i)) provided)).

Definition addAt (add : Q) (missingIdx : list nat) (shares : list Q) : list Q :=
  fold_left (fun sh i => alter (fun x => x + add) i sh) missingIdx shares.

Definition normalizeComponentShares (components : list DishComponentRow) : result (list Q) :=
  let provided :=
    map (fun c => match toNum (component_plate_share c) with
                  | None => None
                  | Some v => Some (clamp v 0 1)
                  end) components in
  let sumProvided := fold_left (fun acc v => acc + default 0 v) provided 0 in
  if Qle_bool sumProvided 0 then
    let eq := 1 / ofNat (length components) in
    Ok (map (fun _ => eq) components)
  else
    let shares := map (default 0) provided in
    let missingIdx := missingIdxOf provided in
    let sumNow := sumNums shares in
    let remainder := 1 - sumNow in
    let shares :=
      if (negb (Nat.eqb (length missingIdx) 0) && Qlt_bool 0 remainder)%bool
      then addAt (remainder / ofNat (length missingIdx)) missingIdx shares
      else shares in
    let sumFinal := sumNums shares in
    if Qlt_bool (1 + PLATE_SHARE_NORMALIZE_EPS) sumFinal then
      Err (PlateShareSumExceeds (component_dish_id <$> head components) sumFinal)
    else if (Qlt_bool 0 sumFinal
             && Qle_bool (Qabs (sumFinal - 1)) PLATE_SHARE_NORMALIZE_EPS)%bool
    then Ok (map (fun s => s / sumFinal) shares)
    else Ok shares.

Inductive BreakdownStatus : Type := mapped | unmapped | ignored.

Record BreakdownItem : Type := {
  status : BreakdownStatus;
  reason : string;
  component_id : Z;
  component_name : string;
  component_type : option string;
  component_weight_kg : Q;
  ingredient_core : string;
  base_name : string;
  share_pct : option Q;
  cooked_mass_kg : Q;
  luke_foodid : option Z;
  luke_name_fi : option string;
  luke_name_en : option string;
  factor_source : string;
  factor_kgco2_per_kg : option Q;
  mass_for_factor_kg : Q;
  co2e_kg : Q;
}.

Record Totals : Type := {
  total_food_mass_kg : Q;
  total_co2e_kg : Q;
  co2_per_kg : Q;
  mapped_mass_kg : Q;
  unmapped_mass_kg : Q;
  ignored_mass_kg : Q;
}.

(** The result; the [restaurant] and [dish] fields, which echo two label
    lookups and take no part in the computation, are not carried. *)
Record DonationBreakdown : Type := {
  donation : DonationRow;
  mapping_source_system : string;
  totals : Totals;
  items : list BreakdownItem;
}.

Record Allocation : Type := {
  component : DishComponentRow;
  alloc_weight_kg : Q;
  used_component_fallback : bool;
}.

(** The running state of the loop over the allocations. *)
Record Acc : Type := {
  acc_items : list BreakdownItem;
  totalCo2 : Q;
  mappedMass : Q;
  ignoredMass : Q;
  unmappedMass : Q;
}.

Definition emptyAcc : Acc :=
  {| acc_items := []; totalCo2 := 0; mappedMass := 0; ignoredMass := 0; unmappedMass := 0 |}.

(** [items.push(item)] alone, and after [unmappedMass += kg],
    [ignoredMass += kg], or [mappedMass += kg; totalCo2 += co2]. *)
Definition push (acc : Acc) (item : BreakdownItem) : Acc :=
  {| acc_items := acc_items acc ++ [item]; totalCo2 := totalCo2 acc;
     mappedMass := mappedMass acc; ignoredMass := ignoredMass acc;
     unmappedMass := unmappedMass acc |}.

Definition pushUnmapped (acc : Acc) (kg : Q) (item : BreakdownItem) : Acc :=
  {| acc_items := acc_items acc ++ [item]; totalCo2 := totalCo2 acc;
     mappedMass := mappedMass acc; ignoredMass := ignoredMass acc;
     unmappedMass := unmappedMass acc + kg |}.

Definition pushIgnored (acc : Acc) (kg : Q) (item : BreakdownItem) : Acc :=
  {| acc_items := acc_items acc ++ [item]; totalCo2 := totalCo2 acc;
     mappedMass := mappedMass acc; ignoredMass := ignoredMass acc + kg;
     unmappedMass := unmappedMass acc |}.

Definition pushMapped (acc : Acc) (kg co2 : Q) (item : BreakdownItem) : Acc :=
  {| acc_items := acc_items acc ++ [item]; totalCo2 := totalCo2 acc + co2;
     mappedMass := mappedMass acc + kg; ignoredMass := ignoredMass acc;
     unmappedMass := unmappedMass acc |}.

(** Stable sort by an integer key, as [Array.prototype.sort] with the
    comparator [(a, b) => key(a) - key(b)]. *)
Fixpoint insertByKey {A : Type} (key : A -> Z) (x : A) (l : list A) : list A :=
  match l with
  | [] => [x]
  | y :: rest => if Z.leb (key x) (key y) then x :: l else y :: insertByKey key x rest
  end.

Definition sortByKey {A : Type} (key : A -> Z) (l : list A) : list A :=
  fold_right (insertByKey key) [] l.

Definition stringOfZ (z : Z) : string := pretty z.

(** [(s || "").trim()] *)
Definition trimmed (s : option string) : string :=
  string_of_list_ascii (Str.trim (list_ascii_of_string (default ""%string s))).

(** [(alloc.component.name_raw || "").trim() || `component#${componentId}`] *)
Definition componentNameOf (c : DishComponentRow) : string :=
  let t := trimmed (component_name_raw c) in
  if String.eqb t "" then ("component#" ++ stringOfZ (component_id_of c))%string else t.

Section Component.
Variable componentId : Z.
Variable componentName : string.
Variable componentType : option string.
Variable componentWeightKg : Q.

Definition item (st : BreakdownStatus) (rs core base : string) (share : option Q)
    (cooked : Q) (fid : option Z) (fi en : option string) (src : string)
    (fac : option Q) (mass co2 : Q) : BreakdownItem :=
  {| status := st; reason := rs;
     component_id := componentId; component_name := componentName;
     component_type := componentType; component_weight_kg := componentWeightKg;
     ingredient_core := core; base_name := base; share_pct := share;
     cooked_mass_kg := cooked; luke_foodid := fid; luke_name_fi := fi;
     luke_name_en := en; factor_source := src; factor_kgco2_per_kg := fac;
     mass_for_factor_kg := mass; co2e_kg := co2 |}.

(** A component without ingredient rows: the whole component is one leaf
    keyed by the core of its name. *)
Definition fallbackStep (mappings : gmap string MappingRow)
    (lukeFoods : gmap Z LukeFoodRow) (acc : Acc) : Acc :=
  let componentCore := normalizeCoreFromName componentName in
  let mapping := if String.eqb componentCore "" then None else mappings !! componentCore in
  let weightState := weightStateOf (mapping ≫= weight_state) in
  match mapping with
  | None =>
      pushUnmapped acc componentWeightKg
        (item unmapped "no component_ingredients rows; no component-name mapping"
           (if String.eqb componentCore "" then "UNKNOWN" else componentCore)
           componentName None componentWeightKg None None None "none" None 0 0)
  | Some mapping =>
      if String.eqb weightState "ignore" then
        pushIgnored acc componentWeightKg
          (item ignored "component-level fallback; mapping weight_state=ignore"
             componentCore componentName None componentWeightKg
             (Loaded.luke_foodid mapping) None None "none" None 0 0)
      else
        let food := Loaded.luke_foodid mapping ≫= fun fid => lukeFoods !! fid in
        let factor := resolveFactor (Some mapping) food in
        match value factor with
        | None =>
            pushUnmapped acc componentWeightKg
              (item unmapped "component-level fallback; no CO2 factor"
                 componentCore componentName None componentWeightKg
                 (Loaded.luke_foodid mapping) (food ≫= name_fi) (food ≫= name_en)
                 "none" None 0 0)
        | Some factorValue =>
            match massForFactorKg weightState mapping componentWeightKg with
            | None =>
                pushUnmapped acc componentWeightKg
                  (item unmapped
                     "component-level fallback; weight_state=raw but yield missing/invalid"
                     componentCore componentName None componentWeightKg
                     (Loaded.luke_foodid mapping) (food ≫= name_fi) (food ≫= name_en)
                     (source factor) (value factor) 0 0)
            | Some massKg =>
                let co2 := massKg * factorValue in
                pushMapped acc componentWeightKg co2
                  (item mapped "component-level fallback (no ingredient breakdown)"
                     componentCore componentName None componentWeightKg
                     (Loaded.luke_foodid mapping) (food ≫= name_fi) (food ≫= name_en)
                     (source factor) (value factor) massKg co2)
            end
        end
  end.

(** [`below ${Math.round(MIN_SHARE_FRAC * 100)}% threshold`] *)
Definition belowThresholdReason : string :=
  ("below " ++ pretty (Qfloor (MIN_SHARE_FRAC * 100 + 0.5)) ++ "% threshold")%string.

(** The body of the loop over the ingredient rows of a component. *)
Definition ingredientStep (normFactor : Q) (mappings : gmap string MappingRow)
    (lukeFoods : gmap Z LukeFoodRow) (acc : Acc)
    (ingShare : ComponentIngredientRow * option Q) : Acc :=
  let '(ing, pctRaw) := ingShare in
  let baseName :=
    let t := trimmed (ing_base_name ing) in
    if String.eqb t "" then ing_core ing else t in
  match pctRaw with
  | None =>
      push acc
        (item unmapped
           "missing share_of_component (mass accounted in unallocated remainder if any)"
           (ing_core ing) baseName None 0 None None None "none" None 0 0)
  | Some pctRaw =>
      let pct := pctRaw * normFactor in
      let frac := clamp (pct / 100) 0 1 in
      let cookedKg := componentWeightKg * frac in
      if ing_is_water ing then
        pushIgnored acc cookedKg
          (item ignored "water" (ing_core ing) baseName (Some pct) cookedKg
             None None None "none" None 0 0)
      else if ing_is_salt ing then
        pushIgnored acc cookedKg
          (item ignored "salt" (ing_core ing) baseName (Some pct) cookedKg
             None None None "none" None 0 0)
      else if Qlt_bool frac MIN_SHARE_FRAC then
        pushIgnored acc cookedKg
          (item ignored belowThresholdReason (ing_core ing) baseName (Some pct) cookedKg
             None None None "none" None 0 0)
      else
        match mappings !! ing_core ing with
        | None =>
            pushUnmapped acc cookedKg
              (item unmapped "no ingredient_mappings row" (ing_core ing) baseName
                 (Some pct) cookedKg None None None "none" None 0 0)
        | Some mapping =>
            let weightState := weightStateOf (weight_state mapping) in
            if String.eqb weightState "ignore" then
              pushIgnored acc cookedKg
                (item ignored "mapping weight_state=ignore" (ing_core ing) baseName
                   (Some pct) cookedKg (Loaded.luke_foodid mapping) None None
                   "none" None 0 0)
            else
              let food := Loaded.luke_foodid mapping ≫= fun fid => lukeFoods !! fid in
              let factor := resolveFactor (Some mapping) food in
              match value factor with
              | None =>
                  pushUnmapped acc cookedKg
                    (item unmapped "no CO2 factor (no override and LUKE factor missing)"
                       (ing_core ing) baseName (Some pct) cookedKg
                       (Loaded.luke_foodid mapping) (food ≫= name_fi) (food ≫= name_en)
                       "none" None 0 0)
              | Some factorValue =>
                  match massForFactorKg weightState mapping cookedKg with
                  | None =>
                      pushUnmapped acc cookedKg
                        (item unmapped
                           "weight_state=raw but yield_cooked_per_raw missing/invalid"
                           (ing_core ing) baseName (Some pct) cookedKg
                           (Loaded.luke_foodid mapping)
                           (food ≫= name_fi) (food ≫= name_en)
                           (source factor) (value factor) 0 0)
                  | Some massKg =>
                      let co2 := massKg * factorValue in
                      pushMapped acc cookedKg co2
                        (item mapped "ok" (ing_core ing) baseName (Some pct) cookedKg
                           (Loaded.luke_foodid mapping)
                           (food ≫= name_fi) (food ≫= name_en)
                           (source factor) (value factor) massKg co2)
                  end
              end
        end
  end.

(** One round of the loop over the allocations, for a component whose
    sorted ingredient rows are [compIngs]. *)
Definition componentRound (compIngs : list ComponentIngredientRow)
    (mappings : gmap string MappingRow) (lukeFoods : gmap Z LukeFoodRow) (acc : Acc)
  : result Acc :=
  match compIngs with
  | [] => Ok (fallbackStep mappings lukeFoods acc)
  | _ :: _ =>
      let sharePctByRow :=
        map (fun r => match toNum (ing_share_of_component r) with
                      | None => None
                      | Some v => Some (clamp v 0 100)
                      end) compIngs in
      let hasMissingShare := existsb isNull sharePctByRow in
      let sumPct := sumNums (map (default 0) sharePctByRow) in
      if Qle_bool sumPct 0 then
        Ok (pushUnmapped acc componentWeightKg
              (item unmapped "share_of_component missing for all rows"
                 "NO_SHARES_PROVIDED" "NO_SHARES_PROVIDED" None componentWeightKg
                 None None None "none" None 0 0))
      else if Qlt_bool (100 + ING_SHARE_MAX_OVER_EPS) sumPct then
        Err (IngredientShareSumExceeds componentId sumPct)
      else
        let normFactor := normFactorOf hasMissingShare sumPct in
        let allocatedFrac := clamp (sumPct * normFactor / 100) 0 1 in
        let unallocatedKg :=
          if Qeq_bool normFactor 1 then componentWeightKg * (1 - allocatedFrac) else 0 in
        let acc :=
          fold_left (ingredientStep normFactor mappings lukeFoods)
                    (combine compIngs sharePctByRow) acc in
        if Qlt_bool REMAINDER_EPS unallocatedKg then
          Ok (pushUnmapped acc unallocatedKg
                (item unmapped "unallocated remainder (shares < 100)"
                   "UNALLOCATED_REMAINDER" "UNALLOCATED_REMAINDER" None unallocatedKg
                   None None None "none" None 0 0))
        else Ok acc
  end.
End Component.

(** [compIngs]: the rows of a component, sorted by [seq_no ?? 9999]. *)
Definition compIngsOf (allIngs : list ComponentIngredientRow) (componentId : Z)
  : list ComponentIngredientRow :=
  sortByKey (fun r => default 9999%Z (ing_seq_no r))
            (List.filter (fun r => Z.eqb (ing_component_id r) componentId) allIngs).

Definition componentStep (allIngs : list ComponentIngredientRow)
    (mappings : gmap string MappingRow) (lukeFoods : gmap Z LukeFoodRow)
    (acc : Acc) (alloc : Allocation) : result Acc :=
  let componentId := component_id_of (component alloc) in
  componentRound componentId (componentNameOf (component alloc))
    (component_type_of (component alloc)) (alloc_weight_kg alloc)
    (compIngsOf allIngs componentId) mappings lukeFoods acc.

(** [for (const alloc of allocations) { ... }]; a throw ends the loop. *)
Fixpoint allocationsLoop (allIngs : list ComponentIngredientRow)
    (mappings : gmap string MappingRow) (lukeFoods : gmap Z LukeFoodRow)
    (allocations : list Allocation) (acc : Acc) : result Acc :=
  match allocations with
  | [] => Ok acc
  | alloc :: rest =>
      let* acc' := componentStep allIngs mappings lukeFoods acc alloc in
      allocationsLoop allIngs mappings lukeFoods rest acc'
  end.

Definition loadDishComponents (db : Db) (dishId : Z) : list DishComponentRow :=
  sortByKey component_id_of
    (List.filter (fun c => Z.eqb (component_dish_id c) dishId) (dish_components db)).

Definition loadComponentIngredients (db : Db) (componentIds : list Z)
  : list ComponentIngredientRow :=
  match componentIds with
  | [] => []
  | _ :: _ =>
      List.filter (fun r => memZ (ing_component_id r) componentIds) (component_ingredients db)
  end.

Definition loadMappings (db : Db) (cores : list string) : gmap string MappingRow :=
  match cores with
  | [] => ∅
  | _ :: _ =>
      mappingsByCore
        (List.filter (fun m => (activeMapping db m && memString (im_core m) cores)%bool)
                     (ingredient_mappings db))
  end.

Definition loadLukeFoods (db : Db) (foodids : list Z) : gmap Z LukeFoodRow :=
  match foodids with
  | [] => ∅
  | _ :: _ => foodsById (List.filter (fun f => memZ (lf_foodid f) foodids) (luke_foods db))
  end.

(** The cores whose mappings are loaded: those of the ingredient rows, and
    the name core of every allocated component without ingredient rows. *)
Definition coresOf (allIngs : list ComponentIngredientRow) (allocations : list Allocation)
  : list string :=
  let hasIngredientsForComponent := map ing_component_id allIngs in
  uniqStrings
    (map ing_core allIngs ++
     omap (fun alloc =>
             if memZ (component_id_of (component alloc)) hasIngredientsForComponent
             then None
             else
               let core :=
                 normalizeCoreFromName (default ""%string (component_name_raw (component alloc))) in
               if (negb (String.eqb core "") && negb (String.eqb core "UNKNOWN"))%bool
               then Some core else None)
          allocations).

(** Everything after the allocations are known. *)
Definition breakdownOf (db : Db) (donationRow : DonationRow) (donatedWeightKg : Q)
    (allocations : list Allocation) : result DonationBreakdown :=
  let componentIds := map (fun a => component_id_of (component a)) allocations in
  let allIngs := loadComponentIngredients db componentIds in
  let cores := coresOf allIngs allocations in
  let mappings := loadMappings db cores in
  let foodids :=
    uniqZ (omap (fun kv => Loaded.luke_foodid (snd kv)) (map_to_list mappings)) in
  let lukeFoods := loadLukeFoods db foodids in
  let* acc := allocationsLoop allIngs mappings lukeFoods allocations emptyAcc in
  Ok {| donation := donationRow;
        mapping_source_system := SOURCE_SYSTEM db;
        totals :=
          {| total_food_mass_kg := donatedWeightKg;
             total_co2e_kg := totalCo2 acc;
             co2_per_kg :=
               if Qlt_bool 0 donatedWeightKg then totalCo2 acc / donatedWeightKg else 0;
             mapped_mass_kg := mappedMass acc;
             unmapped_mass_kg := unmappedMass acc;
             ignored_mass_kg := ignoredMass acc |};
        items := acc_items acc |}.

Definition computeDonationBreakdown (db : Db) (donationId : Z) : result DonationBreakdown :=
  match single (List.filter (fun d => Z.eqb (donation_id_of d) donationId) (donations db)) with
  | None => Err (DonationNotFound donationId)
  | Some donationRow =>
      match Number (donation_weight donationRow) with
      | None => Err (InvalidDonatedWeight donationId)
      | Some donatedWeightKg =>
          if Qle_bool donatedWeightKg 0 then Err (InvalidDonatedWeight donationId)
          else
            match donation_component_id donationRow with
            | Some componentId =>
                match List.filter (fun c => Z.eqb (component_id_of c) componentId)
                                  (dish_components db) with
                | _ :: _ :: _ => Err (ComponentLoadFailed componentId)
                | rows =>
                    let comp :=
                      default {| component_id_of := componentId;
                                 component_dish_id := default (-1)%Z (donation_dish_id donationRow);
                                 component_name_raw := Some "(missing dish_components row)"%string;
                                 component_type_of := None;
                                 component_plate_share := JNull |}
                              (head rows) in
                    breakdownOf db donationRow donatedWeightKg
                      [{| component := comp; alloc_weight_kg := donatedWeightKg;
                          used_component_fallback := false |}]
                end
            | None =>
                match donation_dish_id donationRow with
                | None => Err (NeitherDishNorComponent donationId)
                | Some dishId =>
                    let comps := loadDishComponents db dishId in
                    match comps with
                    | [] =>
                        Ok {| donation := donationRow;
                              mapping_source_system := SOURCE_SYSTEM db;
                              totals :=
                                {| total_food_mass_kg := donatedWeightKg;
                                   total_co2e_kg := 0;
                                   co2_per_kg := 0;
                                   mapped_mass_kg := 0;
                                   unmapped_mass_kg := donatedWeightKg;
                                   ignored_mass_kg := 0 |};
                              items :=
                                [item (-1) "NO_COMPONENTS" None donatedWeightKg unmapped
                                   "dish has no dish_components rows" "NO_COMPONENTS"
                                   "NO_COMPONENTS" None donatedWeightKg None None None
                                   "none" None 0 0] |}
                    | _ :: _ =>
                        let* shares := normalizeComponentShares comps in
                        breakdownOf db donationRow donatedWeightKg
                          (map (fun cs => {| component := fst cs;
                                             alloc_weight_kg := donatedWeightKg * snd cs;
                                             used_component_fallback := false |})
                               (combine comps shares))
                    end
                end
            end
      end
  end.

End DonationBreakdown.

(** ** src/donationBuckets.ts *)

Module DonationBuckets.

Definition ofNat (n : nat) : Q := inject_Z (Z.of_nat n).

Definition missingIdxOf (provided : list (option Q)) : list nat :=
  map snd (List.filter (fun x => isNull (fst x)) (imap (fun i v => (v, i)) provided)).

Definition addAt (add : Q) (missingIdx : list nat) (shares : list Q) : list Q :=
  fold_left (fun sh i => alter (fun x => x + add) i sh) missingIdx shares.

(** This copy never throws: a sum above 1 is rescaled. *)
Definition normalizeComponentShares (components : list DishComponentRow) : list Q :=
  let provided :=
    map (fun c => match toNum (component_plate_share c) with
                  | None => None
                  | Some v => Some (clamp v 0 1)
                  end) components in
  let sumProvided := fold_left (fun acc v => acc + default 0 v) provided 0 in
  if Qle_bool sumProvided 0 then
    let eq := 1 / ofNat (length components) in
    map (fun _ => eq) components
  else
    let shares := map (default 0) provided in
    let missingIdx := missingIdxOf provided in
    let sumNow := sumNums shares in
    let remainder := 1 - sumNow in
    let shares :=
      if (negb (Nat.eqb (length missingIdx) 0) && Qlt_bool 0 remainder)%bool
      then addAt (remainder / ofNat (length missingIdx)) missingIdx shares
      else shares in
    let sumFinal := sumNums shares in
    if (Qlt_bool 0 sumFinal
        && Qle_bool (Qabs (sumFinal - 1)) PLATE_SHARE_NORMALIZE_EPS)%bool
    then map (fun s => s / sumFinal) shares
    else if Qlt_bool 1 sumFinal then map (fun s => s / sumFinal) shares
    else shares.

(** The module's own copy of the factor resolver. *)
Definition getCo2FactorKgPerKg (mapping : option MappingRow) (food : option LukeFoodRow)
  : option Q :=
  match toNum (ofField (mapping ≫= co2_override_per_kg)) with
  | Some ov => Some ov
  | None =>
      match toNum (ofField (food ≫= kg_co2e_per_kg)) with
      | Some kg => Some kg
      | None =>
          match toNum (ofField (food ≫= g_co2e_per_100g)) with
          | Some g => Some (g * 0.01)
          | None => None
          end
      end
  end.

Record DonationUnmappedBuckets : Type := {
  donation_id : Z;
  mapping_source_system : string;
  missing_share_mass_kg : Q;
  mapping_or_factor_unmapped_mass_kg : Q;
}.

(** The two running sums [missingShareMassKg] and [mappingUnmappedMassKg]. *)
Record Sums : Type := {
  missingShareMassKg : Q;
  mappingUnmappedMassKg : Q;
}.

Definition noSums : Sums := {| missingShareMassKg := 0; mappingUnmappedMassKg := 0 |}.

Definition addMissingShare (acc : Sums) (kg : Q) : Sums :=
  {| missingShareMassKg := missingShareMassKg acc + kg;
     mappingUnmappedMassKg := mappingUnmappedMassKg acc |}.

(** [sharePct]: [toNum] of the share, clamped to 0..100. *)
Definition sharePct (v : jsval) : option Q :=
  match toNum v with
  | None => None
  | Some n => Some (clamp n 0 100)
  end.

(** The body of the loop over the rows of a component: what it adds to
    [mappingUnmappedMassKg]. *)
Definition ingredientStep (componentWeightKg : Q)
    (mappingByCore : gmap string MappingRow) (foodById : gmap Z LukeFoodRow)
    (mappingUnmapped : Q) (rowShare : ComponentIngredientRow * option Q) : Q :=
  let '(row, pct) := rowShare in
  match pct with
  | None => mappingUnmapped
  | Some pct =>
      let frac := clamp (pct / 100) 0 1 in
      let cookedKg := componentWeightKg * frac in
      if (ing_is_water row || ing_is_salt row)%bool then mappingUnmapped
      else if Qlt_bool frac MIN_SHARE_FRAC then mappingUnmapped
      else
        match mappingByCore !! ing_core row with
        | None => mappingUnmapped + cookedKg
        | Some mapping =>
            let weightState := weightStateOf (weight_state mapping) in
            if String.eqb weightState "ignore" then mappingUnmapped
            else
              let food := Loaded.luke_foodid mapping ≫= fun fid => foodById !! fid in
              match getCo2FactorKgPerKg (Some mapping) food with
              | None => mappingUnmapped + cookedKg
              | Some _ =>
                  if String.eqb weightState "raw" then
                    match yield_cooked_per_raw mapping with
                    | Some y => if Qlt_bool 0 y then mappingUnmapped else mappingUnmapped + cookedKg
                    | None => mappingUnmapped + cookedKg
                    end
                  else mappingUnmapped
              end
        end
  end.

(** One round of the loop over the allocations; [ingredients] are the rows
    loaded for all allocated components. *)
Definition allocationStep (db : Db) (ingredients : list ComponentIngredientRow)
    (acc : Sums) (alloc : Z * Q) : Sums :=
  let '(component_id, componentWeightKg) := alloc in
  if Qle_bool componentWeightKg 0 then acc
  else
    let rows := List.filter (fun r => Z.eqb (ing_component_id r) component_id) ingredients in
    match rows with
    | [] => addMissingShare acc componentWeightKg
    | _ :: _ =>
        let sharePct := map (fun r => sharePct (ing_share_of_component r)) rows in
        let sumPct := sumNums (map (default 0) sharePct) in
        if Qle_bool sumPct 0 then addMissingShare acc componentWeightKg
        else
          let acc :=
            if Qlt_bool sumPct 100
            then addMissingShare acc (componentWeightKg * clamp (1 - sumPct / 100) 0 1)
            else acc in
          let cores := uniqStrings (map ing_core rows) in
          let mappingsData :=
            List.filter (fun m => (activeMapping db m && memString (im_core m) cores)%bool)
                        (ingredient_mappings db) in
          let mappingByCore := mappingsByCore mappingsData in
          let foodids := foodidsOf (map im_luke_foodid mappingsData) in
          let foodById :=
            match foodids with
            | [] => ∅
            | _ :: _ =>
                foodsById (List.filter (fun f => memZ (lf_foodid f) foodids) (luke_foods db))
            end in
          {| missingShareMassKg := missingShareMassKg acc;
             mappingUnmappedMassKg :=
               fold_left (ingredientStep componentWeightKg mappingByCore foodById)
                         (combine rows sharePct) (mappingUnmappedMassKg acc) |}
    end.

Definition bucketsOf (db : Db) (donationId : Z) (acc : Sums) : DonationUnmappedBuckets :=
  {| donation_id := donationId;
     mapping_source_system := SOURCE_SYSTEM db;
     missing_share_mass_kg := missingShareMassKg acc;
     mapping_or_factor_unmapped_mass_kg := mappingUnmappedMassKg acc |}.

(** Everything after the allocations are known. *)
Definition bucketsOfAllocations (db : Db) (donationId : Z) (allocations : list (Z * Q))
  : DonationUnmappedBuckets :=
  let componentIds := map fst allocations in
  let ingredients :=
    List.filter (fun r => memZ (ing_component_id r) componentIds) (component_ingredients db) in
  bucketsOf db donationId (fold_left (allocationStep db ingredients) allocations noSums).

Definition computeDonationUnmappedBuckets (db : Db) (donationId : Z)
  : result DonationUnmappedBuckets :=
  match single (List.filter (fun d => Z.eqb (donation_id_of d) donationId) (donations db)) with
  | None => Err (DonationNotFound donationId)
  | Some donation =>
      match Number (donation_weight donation) with
      | None => Err (InvalidDonatedWeight donationId)
      | Some donatedWeightKg =>
          if Qle_bool donatedWeightKg 0 then Err (InvalidDonatedWeight donationId)
          else
            match donation_component_id donation with
            | Some componentId =>
                Ok (bucketsOfAllocations db donationId [(componentId, donatedWeightKg)])
            | None =>
                match donation_dish_id donation with
                | None => Err (NeitherDishNorComponent donationId)
                | Some dishId =>
                    let comps :=
                      List.filter (fun c => Z.eqb (component_dish_id c) dishId)
                                  (dish_components db) in
                    match comps with
                    | [] =>
                        Ok {| donation_id := donationId;
                              mapping_source_system := SOURCE_SYSTEM db;
                              missing_share_mass_kg := donatedWeightKg;
                              mapping_or_factor_unmapped_mass_kg := 0 |}
                    | _ :: _ =>
                        let shares := normalizeComponentShares comps in
                        Ok (bucketsOfAllocations db donationId
                              (map (fun cs => (component_id_of (fst cs),
                                               donatedWeightKg * snd cs))
                                   (combine comps shares)))
                    end
                end
            end
      end
  end.

End DonationBuckets.

(** * Vocabulary of the statements *)

(** The reference food the ingredient loop looks up for a mapping. *)
Definition foodFor (foods : gmap Z LukeFoodRow) (mapping : MappingRow) : option LukeFoodRow :=
  Loaded.luke_foodid mapping ≫= fun fid => foods !! fid.

(** A leaf reaches the mapping lookup when it has a share, is neither water
    nor salt, and its fraction is not below the threshold. *)
Definition significant (row : ComponentIngredientRow) (frac : Q) : Prop :=
  ing_is_water row = false /\ ing_is_salt row = false /\ MIN_SHARE_FRAC <= frac.

(** The same, whatever the rounding of the source's doubles: the exact
    fraction lies above the threshold. At an exact fraction of 0.10 the test
    [frac < MIN_SHARE_FRAC] of the source is decided by the rounding of
    [pctRaw * normFactor / 100]: the share 9.7 of a rescaled sum of 97
    evaluates to 0.09999999999999998 and is ignored. *)
Definition clearlySignificant (row : ComponentIngredientRow) (frac : Q) : Prop :=
  ing_is_water row = false /\ ing_is_salt row = false /\ MIN_SHARE_FRAC < frac.

(** [baseName] of an ingredient row in the breakdown. *)
Definition baseNameOf (r : ComponentIngredientRow) : string :=
  if String.eqb (DonationBreakdown.trimmed (ing_base_name r)) ""
  then ing_core r else DonationBreakdown.trimmed (ing_base_name r).

(** The sum of the three mass buckets of a component computation. *)
Definition massOf (c : CarbonCalculator.Carbon) : Q :=
  CarbonCalculator.mappedKg c + CarbonCalculator.unmappedKg c + CarbonCalculator.ignoredKg c.

(** [sumPct] of a component: the sum of the clamped shares of its rows, a
    missing share counting as 0. *)
Definition sharesOf (db : Db) (componentId : Z) : list (option Q) :=
  map (fun r => CarbonCalculator.sharePct (ing_share_of_component r))
      (CarbonCalculator.ingredientsOf db componentId).

Definition sumPctOf (db : Db) (componentId : Z) : Q :=
  sumNums (map (default 0) (sharesOf db componentId)).


(** A mapping row with another weight state. *)
Definition withWeightState (ws : option string) (m : MappingRow) : MappingRow :=
  {| Loaded.ingredient_core := Loaded.ingredient_core m;
     Loaded.luke_foodid := Loaded.luke_foodid m;
     match_type := match_type m;
     weight_state := ws;
     yield_cooked_per_raw := yield_cooked_per_raw m;
     co2_override_per_kg := co2_override_per_kg m |}.

(** The mapping row the component-name fallback of the calculator ends up
    with: the single component row, the core of its name, the first active
    mapping of that core. *)
Definition fallbackMappingOf (db : Db) (componentId : Z) : option MappingRow :=
  match single (List.filter (fun c => Z.eqb (component_id_of c) componentId)
                            (dish_components db)) with
  | None => None
  | Some comp =>
      let core := normalizeCoreFromName (default ""%string (component_name_raw comp)) in
      if (String.eqb core "" || String.eqb core "UNKNOWN")%bool then None
      else
        toMappingRow <$>
          head (List.filter (fun m => (activeMapping db m && String.eqb (im_core m) core)%bool)
                            (ingredient_mappings db))
  end.

(** The reference food the fallback loads for a mapping. *)
Definition fallbackFoodOf (db : Db) (mapping : MappingRow) : option LukeFoodRow :=
  match Loaded.luke_foodid mapping with
  | Some fid =>
      toLukeFoodRow <$> head (List.filter (fun f => Z.eqb (lf_foodid f) fid) (luke_foods db))
  | None => None
  end.

(** The whole component mass in one bucket. *)
Definition allUnmapped (kg : Q) : CarbonCalculator.Carbon :=
  {| CarbonCalculator.co2eKg := 0; CarbonCalculator.unmappedKg := kg;
     CarbonCalculator.mappedKg := 0; CarbonCalculator.ignoredKg := 0 |}.
Definition allIgnored (kg : Q) : CarbonCalculator.Carbon :=
  {| CarbonCalculator.co2eKg := 0; CarbonCalculator.unmappedKg := 0;
     CarbonCalculator.mappedKg := 0; CarbonCalculator.ignoredKg := kg |}.
Definition allMapped (kg co2 : Q) : CarbonCalculator.Carbon :=
  {| CarbonCalculator.co2eKg := co2; CarbonCalculator.unmappedKg := 0;
     CarbonCalculator.mappedKg := kg; CarbonCalculator.ignoredKg := 0 |}.

(** [sharePctByRow] and [sumPct] as the breakdown computes them from the sorted
    rows of a component. *)
Definition breakdownShares (compIngs : list ComponentIngredientRow) : list (option Q) :=
  map (fun r => match toNum (ing_share_of_component r) with
                | None => None
                | Some v => Some (clamp v 0 100)
                end) compIngs.

Definition breakdownSumPct (compIngs : list ComponentIngredientRow) : Q :=
  sumNums (map (default 0) (breakdownShares compIngs)).

(** The mappings and foods a component computation of the calculator loads,
    and the accumulators after its ingredient loop has run with a given
    [normFactor]. *)
Definition mappingByCoreOf (db : Db) (componentId : Z) : gmap string MappingRow :=
  mappingsByCore
    (CarbonCalculator.mappingsDataOf db
       (uniqStrings (map ing_core (CarbonCalculator.ingredientsOf db componentId)))).

Definition foodByIdOf (db : Db) (componentId : Z) : gmap Z LukeFoodRow :=
  foodsById
    (CarbonCalculator.foodsDataOf db
       (foodidsOf
          (map im_luke_foodid
             (CarbonCalculator.mappingsDataOf db
                (uniqStrings (map ing_core (CarbonCalculator.ingredientsOf db componentId))))))).

Definition loopTotals (db : Db) (componentId : Z) (w normFactor : Q) : CarbonCalculator.Carbon :=
  fold_left
    (CarbonCalculator.ingredientStep w normFactor (mappingByCoreOf db componentId)
       (foodByIdOf db componentId))
    (combine (CarbonCalculator.ingredientsOf db componentId) (sharesOf db componentId))
    CarbonCalculator.noCarbon.

(** The cooked mass of a leaf; a row without share has no mass of its own. *)
Definition leafKg (w normFactor : Q) (share : option Q) : Q :=
  match share with
  | Some p => cookedKgOf w normFactor p
  | None => 0
  end.

(** [unallocatedKg] of a component computation. *)
Definition unallocatedKgOf (w normFactor sumPct : Q) : Q :=
  w * (1 - clamp (sumPct * normFactor / 100) 0 1).

(** [providedShares] and [sumProvided] of the components of a dish, in the
    calculator and in the two normalisers. *)
Definition providedSharesOf (comps : list DishComponentRow) : list (option Q) :=
  map (fun c => CarbonCalculator.plateShare (component_plate_share c)) comps.

Definition sumProvidedOf (comps : list DishComponentRow) : Q :=
  fold_left (fun acc v => acc + default 0 v) (providedSharesOf comps) 0.

Definition normaliserProvided (comps : list DishComponentRow) : list (option Q) :=
  map (fun c => match toNum (component_plate_share c) with
                | None => None
                | Some v => Some (clamp v 0 1)
                end) comps.

Definition normaliserSumProvided (comps : list DishComponentRow) : Q :=
  fold_left (fun acc v => acc + default 0 v) (normaliserProvided comps) 0.

(** The sum of the plate shares as stored, a missing one counting as 0. *)
Definition storedPlateSum (comps : list DishComponentRow) : Q :=
  sumNums (map (fun c => default 0 (toNum (component_plate_share c))) comps).

(** The row a donation id selects, as [.eq("id", donationId).single()] reads it. *)
Definition donationOf (db : Db) (donationId : Z) : option DonationRow :=
  single (List.filter (fun d => Z.eqb (donation_id_of d) donationId) (donations db)).

(** The store with another [donation_metrics] table. *)
Definition withMetrics (ms : list DonationMetricsRow) (db : Db) : Db :=
  {| env_MAPPING_SOURCE_SYSTEM := env_MAPPING_SOURCE_SYSTEM db;
     donations := donations db;
     dish_components := dish_components db;
     component_ingredients := component_ingredients db;
     ingredient_mappings := ingredient_mappings db;
     luke_foods := luke_foods db;
     donation_metrics := ms |}.

(** The [donation_metrics] row that [computeDonationCarbon] writes for a result,
    and the rows of the table that belong to other donations. *)
Definition metricsRowOf (r : CarbonCalculator.DonationCarbonResult) : DonationMetricsRow :=
  {| dm_donation_id := CarbonCalculator.donation_id r;
     dm_total_co2e_kg := CarbonCalculator.total_co2e_kg r;
     dm_total_food_mass_kg := CarbonCalculator.total_food_mass_kg r;
     dm_unmapped_mass_kg := CarbonCalculator.unmapped_mass_kg r |}.

Definition otherMetrics (donationId : Z) (db : Db) : list DonationMetricsRow :=
  List.filter (fun r => negb (Z.eqb (dm_donation_id r) donationId)) (donation_metrics db).

(** None of the three mass buckets is negative. *)
Definition nonnegMass (c : CarbonCalculator.Carbon) : Prop :=
  0 <= CarbonCalculator.mappedKg c /\ 0 <= CarbonCalculator.unmappedKg c /\
  0 <= CarbonCalculator.ignoredKg c.

(** The four running totals of the breakdown, read as the accumulators of the
    calculator. *)
Definition totalsOf (acc : DonationBreakdown.Acc) : CarbonCalculator.Carbon :=
  {| CarbonCalculator.co2eKg := DonationBreakdown.totalCo2 acc;
     CarbonCalculator.unmappedKg := DonationBreakdown.unmappedMass acc;
     CarbonCalculator.mappedKg := DonationBreakdown.mappedMass acc;
     CarbonCalculator.ignoredKg := DonationBreakdown.ignoredMass acc |}.

Definition statusEqb (a b : DonationBreakdown.BreakdownStatus) : bool :=
  match a, b with
  | DonationBreakdown.mapped, DonationBreakdown.mapped
  | DonationBreakdown.unmapped, DonationBreakdown.unmapped
  | DonationBreakdown.ignored, DonationBreakdown.ignored => true
  | _, _ => false
  end.

(** The cooked mass of the items with a given status, and the emissions of
    all items. *)
Definition massWithStatus (st : DonationBreakdown.BreakdownStatus)
    (items : list DonationBreakdown.BreakdownItem) : Q :=
  sumNums (map DonationBreakdown.cooked_mass_kg
               (List.filter (fun it => statusEqb (DonationBreakdown.status it) st) items)).

Definition co2Of (items : list DonationBreakdown.BreakdownItem) : Q :=
  sumNums (map DonationBreakdown.co2e_kg items).

(** The running totals are the sums over the items pushed so far. *)
Definition totalsMatchItems (acc : DonationBreakdown.Acc) : Prop :=
  DonationBreakdown.mappedMass acc
    == massWithStatus DonationBreakdown.mapped (DonationBreakdown.acc_items acc) /\
  DonationBreakdown.unmappedMass acc
    == massWithStatus DonationBreakdown.unmapped (DonationBreakdown.acc_items acc) /\
  DonationBreakdown.ignoredMass acc
    == massWithStatus DonationBreakdown.ignored (DonationBreakdown.acc_items acc) /\
  DonationBreakdown.totalCo2 acc == co2Of (DonationBreakdown.acc_items acc).

(** An item is well formed: a mapped item carries the factor that produced its
    emissions, any other item carries neither emissions nor a factor mass. *)
Definition itemWellFormed (it : DonationBreakdown.BreakdownItem) : Prop :=
  match DonationBreakdown.status it with
  | DonationBreakdown.mapped =>
      exists factor,
        DonationBreakdown.factor_kgco2_per_kg it = Some factor /\
        DonationBreakdown.co2e_kg it = DonationBreakdown.mass_for_factor_kg it * factor
  | _ => DonationBreakdown.co2e_kg it = 0 /\ DonationBreakdown.mass_for_factor_kg it = 0
  end.

(** The invariant of the loops of the breakdown. *)
Definition accWellFormed (acc : DonationBreakdown.Acc) : Prop :=
  totalsMatchItems acc /\ Forall itemWellFormed (DonationBreakdown.acc_items acc).

(** The characters of a mapping key: A-Z, 0-9 and the underscore. *)
Definition isCoreChar (c : ascii) : bool :=
  (Str.isUpper c || Str.isDigit c || Str.isChar 95 c)%bool.

(** Two sets of accumulators that agree as rationals. *)
Definition carbonEq (a b : CarbonCalculator.Carbon) : Prop :=
  CarbonCalculator.co2eKg a == CarbonCalculator.co2eKg b /\
  CarbonCalculator.unmappedKg a == CarbonCalculator.unmappedKg b /\
  CarbonCalculator.mappedKg a == CarbonCalculator.mappedKg b /\
  CarbonCalculator.ignoredKg a == CarbonCalculator.ignoredKg b.

(** Two food tables answer alike for the foods the mappings refer to. *)
Definition sameFoodsFor (M : gmap string MappingRow) (F F' : gmap Z LukeFoodRow) : Prop :=
  forall core m fid, M !! core = Some m -> Loaded.luke_foodid m = Some fid -> F !! fid = F' !! fid.

(** The totals of a breakdown, read as the accumulators of the calculator. *)
Definition breakdownTotals (b : DonationBreakdown.DonationBreakdown) : CarbonCalculator.Carbon :=
  {| CarbonCalculator.co2eKg := DonationBreakdown.total_co2e_kg (DonationBreakdown.totals b);
     CarbonCalculator.unmappedKg := DonationBreakdown.unmapped_mass_kg (DonationBreakdown.totals b);
     CarbonCalculator.mappedKg := DonationBreakdown.mapped_mass_kg (DonationBreakdown.totals b);
     CarbonCalculator.ignoredKg := DonationBreakdown.ignored_mass_kg (DonationBreakdown.totals b) |}.

(** Both running sums of the buckets are non-negative; their total. *)
Definition nonnegSums (acc : DonationBuckets.Sums) : Prop :=
  0 <= DonationBuckets.missingShareMassKg acc /\ 0 <= DonationBuckets.mappingUnmappedMassKg acc.

Definition sumsTotal (acc : DonationBuckets.Sums) : Q :=
  DonationBuckets.missingShareMassKg acc + DonationBuckets.mappingUnmappedMassKg acc.

(** The share sum of a component is on neither of the two thresholds its
    computation tests, [Math.abs(sumPct - 100) <= 5] (from below) and
    [sumPct > 100 + 0.5]: a double sum of shares whose exact sum is 95 or
    100.5 can fall on either side (0.2 + 84.4 + 15.9 evaluates to
    100.50000000000001, 70.91 + 0.35 + 23.74 to 94.99999999999999). *)
Definition offShareThresholds (sumPct : Q) : Prop :=
  ~ sumPct == 100 - ING_SHARE_NORMALIZE_EPS /\ ~ sumPct == 100 + ING_SHARE_MAX_OVER_EPS.

(** No leaf of a component has the exact fraction 0.10. *)
Definition noLeafOnThreshold (normFactor : Q) (shares : list (option Q)) : Prop :=
  Forall (fun s => forall p, s = Some p -> ~ fracOf normFactor p == MIN_SHARE_FRAC) shares.

(** The clamped plate shares of a dish sum to neither of the two thresholds
    that [Math.abs(sumFinal - 1) <= 0.03] and [sumFinal > 1 + 0.03] test: in
    doubles 0.47 + 0.5 and 0.5 + 0.53 are further than 0.03 from 1, and the
    latter is not above [1 + 0.03]. The sum is that of the shares present;
    where a share is missing and the others sum to 0.97 the sum tested is in
    fact 1, so the predicate also leaves out a case that needs no proviso. *)
Definition offPlateThresholds (comps : list DishComponentRow) : Prop :=
  ~ sumProvidedOf comps == 1 - PLATE_SHARE_NORMALIZE_EPS /\
  ~ sumProvidedOf comps == 1 + PLATE_SHARE_NORMALIZE_EPS.

(** The components whose plate shares a donation is split by: those of its
    dish when it targets a dish, none when it targets a component. *)
Definition componentsOfDonation (db : Db) (donationId : Z) : list DishComponentRow :=
  match donationOf db donationId with
  | Some d =>
      match donation_component_id d, donation_dish_id d with
      | None, Some dishId => CarbonCalculator.componentsOfDish db dishId
      | _, _ => []
      end
  | None => []
  end.

(** The sort key of an ingredient row in the breakdown: [seq_no ?? 9999]. *)
Definition seqKey (r : ComponentIngredientRow) : Z := default 9999%Z (ing_seq_no r).

(** The length of the run of underscores a list starts with, the list after
    that run, and the list without the run of underscores it ends with. *)
Fixpoint runLen (s : list ascii) : nat :=
  match s with
  | c :: rest => if Str.isChar 95 c then S (runLen rest) else 0%nat
  | [] => 0%nat
  end.

Fixpoint dropRun (s : list ascii) : list ascii :=
  match s with
  | c :: rest => if Str.isChar 95 c then dropRun rest else s
  | [] => []
  end.

Fixpoint stripEnd (s : list ascii) : list ascii :=
  match s with
  | c :: rest =>
      if (Str.isChar 95 c && forallb (Str.isChar 95) rest)%bool then []
      else c :: stripEnd rest
  | [] => []
  end.

(** No two underscores in a row; [prevU] tells whether the character before
    the list is an underscore. *)
Fixpoint noDouble (prevU : bool) (s : list ascii) : bool :=
  match s with
  | c :: rest =>
      if Str.isChar 95 c then (negb prevU && noDouble true rest)%bool
      else noDouble false rest
  | [] => true
  end.

(** ** Sample stores *)

Module Sample.

Definition ingredient (componentId : Z) (core : string) (share : jsval) (water salt : bool)
  : ComponentIngredientRow :=
  {| ing_component_id := componentId; ing_seq_no := None; ing_base_name := None;
     ing_core := core; ing_share_of_component := share;
     ing_is_water := water; ing_is_salt := salt |}.

Definition mapping (core : string) (foodId : option Z) (weightState : option string)
    (yield override : jsval) : IngredientMappingRow :=
  {| im_source_system := "SODEXO"; im_is_active := true; im_core := core;
     im_luke_foodid := foodId; im_match_type := Some "manual"%string;
     im_weight_state := weightState; im_yield_cooked_per_raw := yield;
     im_co2_override_per_kg := override |}.

Definition food (foodId : Z) (perKg per100g : jsval) : LukeFoodsRow :=
  {| lf_foodid := foodId; lf_name_fi := None; lf_name_en := None;
     lf_kg_co2e_per_kg := perKg; lf_g_co2e_per_100g := per100g |}.

Definition component (id dishId : Z) (name : string) (plateShare : jsval) : DishComponentRow :=
  {| component_id_of := id; component_dish_id := dishId; component_name_raw := Some name;
     component_type_of := None; component_plate_share := plateShare |}.

Definition donation (id : Z) (dishId componentId : option Z) (weightKg : Q) : DonationRow :=
  {| donation_id_of := id; donation_kitchen_id := None; donation_dish_id := dishId;
     donation_component_id := componentId; donation_weight := JNum weightKg |}.

Definition store (ds : list DonationRow) (cs : list DishComponentRow)
    (rows : list ComponentIngredientRow) (ms : list IngredientMappingRow)
    (fs : list LukeFoodsRow) : Db :=
  {| env_MAPPING_SOURCE_SYSTEM := None; donations := ds; dish_components := cs;
     component_ingredients := rows; ingredient_mappings := ms; luke_foods := fs;
     donation_metrics := [] |}.



(** Beef mapped on raw weight with yield 0.5 and the factor 2.0 per kg raw;
    one ingredient row at share 50. *)
Definition beefMappings : gmap string MappingRow :=
mappingsByCore [mapping "BEEF" (Some 9%Z) (Some "raw"%string) (JNum 0.5) JNull].
Definition beefFoods : gmap Z LukeFoodRow := foodsById [food 9 (JNum 2.0) JNull].
Definition beefRow : ComponentIngredientRow := ingredient 1 "BEEF" (JNum 50) false false.
Definition beefMapping : MappingRow :=
toMappingRow (mapping "BEEF" (Some 9%Z) (Some "raw"%string) (JNum 0.5) JNull).

(** A component "Rice" without usable ingredient shares, and three stores that
    differ in the mapping of the core RICE: no weight state, the weight state
    "boiled" with an override of 1.5, and the weight state "ignore". *)
Definition riceComponent : DishComponentRow := component 1 7 "Rice" JNull.
Definition riceRowNoShare : ComponentIngredientRow := ingredient 1 "RIISI" JNull false false.

Definition storeRice (ws : option string) (override : jsval) : Db :=
store [donation 1 (Some 7%Z) (Some 1%Z) 10] [riceComponent] [riceRowNoShare]
      [mapping "RICE" None ws JNull override] [].

Definition boiledMapping : MappingRow :=
toMappingRow (mapping "BEEF" (Some 9%Z) (Some "Boiled"%string) JNull JNull).
Definition boiledMappings : gmap string MappingRow :=
mappingsByCore [mapping "BEEF" (Some 9%Z) (Some "Boiled"%string) JNull JNull].

(** The accumulators after the beef leaf (share 50 of a 2 kg component) under
    the weight state "Boiled". *)
Definition boiledLeaf : CarbonCalculator.Carbon :=
CarbonCalculator.ingredientStep 2 1 boiledMappings beefFoods CarbonCalculator.noCarbon
  (beefRow, Some 50).

(** A dish of two components with plate shares 1 and 0; the second component
    has two ingredient rows with shares 60 and 60. *)
Definition storeZeroPlate : Db :=
store [donation 1 (Some 7%Z) None 10]
      [component 1 7 "Rice" (JNum 1); component 2 7 "Sauce" (JNum 0)]
      [ingredient 2 "CREAM" (JNum 60) false false; ingredient 2 "STOCK" (JNum 60) false false]
      [] [].

(** The same two rows under a component that is donated directly. *)
Definition storeOverHundred : Db :=
store [donation 1 (Some 7%Z) (Some 2%Z) 10]
      [component 2 7 "Sauce" JNull]
      [ingredient 2 "CREAM" (JNum 60) false false; ingredient 2 "STOCK" (JNum 60) false false]
      [] [].

(** A dish whose two components carry the plate shares 0.5 and 0.3, without
    ingredient rows and without mappings. *)
Definition storeUnderPlate : Db :=
store [donation 1 (Some 7%Z) None 10]
      [component 1 7 "Rice" (JNum 0.5); component 2 7 "Sauce" (JNum 0.3)]
      [] [] [].

(** A component donated directly, with the shares 60, 40.5 and a missing one. *)
Definition storeOverWithMissing : Db :=
store [donation 1 (Some 7%Z) (Some 1%Z) 10]
      [component 1 7 "Rice" JNull]
      [ingredient 1 "RIISI" (JNum 60) false false;
       ingredient 1 "VESI" (JNum 40.5) false false;
       ingredient 1 "SUOLA" JNull false false]
      [] [].

(** A component donated directly (2 kg) whose two ingredient rows carry the
    shares 48 and 48, and one whose rows carry 52 and 51. *)
Definition storeClose (a b : Q) : Db :=
store [donation 1 (Some 7%Z) (Some 1%Z) 2]
      [component 1 7 "Stew" JNull]
      [ingredient 1 "BEEF" (JNum a) false false; ingredient 1 "ONION" (JNum b) false false]
      [] [].

Definition storeNinetySix : Db := storeClose 48 48.
Definition storeHundredThree : Db := storeClose 52 51.


(** A row flagged as water under the mapped core BEEF, at share 50 of the same
    component, and the accumulators after it. *)
Definition waterRow : ComponentIngredientRow := ingredient 1 "BEEF" (JNum 50) true false.
Definition waterLeaf : CarbonCalculator.Carbon :=
CarbonCalculator.ingredientStep 2 1 beefMappings beefFoods CarbonCalculator.noCarbon
  (waterRow, Some 50).

(** The accumulators after a beef leaf at share 5 of the same component, and
    a component of 2 kg, donated directly, with that leaf and an unmapped one
    at share 95. *)
Definition beefTraceRow : ComponentIngredientRow := ingredient 1 "BEEF" (JNum 5) false false.
Definition beefTrace : CarbonCalculator.Carbon :=
CarbonCalculator.ingredientStep 2 1 beefMappings beefFoods CarbonCalculator.noCarbon
  (beefTraceRow, Some 5).
Definition storeTrace : Db :=
store [donation 1 (Some 7%Z) (Some 1%Z) 2]
      [component 1 7 "Stew" JNull]
      [beefTraceRow; ingredient 1 "ONION" (JNum 95) false false]
      [mapping "BEEF" (Some 9%Z) (Some "raw"%string) (JNum 0.5) JNull]
      [food 9 (JNum 2.0) JNull].



(** A component donated directly (10 kg) with one row at share 70 and one row
    without share. *)
Definition storeSeventy : Db :=
store [donation 1 (Some 7%Z) (Some 1%Z) 10]
      [component 1 7 "Stew" JNull]
      [ingredient 1 "BEEF" (JNum 70) false false; ingredient 1 "ONION" JNull false false]
      [] [].

(** The component "Rice" has a single row without share; the core RICE of its
    name is mapped with the weight state "ignore". *)
Definition storeRiceIgnored : Db := storeRice (Some "ignore"%string) JNull.

(** A dish of two components without plate shares, donated as a whole. *)
Definition storeNoPlateShares : Db :=
store [donation 1 (Some 7%Z) None 10]
      [component 1 7 "Rice" JNull; component 2 7 "Sauce" JNull]
      [] [] [].
Definition wholeDishDonation : DonationRow := donation 1 (Some 7%Z) None 10.

(** The same dish where the core RICE of the first component's name is mapped
    on cooked weight with an override of 1.5. *)
Definition storeEqualSplit : Db :=
store [donation 1 (Some 7%Z) None 10]
      [component 1 7 "Rice" JNull; component 2 7 "Sauce" JNull]
      [] [mapping "RICE" None (Some "cooked"%string) JNull (JNum 1.5)] [].

(** The end-to-end scenario of the specification: a dish of two components
    with plate shares 0.6 and 0.4, 10 kg donated; the first component has one
    ingredient at share 100 mapped on cooked weight with the factor 1.5, the
    second has neither ingredient rows nor a mapping of its name. *)
Definition storeEndToEnd : Db :=
store [donation 1 (Some 7%Z) None 10]
      [component 1 7 "Rice" (JNum 0.6); component 2 7 "Sauce" (JNum 0.4)]
      [ingredient 1 "RIISI" (JNum 100) false false]
      [mapping "RIISI" (Some 5%Z) (Some "cooked"%string) JNull JNull]
      [food 5 (JNum 1.5) JNull].

(** The same store when the metrics of another donation are cached. *)
Definition otherDonationMetrics : DonationMetricsRow :=
{| dm_donation_id := 2; dm_total_co2e_kg := 3; dm_total_food_mass_kg := 4;
   dm_unmapped_mass_kg := 1 |}.
Definition storeWithOtherMetrics : Db := withMetrics [otherDonationMetrics] storeEndToEnd.

(** A dish donation whose dish has no components. *)
Definition storeEmptyDish : Db := store [donation 1 (Some 7%Z) None 10] [] [] [] [].

End Sample.

(** * Properties *)

(** Closed comparisons and equations over [Q] by evaluation. *)
Ltac qeval :=
  vm_compute; first [reflexivity | discriminate | (intros ?; discriminate)].

(** ** The model at work *)

Example normalizeCoreFromName_rice :
  normalizeCoreFromName "  Basmati rice 1,5 kg (RTU) " = "BASMATI_RICE"%string.
Proof. vm_compute. reflexivity. Qed.

Example normalizeCoreFromName_backtracks :
  normalizeCoreFromName "12.5a kpa x" = "5A_X"%string.
Proof. vm_compute. reflexivity. Qed.

Example normalizeCoreFromName_empty :
  normalizeCoreFromName " 2 dl " = "UNKNOWN"%string.
Proof. vm_compute. reflexivity. Qed.

Example end_to_end_scenario :
  exists r db',
    CarbonCalculator.computeDonationCarbon Sample.storeEndToEnd 1 = Ok (r, db') /\
    CarbonCalculator.mapped_mass_kg r == 6 /\
    CarbonCalculator.unmapped_mass_kg r == 4 /\
    CarbonCalculator.ignored_mass_kg r == 0 /\
    CarbonCalculator.total_co2e_kg r == 9 /\
    CarbonCalculator.co2_per_kg r == 0.9 /\
    donation_metrics db' =
      [{| dm_donation_id := 1; dm_total_co2e_kg := CarbonCalculator.total_co2e_kg r;
          dm_total_food_mass_kg := 10;
          dm_unmapped_mass_kg := CarbonCalculator.unmapped_mass_kg r |}].
Proof.
  eexists. eexists. split; [vm_compute; reflexivity|].
  repeat split; vm_compute; reflexivity.
Qed.

Example end_to_end_breakdown :
  exists b,
    DonationBreakdown.computeDonationBreakdown Sample.storeEndToEnd 1 = Ok b /\
    map (fun it => (DonationBreakdown.status it, DonationBreakdown.reason it))
        (DonationBreakdown.items b)
    = [(DonationBreakdown.mapped, "ok"%string);
       (DonationBreakdown.unmapped,
        "no component_ingredients rows; no component-name mapping"%string)] /\
    DonationBreakdown.total_co2e_kg (DonationBreakdown.totals b) == 9.
Proof.
  eexists. split; [vm_compute; reflexivity|]. split; vm_compute; reflexivity.
Qed.

(** ** Comparisons and sums over [Q] *)

Lemma Qlt_bool_iff (x y : Q) : Qlt_bool x y = true <-> x < y.
Proof.
  unfold Qlt_bool. rewrite negb_true_iff.
  split; intros H.
  - apply Qnot_le_lt. intros Hle. apply Qle_bool_iff in Hle. congruence.
  - destruct (Qle_bool y x) eqn:E; [|reflexivity].
    apply Qle_bool_iff in E. exfalso. eapply Qlt_not_le; eauto.
Qed.

Lemma Qlt_bool_false_iff (x y : Q) : Qlt_bool x y = false <-> y <= x.
Proof.
  unfold Qlt_bool. rewrite negb_false_iff. apply Qle_bool_iff.
Qed.

Lemma Qle_bool_false_iff (x y : Q) : Qle_bool x y = false <-> y < x.
Proof.
  rewrite <- Qlt_bool_iff. unfold Qlt_bool.
  destruct (Qle_bool x y); simpl; split; congruence.
Qed.

Lemma clamp_bounds (n lo hi : Q) : lo <= hi -> lo <= clamp n lo hi /\ clamp n lo hi <= hi.
Proof.
  intros H. unfold clamp. split.
  - apply Q.le_max_l.
  - apply Q.max_lub; [assumption | apply Q.le_min_l].
Qed.

Lemma clamp_id (n lo hi : Q) : lo <= n -> n <= hi -> clamp n lo hi == n.
Proof.
  intros H1 H2. unfold clamp.
  rewrite (Q.min_r hi n) by assumption.
  apply Q.max_r. assumption.
Qed.

Lemma clamp_above (n lo hi : Q) : lo <= hi -> hi <= n -> clamp n lo hi == hi.
Proof.
  intros H1 H2. unfold clamp.
  rewrite (Q.min_l hi n) by assumption.
  apply Q.max_r. assumption.
Qed.

Lemma fold_Qplus_acc (l : list Q) (a : Q) : fold_left Qplus l a == a + fold_left Qplus l 0.
Proof.
  revert a. induction l as [|x l IH]; intros a; simpl.
  - ring.
  - rewrite (IH (a + x)), (IH (0 + x)). ring.
Qed.

Lemma sumNums_cons (x : Q) (l : list Q) : sumNums (x :: l) == x + sumNums l.
Proof.
  unfold sumNums. simpl. rewrite fold_Qplus_acc. ring.
Qed.

Lemma sumNums_nonneg (l : list Q) : Forall (fun x => 0 <= x) l -> 0 <= sumNums l.
Proof.
  induction 1 as [|x l Hx _ IH].
  - unfold sumNums; simpl; lra.
  - rewrite sumNums_cons. lra.
Qed.

Lemma sumNums_member_le (l : list Q) (x : Q) :
  Forall (fun y => 0 <= y) l -> In x l -> x <= sumNums l.
Proof.
  induction 1 as [|y l Hy Hl IH]; intros Hin; [destruct Hin|].
  rewrite sumNums_cons. pose proof (sumNums_nonneg l Hl).
  destruct Hin as [->|Hin]; [lra|]. specialize (IH Hin). lra.
Qed.

(** ** The leaf classifier of [carbonCalculator.ts], branch by branch *)

Section CalculatorLeaf.
Import CarbonCalculator.

Variable w normFactor : Q.
Variable mappingByCore : gmap string MappingRow.
Variable foodById : gmap Z LukeFoodRow.
Variable acc : Carbon.
Variable row : ComponentIngredientRow.

Local Abbreviation step := (ingredientStep w normFactor mappingByCore foodById acc).

Lemma step_missing_share : step (row, None) = acc.
Proof. reflexivity. Qed.

Lemma step_water_or_salt (p : Q) :
  (ing_is_water row || ing_is_salt row)%bool = true ->
  step (row, Some p) = addIgnored acc (cookedKgOf w normFactor p).
Proof. intros H. unfold ingredientStep. rewrite H. reflexivity. Qed.

Lemma step_below_threshold (p : Q) :
  ing_is_water row = false -> ing_is_salt row = false ->
  fracOf normFactor p < MIN_SHARE_FRAC ->
  step (row, Some p) = addIgnored acc (cookedKgOf w normFactor p).
Proof.
  intros Hw Hs Hlt. unfold ingredientStep. rewrite Hw, Hs. simpl.
  apply Qlt_bool_iff in Hlt. rewrite Hlt. reflexivity.
Qed.

Lemma step_significant (p : Q) :
  significant row (fracOf normFactor p) ->
  step (row, Some p) =
    match mappingByCore !! ing_core row with
    | None => addUnmapped acc (cookedKgOf w normFactor p)
    | Some mapping =>
        if String.eqb (weightStateOf (weight_state mapping)) "ignore"
        then addIgnored acc (cookedKgOf w normFactor p)
        else
          match getCo2FactorKgPerKg (Some mapping) (foodFor foodById mapping) with
          | None => addUnmapped acc (cookedKgOf w normFactor p)
          | Some factor =>
              match massForFactorKg (weightStateOf (weight_state mapping)) mapping
                      (cookedKgOf w normFactor p) with
              | None => addUnmapped acc (cookedKgOf w normFactor p)
              | Some massKg => addMapped acc (cookedKgOf w normFactor p) (massKg * factor)
              end
          end
    end.
Proof.
  intros (Hw & Hs & Hge). unfold ingredientStep. rewrite Hw, Hs. simpl.
  apply Qlt_bool_false_iff in Hge. rewrite Hge. reflexivity.
Qed.

(** Whatever the branch, a leaf moves its cooked mass into exactly one of the
    three mass buckets. *)
Lemma step_cases (p : Q) :
  let kg := cookedKgOf w normFactor p in
  step (row, Some p) = addIgnored acc kg \/
  step (row, Some p) = addUnmapped acc kg \/
  exists co2, step (row, Some p) = addMapped acc kg co2.
Proof.
  intros kg. unfold ingredientStep.
  destruct (ing_is_water row || ing_is_salt row)%bool; [left; reflexivity|].
  destruct (Qlt_bool _ _); [left; reflexivity|].
  destruct (mappingByCore !! ing_core row) as [mapping|]; [|right; left; reflexivity].
  destruct (String.eqb _ "ignore"); [left; reflexivity|].
  destruct (getCo2FactorKgPerKg _ _) as [factor|]; [|right; left; reflexivity].
  destruct (massForFactorKg _ _ _) as [massKg|]; [|right; left; reflexivity].
  right; right. eexists. reflexivity.
Qed.

End CalculatorLeaf.

(** ** The leaf classifier of [donationBreakdown.ts] *)

Section BreakdownLeaf.
Import DonationBreakdown.

Variable componentId : Z.
Variable componentName : string.
Variable componentType : option string.
Variable w normFactor : Q.
Variable mappings : gmap string MappingRow.
Variable lukeFoods : gmap Z LukeFoodRow.
Variable acc : Acc.
Variable ing : ComponentIngredientRow.

Local Abbreviation step :=
  (ingredientStep componentId componentName componentType w normFactor mappings lukeFoods acc).
Local Abbreviation leaf := (item componentId componentName componentType w).

Lemma bstep_below_threshold (p : Q) :
  ing_is_water ing = false -> ing_is_salt ing = false ->
  fracOf normFactor p < MIN_SHARE_FRAC ->
  step (ing, Some p) =
    pushIgnored acc (cookedKgOf w normFactor p)
      (leaf ignored belowThresholdReason (ing_core ing) (baseNameOf ing)
         (Some (p * normFactor)) (cookedKgOf w normFactor p)
         None None None "none" None 0 0).
Proof.
  intros Hw Hs Hlt. unfold ingredientStep. rewrite Hw, Hs.
  apply Qlt_bool_iff in Hlt. unfold fracOf in Hlt. rewrite Hlt.
  reflexivity.
Qed.

Lemma bstep_significant (p : Q) :
  significant ing (fracOf normFactor p) ->
  let cookedKg := cookedKgOf w normFactor p in
  let pct := Some (p * normFactor) in
  step (ing, Some p) =
    match mappings !! ing_core ing with
    | None =>
        pushUnmapped acc cookedKg
          (leaf unmapped "no ingredient_mappings row" (ing_core ing) (baseNameOf ing)
             pct cookedKg None None None "none" None 0 0)
    | Some mapping =>
        let food := foodFor lukeFoods mapping in
        let factor := resolveFactor (Some mapping) food in
        if String.eqb (weightStateOf (weight_state mapping)) "ignore" then
          pushIgnored acc cookedKg
            (leaf ignored "mapping weight_state=ignore" (ing_core ing) (baseNameOf ing)
               pct cookedKg (Loaded.luke_foodid mapping) None None "none" None 0 0)
        else
          match value factor with
          | None =>
              pushUnmapped acc cookedKg
                (leaf unmapped "no CO2 factor (no override and LUKE factor missing)"
                   (ing_core ing) (baseNameOf ing) pct cookedKg
                   (Loaded.luke_foodid mapping) (food ≫= name_fi) (food ≫= name_en)
                   "none" None 0 0)
          | Some factorValue =>
              match massForFactorKg (weightStateOf (weight_state mapping)) mapping cookedKg with
              | None =>
                  pushUnmapped acc cookedKg
                    (leaf unmapped "weight_state=raw but yield_cooked_per_raw missing/invalid"
                       (ing_core ing) (baseNameOf ing) pct cookedKg
                       (Loaded.luke_foodid mapping) (food ≫= name_fi) (food ≫= name_en)
                       (source factor) (value factor) 0 0)
              | Some massKg =>
                  pushMapped acc cookedKg (massKg * factorValue)
                    (leaf mapped "ok" (ing_core ing) (baseNameOf ing) pct cookedKg
                       (Loaded.luke_foodid mapping) (food ≫= name_fi) (food ≫= name_en)
                       (source factor) (value factor) massKg (massKg * factorValue))
              end
          end
    end.
Proof.
  intros (Hw & Hs & Hge) cookedKg pct. unfold ingredientStep. rewrite Hw, Hs.
  apply Qlt_bool_false_iff in Hge. unfold fracOf in Hge. rewrite Hge.
  reflexivity.
Qed.

End BreakdownLeaf.

(** ** Emission-factor resolution *)

Lemma weightState_not_ignore (ws : option string) :
  weightStateOf ws <> "ignore"%string ->
  String.eqb (weightStateOf ws) "ignore" = false.
Proof. intros H. apply String.eqb_neq. exact H. Qed.

Lemma clearly_significant (row : ComponentIngredientRow) (frac : Q) :
  clearlySignificant row frac -> significant row frac.
Proof. intros (Hw & Hs & Hlt). repeat split; try assumption. apply Qlt_le_weak. exact Hlt. Qed.



Lemma resolveFactor_value (mapping : option MappingRow) (food : option LukeFoodRow) :
  DonationBreakdown.value (DonationBreakdown.resolveFactor mapping food)
  = CarbonCalculator.getCo2FactorKgPerKg mapping food.
Proof.
  unfold DonationBreakdown.resolveFactor, CarbonCalculator.getCo2FactorKgPerKg.
  destruct (toNum (ofField (mapping ≫= co2_override_per_kg))); [reflexivity|].
  destruct (toNum (ofField (food ≫= kg_co2e_per_kg))); [reflexivity|].
  destruct (toNum (ofField (food ≫= g_co2e_per_100g))); reflexivity.
Qed.

(** ** Weight-state conversion *)




(** ** The significance threshold *)

(** C7 as the code has it. An ingredient leaf that is neither water nor salt
    and whose normalized share fraction is below 0.10 is ignored, whatever
    mapping and factor exist for its core: its cooked mass is added to the
    ignored mass, and mapped mass, unmapped mass and emissions stay as they
    were. The breakdown reports it as an ignored item without emissions whose
    reason is built from the threshold, "below 10% threshold"; the calculator
    records no reason. *)
Theorem below_threshold_leaf_is_ignored
  (w normFactor : Q) (mappingByCore : gmap string MappingRow) (foodById : gmap Z LukeFoodRow)
  (row : ComponentIngredientRow) (p : Q) (accC : CarbonCalculator.Carbon)
  (cid : Z) (cname : string) (ctype : option string) (accB : DonationBreakdown.Acc) :
  ing_is_water row = false -> ing_is_salt row = false ->
  fracOf normFactor p < 0.10 ->
  let cookedKg := cookedKgOf w normFactor p in
  let stepC :=
    CarbonCalculator.ingredientStep w normFactor mappingByCore foodById accC (row, Some p) in
  let stepB :=
    DonationBreakdown.ingredientStep cid cname ctype w normFactor mappingByCore foodById accB
      (row, Some p) in
  CarbonCalculator.ignoredKg stepC = CarbonCalculator.ignoredKg accC + cookedKg /\
  CarbonCalculator.mappedKg stepC = CarbonCalculator.mappedKg accC /\
  CarbonCalculator.co2eKg stepC = CarbonCalculator.co2eKg accC /\
  CarbonCalculator.unmappedKg stepC = CarbonCalculator.unmappedKg accC /\
  exists it,
    DonationBreakdown.acc_items stepB = DonationBreakdown.acc_items accB ++ [it] /\
    DonationBreakdown.status it = DonationBreakdown.ignored /\
    DonationBreakdown.reason it = "below 10% threshold"%string /\
    DonationBreakdown.cooked_mass_kg it = cookedKg /\
    DonationBreakdown.co2e_kg it = 0 /\
    DonationBreakdown.ignoredMass stepB = DonationBreakdown.ignoredMass accB + cookedKg /\
    DonationBreakdown.mappedMass stepB = DonationBreakdown.mappedMass accB /\
    DonationBreakdown.unmappedMass stepB = DonationBreakdown.unmappedMass accB /\
    DonationBreakdown.totalCo2 stepB = DonationBreakdown.totalCo2 accB.
Proof.
  intros Hw Hs Hlt cookedKg stepC stepB. subst stepC stepB.
  rewrite (step_below_threshold w normFactor mappingByCore foodById accC row p Hw Hs Hlt).
  rewrite (bstep_below_threshold cid cname ctype w normFactor mappingByCore foodById accB
             row p Hw Hs Hlt).
  repeat (split; [reflexivity|]).
  eexists. split; [reflexivity|]. repeat split.
Qed.

Lemma below_threshold_leaf_is_ignored_witness :
  CarbonCalculator.getCo2FactorKgPerKg (Some Sample.beefMapping)
    (foodFor Sample.beefFoods Sample.beefMapping) = Some 2.0 /\
  CarbonCalculator.ignoredKg Sample.beefTrace == 0.1 /\
  CarbonCalculator.mappedKg Sample.beefTrace == 0 /\
  CarbonCalculator.co2eKg Sample.beefTrace == 0 /\
  CarbonCalculator.unmappedKg Sample.beefTrace == 0.
Proof.
  split; [vm_compute; reflexivity|].
  destruct (below_threshold_leaf_is_ignored 2 1 Sample.beefMappings Sample.beefFoods
              Sample.beefTraceRow 5 CarbonCalculator.noCarbon 1%Z "Stew"%string None
              DonationBreakdown.emptyAcc) as (Hi & Hm & Hc & Hu & _);
    [reflexivity | reflexivity | qeval |].
  unfold Sample.beefTrace. rewrite Hi, Hm, Hc, Hu. repeat split; qeval.
Defined.

(** C7 as the specification words it fails on the reason. A component of 2 kg
    has a beef leaf at share 5, mapped and with a factor, beside an unmapped
    leaf at share 95. The calculator ignores the 0.1 kg of beef; the breakdown
    pushes an ignored item for it, and the reason of that item is "below 10%
    threshold", not "below significance threshold". *)
Lemma below_threshold_reason_names_the_percentage :
  (exists r db',
     CarbonCalculator.computeDonationCarbon Sample.storeTrace 1 = Ok (r, db') /\
     CarbonCalculator.ignored_mass_kg r == 0.1 /\
     CarbonCalculator.mapped_mass_kg r == 0 /\
     CarbonCalculator.total_co2e_kg r == 0) /\
  exists b it rest,
    DonationBreakdown.computeDonationBreakdown Sample.storeTrace 1 = Ok b /\
    DonationBreakdown.items b = it :: rest /\
    DonationBreakdown.ingredient_core it = "BEEF"%string /\
    DonationBreakdown.cooked_mass_kg it == 0.1 /\
    DonationBreakdown.status it = DonationBreakdown.ignored /\
    DonationBreakdown.reason it = "below 10% threshold"%string /\
    DonationBreakdown.reason it <> "below significance threshold"%string.
Proof.
  split.
  - eexists. eexists. split; [vm_compute; reflexivity|]. repeat split; qeval.
  - eexists. eexists. eexists. split; [vm_compute; reflexivity|].
    split; [reflexivity|]. split; [reflexivity|]. split; [|split; [reflexivity|]].
    + cbn [DonationBreakdown.cooked_mass_kg]. qeval.
    + split; [reflexivity|]. cbn [DonationBreakdown.reason]. discriminate.
Qed.

(** ** The component-name fallback of the calculator *)

Lemma fallback_by_mapping (db : Db) (componentId : Z) (w : Q) :
  CarbonCalculator.computeComponentFallbackCarbonFromName db componentId w =
    match fallbackMappingOf db componentId with
    | None => allUnmapped w
    | Some mapping =>
        if String.eqb (weightStateOf (weight_state mapping)) "ignore" then allIgnored w
        else
          match CarbonCalculator.getCo2FactorKgPerKg (Some mapping) (fallbackFoodOf db mapping) with
          | None => allUnmapped w
          | Some factor =>
              match massForFactorKg (weightStateOf (weight_state mapping)) mapping w with
              | None => allUnmapped w
              | Some massKg => allMapped w (massKg * factor)
              end
          end
    end.
Proof.
  unfold CarbonCalculator.computeComponentFallbackCarbonFromName, fallbackMappingOf.
  destruct (single _) as [comp|]; [|reflexivity].
  cbv zeta.
  destruct (String.eqb _ "" || String.eqb _ "UNKNOWN")%bool; [reflexivity|].
  destruct (head _) as [m|]; [|reflexivity].
  simpl. reflexivity.
Qed.

(** ** Weight states other than the three tags *)

Lemma weightStateOf_null_or_empty (ws : option string) :
  ws = None \/ ws = Some ""%string -> weightStateOf ws = "ignore"%string.
Proof. intros [->| ->]; reflexivity. Qed.

Lemma massForFactorKg_not_raw (ws : string) (m : MappingRow) (kg : Q) :
  ws <> "raw"%string -> massForFactorKg ws m kg = Some kg.
Proof.
  intros H. unfold massForFactorKg.
  apply String.eqb_neq in H. rewrite H. reflexivity.
Qed.

(** C9. A leaf whose active mapping carries a null or empty weight state is
    ignored, with the same outcome as under the weight state "ignore", in the
    ingredient loop of the calculator, in its component-name fallback and in
    the breakdown: where it reaches the mapping stage its cooked mass is
    added to the ignored mass and to nothing else. A weight state that,
    lowercased, is neither "ignore" nor "raw" is treated as "cooked": the
    resolved factor is applied to the cooked mass itself, which is added to
    the mapped mass, and cooked mass x factor to the emissions. *)
Theorem unknown_weight_state_defaults
  (w normFactor : Q) (mappingByCore : gmap string MappingRow) (foodById : gmap Z LukeFoodRow)
  (row : ComponentIngredientRow) (p : Q) (m : MappingRow) (accC : CarbonCalculator.Carbon)
  (cid : Z) (cname : string) (ctype : option string) (accB : DonationBreakdown.Acc) :
  mappingByCore !! ing_core row = Some m ->
  let cookedKg := cookedKgOf w normFactor p in
  let stepC M :=
    CarbonCalculator.ingredientStep w normFactor M foodById accC (row, Some p) in
  let stepB M :=
    DonationBreakdown.ingredientStep cid cname ctype w normFactor M foodById accB
      (row, Some p) in
  (weight_state m = None \/ weight_state m = Some ""%string ->
     stepC mappingByCore
       = stepC (<[ing_core row := withWeightState (Some "ignore"%string) m]> mappingByCore) /\
     stepB mappingByCore
       = stepB (<[ing_core row := withWeightState (Some "ignore"%string) m]> mappingByCore) /\
     (clearlySignificant row (fracOf normFactor p) ->
        (CarbonCalculator.ignoredKg (stepC mappingByCore)
           = CarbonCalculator.ignoredKg accC + cookedKg /\
         CarbonCalculator.mappedKg (stepC mappingByCore) = CarbonCalculator.mappedKg accC /\
         CarbonCalculator.unmappedKg (stepC mappingByCore) = CarbonCalculator.unmappedKg accC /\
         CarbonCalculator.co2eKg (stepC mappingByCore) = CarbonCalculator.co2eKg accC) /\
        exists it,
          DonationBreakdown.acc_items (stepB mappingByCore)
            = DonationBreakdown.acc_items accB ++ [it] /\
          DonationBreakdown.status it = DonationBreakdown.ignored /\
          DonationBreakdown.reason it = "mapping weight_state=ignore"%string /\
          DonationBreakdown.cooked_mass_kg it = cookedKg /\
          DonationBreakdown.ignoredMass (stepB mappingByCore)
            = DonationBreakdown.ignoredMass accB + cookedKg /\
          DonationBreakdown.mappedMass (stepB mappingByCore)
            = DonationBreakdown.mappedMass accB /\
          DonationBreakdown.unmappedMass (stepB mappingByCore)
            = DonationBreakdown.unmappedMass accB /\
          DonationBreakdown.totalCo2 (stepB mappingByCore)
            = DonationBreakdown.totalCo2 accB) /\
     (forall db componentId,
        fallbackMappingOf db componentId = Some m ->
        CarbonCalculator.computeComponentFallbackCarbonFromName db componentId w
          = allIgnored w)) /\
  (weightStateOf (weight_state m) <> "ignore"%string ->
   weightStateOf (weight_state m) <> "raw"%string ->
     stepC mappingByCore
       = stepC (<[ing_core row := withWeightState (Some "cooked"%string) m]> mappingByCore) /\
     (forall factor,
        clearlySignificant row (fracOf normFactor p) ->
        CarbonCalculator.getCo2FactorKgPerKg (Some m) (foodFor foodById m) = Some factor ->
        (CarbonCalculator.mappedKg (stepC mappingByCore)
           = CarbonCalculator.mappedKg accC + cookedKg /\
         CarbonCalculator.co2eKg (stepC mappingByCore)
           = CarbonCalculator.co2eKg accC + cookedKg * factor /\
         CarbonCalculator.unmappedKg (stepC mappingByCore) = CarbonCalculator.unmappedKg accC /\
         CarbonCalculator.ignoredKg (stepC mappingByCore) = CarbonCalculator.ignoredKg accC) /\
        exists it,
          DonationBreakdown.acc_items (stepB mappingByCore)
            = DonationBreakdown.acc_items accB ++ [it] /\
          DonationBreakdown.status it = DonationBreakdown.mapped /\
          DonationBreakdown.cooked_mass_kg it = cookedKg /\
          DonationBreakdown.mass_for_factor_kg it = cookedKg /\
          DonationBreakdown.co2e_kg it = cookedKg * factor /\
          DonationBreakdown.mappedMass (stepB mappingByCore)
            = DonationBreakdown.mappedMass accB + cookedKg /\
          DonationBreakdown.totalCo2 (stepB mappingByCore)
            = DonationBreakdown.totalCo2 accB + cookedKg * factor /\
          DonationBreakdown.unmappedMass (stepB mappingByCore)
            = DonationBreakdown.unmappedMass accB /\
          DonationBreakdown.ignoredMass (stepB mappingByCore)
            = DonationBreakdown.ignoredMass accB) /\
     (forall db componentId factor,
        fallbackMappingOf db componentId = Some m ->
        CarbonCalculator.getCo2FactorKgPerKg (Some m) (fallbackFoodOf db m) = Some factor ->
        CarbonCalculator.computeComponentFallbackCarbonFromName db componentId w
          = allMapped w (w * factor))).
Proof.
  intros HM cookedKg stepC stepB. split.
  - intros Hws. pose proof (weightStateOf_null_or_empty _ Hws) as Hig.
    split; [|split; [|split]].
    + subst stepC. cbv beta. unfold CarbonCalculator.ingredientStep.
      rewrite HM, lookup_insert_eq. simpl weight_state. rewrite Hig. reflexivity.
    + subst stepB. cbv beta. unfold DonationBreakdown.ingredientStep.
      rewrite HM, lookup_insert_eq. simpl weight_state. rewrite Hig. reflexivity.
    + intros Hsig. apply clearly_significant in Hsig. subst stepC stepB. cbv beta.
      rewrite step_significant, bstep_significant by exact Hsig. cbv zeta.
      rewrite HM, Hig. split; [repeat split|].
      eexists. split; [reflexivity|]. repeat split.
    + intros db componentId Hfb. rewrite fallback_by_mapping, Hfb, Hig. reflexivity.
  - intros Hni Hnr. split; [|split].
    + subst stepC. cbv beta. unfold CarbonCalculator.ingredientStep.
      rewrite HM, lookup_insert_eq. simpl weight_state.
      rewrite (weightState_not_ignore _ Hni).
      change (weightStateOf (Some "cooked"%string)) with "cooked"%string.
      simpl (String.eqb "cooked" "ignore").
      rewrite (massForFactorKg_not_raw _ m _ Hnr).
      reflexivity.
    + intros factor Hsig Hf. apply clearly_significant in Hsig. subst stepC stepB. cbv beta.
      rewrite step_significant, bstep_significant by exact Hsig. cbv zeta.
      rewrite HM, (weightState_not_ignore _ Hni), resolveFactor_value, Hf.
      rewrite (massForFactorKg_not_raw _ m _ Hnr).
      split; [repeat split|]. eexists. split; [reflexivity|]. repeat split.
    + intros db componentId factor Hfb Hf.
      rewrite fallback_by_mapping, Hfb, (weightState_not_ignore _ Hni), Hf.
      rewrite (massForFactorKg_not_raw _ m _ Hnr). reflexivity.
Qed.

Lemma unknown_weight_state_defaults_witness :
  CarbonCalculator.computeComponentFallbackCarbonFromName
    (Sample.storeRice None (JNum 1.5)) 1 10 = allIgnored 10 /\
  CarbonCalculator.mappedKg Sample.boiledLeaf == 1 /\
  CarbonCalculator.co2eKg Sample.boiledLeaf == 2 /\
  CarbonCalculator.unmappedKg Sample.boiledLeaf == 0 /\
  CarbonCalculator.ignoredKg Sample.boiledLeaf == 0.
Proof.
  split.
  - pose (m := toMappingRow (Sample.mapping "RICE" None None JNull (JNum 1.5))).
    assert (HM : (<["RIISI"%string := m]> ∅ : gmap string MappingRow)
                   !! ing_core Sample.riceRowNoShare = Some m)
      by apply lookup_insert_eq.
    destruct (unknown_weight_state_defaults 10 1 _ ∅ Sample.riceRowNoShare 0 m
                CarbonCalculator.noCarbon 1%Z "Rice"%string None
                DonationBreakdown.emptyAcc HM) as [Hnull _].
    destruct Hnull as (_ & _ & _ & Hfb); [left; reflexivity|].
    apply Hfb. vm_compute. reflexivity.
  - assert (HM : Sample.boiledMappings !! ing_core Sample.beefRow = Some Sample.boiledMapping)
      by (vm_compute; reflexivity).
    destruct (unknown_weight_state_defaults 2 1 _ Sample.beefFoods Sample.beefRow 50
                Sample.boiledMapping CarbonCalculator.noCarbon 1%Z "Stew"%string None
                DonationBreakdown.emptyAcc HM) as [_ Hother].
    destruct Hother as (_ & Hmapped & _).
    + vm_compute. discriminate.
    + vm_compute. discriminate.
    + destruct (Hmapped 2.0) as [(E1 & E2 & E3 & E4) _];
        [repeat split; qeval | vm_compute; reflexivity |].
      unfold Sample.boiledLeaf. rewrite E1, E2, E3, E4. repeat split; qeval.
Defined.

(** ** Components whose ingredient shares are unusable *)

Lemma computeComponentCarbon_unfold (db : Db) (componentId : Z) (w : Q) :
  0 < w -> CarbonCalculator.ingredientsOf db componentId <> [] ->
  CarbonCalculator.computeComponentCarbon db componentId w =
    let ingredients := CarbonCalculator.ingredientsOf db componentId in
    let sharePctByRow := sharesOf db componentId in
    let hasMissingShare := existsb isNull sharePctByRow in
    let sumPct := sumPctOf db componentId in
    if Qle_bool sumPct 0 then
      Ok (CarbonCalculator.computeComponentFallbackCarbonFromName db componentId w)
    else if Qlt_bool (100 + ING_SHARE_MAX_OVER_EPS) sumPct then
      Err (IngredientShareSumExceeds componentId sumPct)
    else
      let normFactor := normFactorOf hasMissingShare sumPct in
      let mappingsData :=
        CarbonCalculator.mappingsDataOf db (uniqStrings (map ing_core ingredients)) in
      let foodById :=
        foodsById (CarbonCalculator.foodsDataOf db (foodidsOf (map im_luke_foodid mappingsData))) in
      let unallocatedKg := w * (1 - clamp (sumPct * normFactor / 100) 0 1) in
      let acc :=
        fold_left (CarbonCalculator.ingredientStep w normFactor (mappingsByCore mappingsData)
                     foodById)
                  (combine ingredients sharePctByRow) CarbonCalculator.noCarbon in
      if (Qlt_bool REMAINDER_EPS unallocatedKg && Qeq_bool normFactor 1)%bool
      then Ok (CarbonCalculator.addUnmapped acc unallocatedKg)
      else Ok acc.
Proof.
  intros Hw Hne. unfold CarbonCalculator.computeComponentCarbon.
  apply Qle_bool_false_iff in Hw. rewrite Hw.
  unfold sumPctOf, sharesOf.
  destruct (CarbonCalculator.ingredientsOf db componentId) as [|r rows]; [congruence|].
  reflexivity.
Qed.

(** C10. A component that has ingredient rows whose clamped shares sum to 0 or
    less (all missing or zero) is computed by the component-name fallback on
    its full mass: [computeComponentCarbon] returns what
    [computeComponentFallbackCarbonFromName] returns, a component-targeted
    donation gets exactly those totals, and the whole mass lands in one bucket,
    which may be the mapped or the ignored one; no unallocated remainder is
    reported. *)
Theorem unusable_shares_fall_back_to_component_name (db : Db) (componentId : Z) (w : Q) :
  0 < w ->
  CarbonCalculator.ingredientsOf db componentId <> [] ->
  sumPctOf db componentId <= 0 ->
  let fallback := CarbonCalculator.computeComponentFallbackCarbonFromName db componentId w in
  CarbonCalculator.computeComponentCarbon db componentId w = Ok fallback /\
  (forall donationId donation,
     donation_component_id donation = Some componentId ->
     CarbonCalculator.donationTotals db donationId donation w
       = Ok (CarbonCalculator.addCarbon CarbonCalculator.noCarbon fallback)) /\
  (fallback = allUnmapped w \/ fallback = allIgnored w \/
   exists co2, fallback = allMapped w co2).
Proof.
  intros Hw Hne Hsum fallback.
  assert (E : CarbonCalculator.computeComponentCarbon db componentId w = Ok fallback).
  { rewrite computeComponentCarbon_unfold by assumption. cbv zeta.
    apply Qle_bool_iff in Hsum. rewrite Hsum. reflexivity. }
  split; [exact E|]. split.
  - intros donationId donation Hc. unfold CarbonCalculator.donationTotals.
    rewrite Hc, E. reflexivity.
  - subst fallback. rewrite fallback_by_mapping.
    destruct (fallbackMappingOf db componentId) as [mapping|]; [|left; reflexivity].
    destruct (String.eqb _ "ignore"); [right; left; reflexivity|].
    destruct (CarbonCalculator.getCo2FactorKgPerKg _ _); [|left; reflexivity].
    destruct (massForFactorKg _ _ _); [|left; reflexivity].
    right; right. eexists. reflexivity.
Qed.

Lemma unusable_shares_fall_back_to_component_name_witness :
  CarbonCalculator.computeComponentCarbon
    (Sample.storeRice (Some "cooked"%string) (JNum 1.5)) 1 10
  = Ok (CarbonCalculator.computeComponentFallbackCarbonFromName
          (Sample.storeRice (Some "cooked"%string) (JNum 1.5)) 1 10) /\
  CarbonCalculator.computeComponentFallbackCarbonFromName
    (Sample.storeRice (Some "cooked"%string) (JNum 1.5)) 1 10 = allMapped 10 (10 * 1.5) /\
  CarbonCalculator.computeComponentFallbackCarbonFromName
    (Sample.storeRice (Some "ignore"%string) JNull) 1 10 = allIgnored 10.
Proof.
  split; [|split; vm_compute; reflexivity].
  apply (unusable_shares_fall_back_to_component_name
           (Sample.storeRice (Some "cooked"%string) (JNum 1.5)) 1 10).
  - qeval.
  - vm_compute. discriminate.
  - qeval.
Defined.

(** ** Shares that exceed 100% *)

Lemma sumPctOf_no_rows (db : Db) (componentId : Z) :
  CarbonCalculator.ingredientsOf db componentId = [] -> sumPctOf db componentId = 0.
Proof. intros H. unfold sumPctOf, sharesOf. rewrite H. reflexivity. Qed.

Lemma over_limit_has_rows (db : Db) (componentId : Z) :
  100 + ING_SHARE_MAX_OVER_EPS < sumPctOf db componentId ->
  CarbonCalculator.ingredientsOf db componentId <> [].
Proof.
  intros Hover Hnil. rewrite (sumPctOf_no_rows _ _ Hnil) in Hover.
  revert Hover. qeval.
Qed.

Lemma computeComponentCarbon_over_limit (db : Db) (componentId : Z) (w : Q) :
  0 < w -> 100 + ING_SHARE_MAX_OVER_EPS < sumPctOf db componentId ->
  CarbonCalculator.computeComponentCarbon db componentId w
    = Err (IngredientShareSumExceeds componentId (sumPctOf db componentId)).
Proof.
  intros Hw Hover.
  rewrite computeComponentCarbon_unfold by (try apply over_limit_has_rows; assumption).
  cbv zeta.
  assert (Hpos : 0 < sumPctOf db componentId).
  { eapply Qlt_trans; [|exact Hover]. qeval. }
  apply Qle_bool_false_iff in Hpos. rewrite Hpos.
  apply Qlt_bool_iff in Hover. rewrite Hover. reflexivity.
Qed.

(** The only error a component computation raises is the share-sum error, and
    it raises it only for a positive weight and a sum above the limit. *)
Lemma computeComponentCarbon_error (db : Db) (componentId : Z) (w : Q) (e : error) :
  CarbonCalculator.computeComponentCarbon db componentId w = Err e ->
  e = IngredientShareSumExceeds componentId (sumPctOf db componentId) /\
  100 + ING_SHARE_MAX_OVER_EPS < sumPctOf db componentId /\ 0 < w.
Proof.
  intros H.
  destruct (Qle_bool w 0) eqn:Hw.
  { unfold CarbonCalculator.computeComponentCarbon in H. rewrite Hw in H. discriminate. }
  apply Qle_bool_false_iff in Hw.
  destruct (CarbonCalculator.ingredientsOf db componentId) as [|r rows] eqn:Hrows.
  { unfold CarbonCalculator.computeComponentCarbon in H.
    apply Qle_bool_false_iff in Hw. rewrite Hw, Hrows in H. discriminate. }
  rewrite computeComponentCarbon_unfold in H by (try rewrite Hrows; easy).
  cbv zeta in H.
  destruct (Qle_bool (sumPctOf db componentId) 0); [discriminate|].
  destruct (Qlt_bool (100 + ING_SHARE_MAX_OVER_EPS) (sumPctOf db componentId)) eqn:Hover.
  - apply Qlt_bool_iff in Hover. inversion H. auto.
  - destruct (_ && _)%bool in H; discriminate.
Qed.

Lemma componentsLoop_over_limit (db : Db) (donatedKg : Q)
  (compShares : list (DishComponentRow * Q)) :
  forall acc : CarbonCalculator.Carbon,
  (exists c share,
     In (c, share) compShares /\ 0 < donatedKg * share /\
     100 + ING_SHARE_MAX_OVER_EPS < sumPctOf db (component_id_of c)) ->
  exists c',
    In c' (map fst compShares) /\
    100 + ING_SHARE_MAX_OVER_EPS < sumPctOf db (component_id_of c') /\
    CarbonCalculator.componentsLoop db donatedKg compShares acc
      = Err (IngredientShareSumExceeds (component_id_of c')
               (sumPctOf db (component_id_of c'))).
Proof.
  induction compShares as [|[c0 s0] rest IH]; intros acc (c & share & Hin & Hw & Hover).
  - destruct Hin.
  - simpl CarbonCalculator.componentsLoop.
    destruct (Qle_bool (donatedKg * s0) 0) eqn:Hskip.
    + destruct Hin as [Heq|Hin].
      * inversion Heq; subst. apply Qle_bool_iff in Hskip. exfalso.
        exact (Qlt_not_le _ _ Hw Hskip).
      * destruct (IH acc) as (c' & Hc' & Ho' & E); [exists c, share; auto|].
        exists c'. simpl. auto.
    + destruct (CarbonCalculator.computeComponentCarbon db (component_id_of c0)
                  (donatedKg * s0)) as [r|e] eqn:Ecomp.
      * simpl. destruct Hin as [Heq|Hin].
        -- inversion Heq; subst.
           rewrite computeComponentCarbon_over_limit in Ecomp by assumption.
           discriminate.
        -- destruct (IH (CarbonCalculator.addCarbon acc r)) as (c' & Hc' & Ho' & E);
             [exists c, share; auto|].
           exists c'. simpl. auto.
      * apply computeComponentCarbon_error in Ecomp. destruct Ecomp as (-> & Ho & _).
        exists c0. simpl. auto.
Qed.

Lemma componentRound_over_limit (componentId : Z) (cname : string) (ctype : option string)
  (w : Q) (compIngs : list ComponentIngredientRow) (mappings : gmap string MappingRow)
  (lukeFoods : gmap Z LukeFoodRow) (acc : DonationBreakdown.Acc) :
  100 + ING_SHARE_MAX_OVER_EPS < breakdownSumPct compIngs ->
  DonationBreakdown.componentRound componentId cname ctype w compIngs mappings lukeFoods acc
    = Err (IngredientShareSumExceeds componentId (breakdownSumPct compIngs)).
Proof.
  intros Hover. unfold DonationBreakdown.componentRound.
  destruct compIngs as [|r rows].
  { exfalso. revert Hover. qeval. }
  fold (breakdownShares (r :: rows)). fold (breakdownSumPct (r :: rows)).
  assert (Hpos : 0 < breakdownSumPct (r :: rows)).
  { eapply Qlt_trans; [|exact Hover]. qeval. }
  apply Qle_bool_false_iff in Hpos. rewrite Hpos.
  apply Qlt_bool_iff in Hover. rewrite Hover. reflexivity.
Qed.

(** C2 as the code has it. A component that is allocated a positive mass and
    whose clamped ingredient shares sum to more than 100.5 aborts the
    computation with a data-integrity error that carries the component id and
    the observed sum: [computeComponentCarbon] raises it, a component-targeted
    donation ends with that very error, and a dish-targeted donation ends with
    the share-sum error of the first such component. The breakdown raises the
    error for every allocated component, whatever its mass. Nothing is clamped
    or rescaled: no totals are returned. *)
Theorem over_limit_shares_abort (db : Db) (componentId : Z) (w : Q) :
  0 < w ->
  100 + 0.5 < sumPctOf db componentId ->
  let e := IngredientShareSumExceeds componentId (sumPctOf db componentId) in
  CarbonCalculator.computeComponentCarbon db componentId w = Err e /\
  (forall donationId donation,
     single (List.filter (fun d => Z.eqb (donation_id_of d) donationId) (donations db))
       = Some donation ->
     Number (donation_weight donation) = Some w ->
     donation_component_id donation = Some componentId ->
     CarbonCalculator.computeDonationCarbon db donationId = Err e) /\
  (forall donationId donation donatedKg dishId shares c share,
     single (List.filter (fun d => Z.eqb (donation_id_of d) donationId) (donations db))
       = Some donation ->
     Number (donation_weight donation) = Some donatedKg -> 0 < donatedKg ->
     donation_component_id donation = None ->
     donation_dish_id donation = Some dishId ->
     CarbonCalculator.dishShares dishId (CarbonCalculator.componentsOfDish db dishId)
       = Ok shares ->
     In (c, share) (combine (CarbonCalculator.componentsOfDish db dishId) shares) ->
     component_id_of c = componentId ->
     w = donatedKg * share ->
     exists c',
       In c' (CarbonCalculator.componentsOfDish db dishId) /\
       100 + 0.5 < sumPctOf db (component_id_of c') /\
       CarbonCalculator.computeDonationCarbon db donationId
         = Err (IngredientShareSumExceeds (component_id_of c')
                  (sumPctOf db (component_id_of c')))) /\
  (forall cname ctype anyKg compIngs mappings lukeFoods acc,
     100 + 0.5 < breakdownSumPct compIngs ->
     DonationBreakdown.componentRound componentId cname ctype anyKg compIngs mappings
       lukeFoods acc
     = Err (IngredientShareSumExceeds componentId (breakdownSumPct compIngs))).
Proof.
  intros Hw Hover e.
  pose proof (computeComponentCarbon_over_limit db componentId w Hw Hover) as E.
  split; [exact E|]. split; [|split].
  - intros donationId donation Hrow Hnum Hc.
    unfold CarbonCalculator.computeDonationCarbon. rewrite Hrow, Hnum.
    pose proof Hw as Hw'. apply Qle_bool_false_iff in Hw'. rewrite Hw'.
    unfold CarbonCalculator.donationTotals. rewrite Hc, E. reflexivity.
  - intros donationId donation donatedKg dishId shares c share
      Hrow Hnum Hpos Hc Hd Hshares Hin Hid Hmass.
    destruct (componentsLoop_over_limit db donatedKg
                (combine (CarbonCalculator.componentsOfDish db dishId) shares)
                CarbonCalculator.noCarbon) as (c' & Hc' & Ho' & Eloop).
    { exists c, share. subst. auto. }
    exists c'. split; [|split; [exact Ho'|]].
    + apply in_map_iff in Hc'. destruct Hc' as ([c0 s0] & <- & Hin0).
      apply in_combine_l in Hin0. exact Hin0.
    + unfold CarbonCalculator.computeDonationCarbon. rewrite Hrow, Hnum.
      apply Qle_bool_false_iff in Hpos. rewrite Hpos.
      unfold CarbonCalculator.donationTotals. rewrite Hc, Hd.
      destruct (CarbonCalculator.componentsOfDish db dishId) as [|c0 rest] eqn:Ecomps;
        [destruct Hin|].
      rewrite Hshares. unfold bind at 2. rewrite Eloop. reflexivity.
  - intros cname ctype anyKg compIngs mappings lukeFoods acc Hb.
    apply componentRound_over_limit. exact Hb.
Qed.

Lemma over_limit_shares_abort_witness :
  CarbonCalculator.computeDonationCarbon Sample.storeOverHundred 1
    = Err (IngredientShareSumExceeds 2 (sumPctOf Sample.storeOverHundred 2)) /\
  sumPctOf Sample.storeOverHundred 2 == 120.
Proof.
  split; [|qeval].
  assert (Hw : 0 < 10) by qeval.
  assert (Hover : 100 + 0.5 < sumPctOf Sample.storeOverHundred 2) by qeval.
  destruct (over_limit_shares_abort Sample.storeOverHundred 2 10 Hw Hover) as (_ & Hd & _).
  apply (Hd 1%Z (Sample.donation 1 (Some 7%Z) (Some 2%Z) 10)); reflexivity.
Defined.

(** C2 as the specification words it fails: a dish component with plate share
    0 is skipped by [computeDonationCarbon], so a share sum of 120 in its
    ingredient rows goes unreported and the donation computation completes. *)
Lemma over_limit_shares_of_massless_component_pass :
  In (Sample.component 2 7 "Sauce" (JNum 0))
     (CarbonCalculator.componentsOfDish Sample.storeZeroPlate 7) /\
  sumPctOf Sample.storeZeroPlate 2 == 120 /\
  100 + 0.5 < sumPctOf Sample.storeZeroPlate 2 /\
  exists r db',
    CarbonCalculator.computeDonationCarbon Sample.storeZeroPlate 1 = Ok (r, db') /\
    CarbonCalculator.unmapped_mass_kg r == 10.
Proof.
  split; [right; left; reflexivity|].
  split; [qeval|]. split; [qeval|].
  eexists. eexists. split; [vm_compute; reflexivity|]. qeval.
Qed.

(** ** Mass accounting of the ingredient loop *)

Lemma computeComponentCarbon_loop (db : Db) (componentId : Z) (w : Q) :
  0 < w -> 0 < sumPctOf db componentId ->
  sumPctOf db componentId <= 100 + ING_SHARE_MAX_OVER_EPS ->
  let normFactor :=
    normFactorOf (existsb isNull (sharesOf db componentId)) (sumPctOf db componentId) in
  let acc := loopTotals db componentId w normFactor in
  let unallocatedKg := unallocatedKgOf w normFactor (sumPctOf db componentId) in
  CarbonCalculator.computeComponentCarbon db componentId w =
    if (Qlt_bool REMAINDER_EPS unallocatedKg && Qeq_bool normFactor 1)%bool
    then Ok (CarbonCalculator.addUnmapped acc unallocatedKg)
    else Ok acc.
Proof.
  intros Hw Hpos Hle.
  assert (Hne : CarbonCalculator.ingredientsOf db componentId <> []).
  { intros Hnil. rewrite (sumPctOf_no_rows _ _ Hnil) in Hpos. revert Hpos. qeval. }
  rewrite computeComponentCarbon_unfold by assumption. cbv zeta.
  apply Qle_bool_false_iff in Hpos. rewrite Hpos.
  apply Qlt_bool_false_iff in Hle. rewrite Hle. reflexivity.
Qed.

Lemma massOf_step (w normFactor : Q) (M : gmap string MappingRow) (F : gmap Z LukeFoodRow)
  (acc : CarbonCalculator.Carbon) (row : ComponentIngredientRow) (share : option Q) :
  massOf (CarbonCalculator.ingredientStep w normFactor M F acc (row, share))
  == massOf acc + leafKg w normFactor share.
Proof.
  destruct share as [p|].
  - destruct (step_cases w normFactor M F acc row p) as [E|[E|[co2 E]]];
      rewrite E; unfold massOf, leafKg; simpl; ring.
  - rewrite step_missing_share. unfold leafKg. ring.
Qed.

Lemma massOf_loop (w normFactor : Q) (M : gmap string MappingRow) (F : gmap Z LukeFoodRow)
  (rows : list ComponentIngredientRow) (f : ComponentIngredientRow -> option Q) :
  forall acc,
    massOf (fold_left (CarbonCalculator.ingredientStep w normFactor M F)
                      (combine rows (map f rows)) acc)
    == massOf acc + sumNums (map (leafKg w normFactor) (map f rows)).
Proof.
  induction rows as [|r rows IH]; intros acc.
  - simpl. unfold sumNums. simpl. ring.
  - cbn [combine map fold_left]. rewrite IH, massOf_step, sumNums_cons. ring.
Qed.

Lemma massOf_loopTotals (db : Db) (componentId : Z) (w normFactor : Q) :
  massOf (loopTotals db componentId w normFactor)
  == sumNums (map (leafKg w normFactor) (sharesOf db componentId)).
Proof.
  unfold loopTotals, sharesOf. rewrite massOf_loop.
  unfold massOf. simpl. ring.
Qed.

(** Every clamped share lies between 0 and 100. *)
Lemma sharePct_bounds (v : jsval) (p : Q) :
  CarbonCalculator.sharePct v = Some p -> 0 <= p /\ p <= 100.
Proof.
  destruct v as [|q|]; simpl; try discriminate.
  intros H. inversion H. apply clamp_bounds. qeval.
Qed.

Lemma sharesOf_bounds (db : Db) (componentId : Z) :
  Forall (fun s => forall p, s = Some p -> 0 <= p /\ p <= 100) (sharesOf db componentId).
Proof.
  unfold sharesOf. apply List.Forall_forall. intros s Hin p ->.
  apply in_map_iff in Hin. destruct Hin as (r & Hr & _).
  eapply sharePct_bounds; eauto.
Qed.

Lemma defaults_nonneg (shares : list (option Q)) :
  Forall (fun s => forall p, s = Some p -> 0 <= p /\ p <= 100) shares ->
  Forall (fun x => 0 <= x) (map (default 0) shares).
Proof.
  induction 1 as [|s l Hs _ IH]; simpl; constructor; [|exact IH].
  destruct s as [p|]; simpl; [apply (Hs p eq_refl)|lra].
Qed.

(** With the scale [k = normFactor / 100], every leaf fraction is the share
    times [k] as long as no share times [k] exceeds 1; the leaf masses then add
    up to the component weight times the share sum times [k]. *)
Lemma leaves_sum (w normFactor : Q) (shares : list (option Q)) :
  0 <= normFactor ->
  Forall (fun s => forall p, s = Some p -> 0 <= p /\ p * normFactor / 100 <= 1) shares ->
  sumNums (map (leafKg w normFactor) shares)
  == w * (sumNums (map (default 0) shares) * normFactor / 100).
Proof.
  intros Hnf. induction 1 as [|s l Hs _ IH]; simpl.
  - unfold sumNums. simpl. field.
  - rewrite !sumNums_cons, IH. destruct s as [p|]; simpl.
    + destruct (Hs p eq_refl) as [Hp0 Hp1].
      unfold cookedKgOf, fracOf. rewrite clamp_id; [field| |exact Hp1].
      apply Qle_shift_div_l; [lra|]. nra.
    + field.
Qed.

(** ** Rescaling of shares that are close to 100 *)

Lemma sumNums_scaled (k : Q) (l : list Q) :
  sumNums (map (fun x => x * k) l) == sumNums l * k.
Proof.
  induction l as [|x l IH]; simpl.
  - unfold sumNums. simpl. ring.
  - rewrite !sumNums_cons, IH. ring.
Qed.

Lemma rescaled_frac (p sumPct : Q) :
  0 < sumPct -> 0 <= p -> p <= sumPct ->
  0 <= p * (100 / sumPct) / 100 /\ p * (100 / sumPct) / 100 <= 1 /\
  fracOf (100 / sumPct) p == p / sumPct.
Proof.
  intros Hs Hp0 Hp1.
  assert (E : p * (100 / sumPct) / 100 == p / sumPct) by (field; lra).
  assert (H0 : 0 <= p / sumPct) by (apply Qle_shift_div_l; lra).
  assert (H1 : p / sumPct <= 1) by (apply Qle_shift_div_r; lra).
  split; [rewrite E; exact H0|]. split; [rewrite E; exact H1|].
  unfold fracOf. rewrite clamp_id; [exact E|rewrite E; exact H0|rewrite E; exact H1].
Qed.

Lemma share_le_sum (shares : list (option Q)) (p : Q) :
  Forall (fun s => forall q, s = Some q -> 0 <= q /\ q <= 100) shares ->
  In (Some p) shares -> 0 <= p /\ p <= sumNums (map (default 0) shares).
Proof.
  intros Hb Hin. split.
  - rewrite List.Forall_forall in Hb. apply (Hb _ Hin p eq_refl).
  - apply sumNums_member_le; [apply defaults_nonneg; exact Hb|].
    change p with (default 0 (Some p)). apply in_map. exact Hin.
Qed.

Lemma normFactorOf_close (sumPct : Q) :
  95 <= sumPct -> sumPct <= 105 -> normFactorOf false sumPct = 100 / sumPct.
Proof.
  intros H1 H2. unfold normFactorOf. simpl negb. cbv iota.
  assert (H : Qle_bool (Qabs (sumPct - 100)) ING_SHARE_NORMALIZE_EPS = true).
  { apply Qle_bool_iff. apply Qabs_Qle_condition. unfold ING_SHARE_NORMALIZE_EPS. split; lra. }
  rewrite H. reflexivity.
Qed.

Lemma unallocated_zero_when_covered (w normFactor sumPct : Q) :
  1 <= sumPct * normFactor / 100 -> unallocatedKgOf w normFactor sumPct == 0.
Proof.
  intros H. unfold unallocatedKgOf. rewrite clamp_above; [ring|lra|exact H].
Qed.

Lemma no_remainder_test (x : Q) (b : bool) :
  x == 0 -> (Qlt_bool REMAINDER_EPS x && b)%bool = false.
Proof.
  intros H. assert (E : Qlt_bool REMAINDER_EPS x = false).
  { apply Qlt_bool_false_iff. rewrite H. qeval. }
  rewrite E. reflexivity.
Qed.

Lemma close_complete_shares_run (db : Db) (componentId : Z) (w : Q) :
  0 < w ->
  existsb isNull (sharesOf db componentId) = false ->
  95 <= sumPctOf db componentId ->
  sumPctOf db componentId <= 100 + 0.5 ->
  CarbonCalculator.computeComponentCarbon db componentId w
    = Ok (loopTotals db componentId w (100 / sumPctOf db componentId)) /\
  massOf (loopTotals db componentId w (100 / sumPctOf db componentId)) == w.
Proof.
  intros Hw Hall H95 H1005.
  remember (sumPctOf db componentId) as sumPct eqn:Esum.
  assert (Hpos : 0 < sumPct) by lra.
  assert (Hcover : sumPct * (100 / sumPct) / 100 == 1) by (field; lra).
  split.
  - rewrite computeComponentCarbon_loop
      by (unfold ING_SHARE_MAX_OVER_EPS; try rewrite <- Esum; assumption).
    cbv zeta. rewrite <- Esum, Hall, normFactorOf_close by lra.
    rewrite no_remainder_test; [reflexivity|].
    apply unallocated_zero_when_covered. rewrite Hcover. lra.
  - rewrite massOf_loopTotals, leaves_sum.
    + fold (sumPctOf db componentId). rewrite <- Esum, Hcover. ring.
    + apply Qle_shift_div_l; lra.
    + apply List.Forall_forall. intros s Hin p ->.
      destruct (share_le_sum _ p (sharesOf_bounds db componentId) Hin) as [Hp0 Hp1].
      fold (sumPctOf db componentId) in Hp1. rewrite <- Esum in Hp1.
      destruct (rescaled_frac p sumPct Hpos Hp0 Hp1) as (_ & Hle & _). auto.
Qed.

Lemma componentRound_rescaled (componentId : Z) (cname : string) (ctype : option string)
  (kg : Q) (compIngs : list ComponentIngredientRow) (mappings : gmap string MappingRow)
  (lukeFoods : gmap Z LukeFoodRow) (acc : DonationBreakdown.Acc) :
  existsb isNull (breakdownShares compIngs) = false ->
  95 <= breakdownSumPct compIngs ->
  breakdownSumPct compIngs <= 100 + 0.5 ->
  DonationBreakdown.componentRound componentId cname ctype kg compIngs mappings lukeFoods acc
  = Ok (fold_left
          (DonationBreakdown.ingredientStep componentId cname ctype kg
             (100 / breakdownSumPct compIngs) mappings lukeFoods)
          (combine compIngs (breakdownShares compIngs)) acc).
Proof.
  intros Hall H95 H1005. unfold DonationBreakdown.componentRound.
  destruct compIngs as [|r rows].
  { exfalso. vm_compute in H95. apply H95. reflexivity. }
  fold (breakdownShares (r :: rows)). fold (breakdownSumPct (r :: rows)).
  remember (breakdownSumPct (r :: rows)) as S eqn:ES.
  assert (Hpos : 0 < S) by lra.
  pose proof Hpos as Hpos'. apply Qle_bool_false_iff in Hpos'. rewrite Hpos'.
  pose proof H1005 as Hle. apply Qlt_bool_false_iff in Hle.
  change (100 + ING_SHARE_MAX_OVER_EPS) with (100 + 0.5). rewrite Hle.
  rewrite Hall, normFactorOf_close by lra.
  assert (Hno : Qlt_bool REMAINDER_EPS
                  (if Qeq_bool (100 / S) 1
                   then kg * (1 - clamp (S * (100 / S) / 100) 0 1) else 0) = false).
  { destruct (Qeq_bool (100 / S) 1); [|reflexivity].
    apply Qlt_bool_false_iff.
    assert (E : kg * (1 - clamp (S * (100 / S) / 100) 0 1) == 0).
    { apply (unallocated_zero_when_covered kg (100 / S) S).
      assert (Hc : S * (100 / S) / 100 == 1) by (field; lra). rewrite Hc. lra. }
    rewrite E. qeval. }
  rewrite Hno. reflexivity.
Qed.

(** Every row with a share contributes one item to the breakdown, which
    carries the share times [normFactor] and the cooked mass of the leaf. *)
Lemma bstep_item (componentId : Z) (cname : string) (ctype : option string)
  (kg normFactor : Q) (mappings : gmap string MappingRow) (lukeFoods : gmap Z LukeFoodRow)
  (acc : DonationBreakdown.Acc) (ing : ComponentIngredientRow) (p : Q) :
  exists it,
    DonationBreakdown.acc_items
      (DonationBreakdown.ingredientStep componentId cname ctype kg normFactor mappings
         lukeFoods acc (ing, Some p))
    = DonationBreakdown.acc_items acc ++ [it] /\
    DonationBreakdown.share_pct it = Some (p * normFactor) /\
    DonationBreakdown.cooked_mass_kg it = cookedKgOf kg normFactor p.
Proof.
  unfold DonationBreakdown.ingredientStep.
  destruct (ing_is_water ing); [eexists; repeat split|].
  destruct (ing_is_salt ing); [eexists; repeat split|].
  destruct (Qlt_bool _ _); [eexists; repeat split|].
  destruct (mappings !! ing_core ing) as [m|]; [|eexists; repeat split].
  destruct (String.eqb _ "ignore"); [eexists; repeat split|].
  destruct (DonationBreakdown.value _); [|eexists; repeat split].
  destruct (massForFactorKg _ _ _); eexists; repeat split.
Qed.

(** C6 as the code has it. When no ingredient share of a component is missing
    and the shares sum to more than 95 and less than 100.5, every share is
    rescaled by 100/sum before the masses are computed: the loop runs with
    that factor, a leaf with share p gets the fraction p/sum of the component
    mass, the rescaled shares sum to 100 and the leaf masses to the component
    mass, and no remainder is added. (A sum above 100.5 is the share-sum
    error, also when it is within 5 points of 100; at a sum of exactly 95 or
    100.5 the rounding of the double sum decides.) When a share is missing
    the factor is 1 whatever the sum: the loop runs on the shares as given,
    and the uncovered mass, where it exceeds 1e-9 kg, is added to the
    unmapped mass. *)
Theorem close_complete_shares_are_rescaled (db : Db) (componentId : Z) (w : Q) :
  0 < w ->
  existsb isNull (sharesOf db componentId) = false ->
  95 < sumPctOf db componentId ->
  sumPctOf db componentId < 100 + 0.5 ->
  let sumPct := sumPctOf db componentId in
  normFactorOf (existsb isNull (sharesOf db componentId)) sumPct = 100 / sumPct /\
  CarbonCalculator.computeComponentCarbon db componentId w
    = Ok (loopTotals db componentId w (100 / sumPct)) /\
  (forall p, In (Some p) (sharesOf db componentId) ->
     fracOf (100 / sumPct) p == p / sumPct /\
     cookedKgOf w (100 / sumPct) p == w * (p * (100 / sumPct)) / 100) /\
  sumNums (map (fun p => p * (100 / sumPct)) (map (default 0) (sharesOf db componentId)))
    == 100 /\
  massOf (loopTotals db componentId w (100 / sumPct)) == w /\
  (forall cname ctype kg compIngs mappings lukeFoods acc,
     existsb isNull (breakdownShares compIngs) = false ->
     95 < breakdownSumPct compIngs -> breakdownSumPct compIngs < 100 + 0.5 ->
     DonationBreakdown.componentRound componentId cname ctype kg compIngs mappings
       lukeFoods acc
     = Ok (fold_left
             (DonationBreakdown.ingredientStep componentId cname ctype kg
                (100 / breakdownSumPct compIngs) mappings lukeFoods)
             (combine compIngs (breakdownShares compIngs)) acc) /\
     forall acc' ing p,
       exists it,
         DonationBreakdown.acc_items
           (DonationBreakdown.ingredientStep componentId cname ctype kg
              (100 / breakdownSumPct compIngs) mappings lukeFoods acc' (ing, Some p))
         = DonationBreakdown.acc_items acc' ++ [it] /\
         DonationBreakdown.share_pct it = Some (p * (100 / breakdownSumPct compIngs)) /\
         DonationBreakdown.cooked_mass_kg it
           = cookedKgOf kg (100 / breakdownSumPct compIngs) p) /\
  (forall db' componentId' w',
     0 < w' -> 0 < sumPctOf db' componentId' ->
     sumPctOf db' componentId' < 100 + 0.5 ->
     existsb isNull (sharesOf db' componentId') = true ->
     normFactorOf (existsb isNull (sharesOf db' componentId')) (sumPctOf db' componentId') = 1 /\
     exists c,
       CarbonCalculator.computeComponentCarbon db' componentId' w' = Ok c /\
       CarbonCalculator.mappedKg c
         = CarbonCalculator.mappedKg (loopTotals db' componentId' w' 1) /\
       CarbonCalculator.ignoredKg c
         = CarbonCalculator.ignoredKg (loopTotals db' componentId' w' 1) /\
       CarbonCalculator.co2eKg c
         = CarbonCalculator.co2eKg (loopTotals db' componentId' w' 1) /\
       CarbonCalculator.unmappedKg c
         = if Qlt_bool REMAINDER_EPS (unallocatedKgOf w' 1 (sumPctOf db' componentId'))
           then CarbonCalculator.unmappedKg (loopTotals db' componentId' w' 1)
                + unallocatedKgOf w' 1 (sumPctOf db' componentId')
           else CarbonCalculator.unmappedKg (loopTotals db' componentId' w' 1)).
Proof.
  intros Hw Hall H95 H1005 sumPct. subst sumPct.
  apply Qlt_le_weak in H95. apply Qlt_le_weak in H1005.
  remember (sumPctOf db componentId) as sumPct eqn:Esum.
  assert (Hpos : 0 < sumPct) by lra.
  assert (Hnf : normFactorOf (existsb isNull (sharesOf db componentId)) sumPct = 100 / sumPct).
  { rewrite Hall. apply normFactorOf_close; lra. }
  assert (Hcover : sumPct * (100 / sumPct) / 100 == 1) by (field; lra).
  assert (Hfrac : forall p, In (Some p) (sharesOf db componentId) ->
            0 <= p /\ p * (100 / sumPct) / 100 <= 1 /\ fracOf (100 / sumPct) p == p / sumPct).
  { intros p Hin.
    destruct (share_le_sum _ p (sharesOf_bounds db componentId) Hin) as [Hp0 Hp1].
    fold (sumPctOf db componentId) in Hp1. rewrite <- Esum in Hp1.
    destruct (rescaled_frac p sumPct Hpos Hp0 Hp1) as (_ & Hle & E). auto. }
  split; [exact Hnf|]. split; [|split; [|split; [|split; [|split]]]].
  - rewrite computeComponentCarbon_loop
      by (unfold ING_SHARE_MAX_OVER_EPS; try rewrite <- Esum; assumption).
    cbv zeta. rewrite <- Esum, Hnf.
    rewrite no_remainder_test; [reflexivity|].
    apply unallocated_zero_when_covered. rewrite Hcover. lra.
  - intros p Hin. destruct (Hfrac p Hin) as (_ & _ & E). split; [exact E|].
    unfold cookedKgOf. rewrite E. field. lra.
  - rewrite sumNums_scaled. fold (sumPctOf db componentId). rewrite <- Esum. field. lra.
  - rewrite massOf_loopTotals, leaves_sum.
    + fold (sumPctOf db componentId). rewrite <- Esum, Hcover. ring.
    + apply Qle_shift_div_l; lra.
    + apply List.Forall_forall. intros s Hin p ->.
      destruct (Hfrac p Hin) as (Hp0 & Hle & _). auto.
  - intros cname ctype kg compIngs mappings lukeFoods acc Hball Hb95 Hb1005. split.
    + apply componentRound_rescaled; [assumption|apply Qlt_le_weak..]; assumption.
    + intros acc' ing p. apply bstep_item.
  - intros db' componentId' w' Hw' Hpos' Hle' Hmiss. apply Qlt_le_weak in Hle'.
    assert (Hone : normFactorOf (existsb isNull (sharesOf db' componentId'))
                     (sumPctOf db' componentId') = 1)
      by (rewrite Hmiss; reflexivity).
    split; [exact Hone|].
    rewrite computeComponentCarbon_loop by (unfold ING_SHARE_MAX_OVER_EPS; assumption).
    cbv zeta. rewrite Hone. rewrite andb_true_r.
    fold (loopTotals db' componentId' w' 1).
    fold (unallocatedKgOf w' 1 (sumPctOf db' componentId')).
    destruct (Qlt_bool REMAINDER_EPS (unallocatedKgOf w' 1 (sumPctOf db' componentId')));
      eexists; (split; [reflexivity|]); repeat split.
Qed.

Lemma close_complete_shares_are_rescaled_witness :
  CarbonCalculator.computeComponentCarbon Sample.storeNinetySix 1 2
    = Ok (loopTotals Sample.storeNinetySix 1 2 (100 / sumPctOf Sample.storeNinetySix 1)) /\
  sumPctOf Sample.storeNinetySix 1 == 96 /\
  48 * (100 / sumPctOf Sample.storeNinetySix 1) == 50 /\
  cookedKgOf 2 (100 / sumPctOf Sample.storeNinetySix 1) 48 == 1 /\
  massOf (loopTotals Sample.storeNinetySix 1 2 (100 / sumPctOf Sample.storeNinetySix 1)) == 2.
Proof.
  assert (Hw : 0 < 2) by qeval.
  assert (Hall : existsb isNull (sharesOf Sample.storeNinetySix 1) = false) by reflexivity.
  assert (H95 : 95 < sumPctOf Sample.storeNinetySix 1) by qeval.
  assert (H1005 : sumPctOf Sample.storeNinetySix 1 < 100 + 0.5) by qeval.
  destruct (close_complete_shares_are_rescaled Sample.storeNinetySix 1 2 Hw Hall H95 H1005)
    as (_ & Hrun & _ & _ & Hmass & _ & _).
  split; [exact Hrun|]. split; [qeval|]. split; [qeval|]. split; [qeval|exact Hmass].
Defined.

(** C6 as the specification words it fails: the shares 52 and 51 are both
    present and their sum 103 is within 5 points of 100, yet nothing is
    rescaled: the sum is above 100.5 and the computation aborts. *)
Lemma close_sum_above_limit_is_rejected :
  existsb isNull (sharesOf Sample.storeHundredThree 1) = false /\
  Qabs (sumPctOf Sample.storeHundredThree 1 - 100) <= 5 /\
  CarbonCalculator.computeComponentCarbon Sample.storeHundredThree 1 2
    = Err (IngredientShareSumExceeds 1 103) /\
  CarbonCalculator.computeDonationCarbon Sample.storeHundredThree 1
    = Err (IngredientShareSumExceeds 1 103).
Proof.
  split; [reflexivity|]. split; [qeval|].
  split; vm_compute; reflexivity.
Qed.

(** ** The unallocated remainder *)

Lemma normFactorOf_not_normalized (hasMissingShare : bool) (sumPct : Q) :
  hasMissingShare = true \/ ING_SHARE_NORMALIZE_EPS < Qabs (sumPct - 100) ->
  normFactorOf hasMissingShare sumPct = 1.
Proof.
  intros [->|H]; [reflexivity|]. unfold normFactorOf.
  apply Qle_bool_false_iff in H. rewrite H, andb_false_r. reflexivity.
Qed.

Lemma remainder_is_uncovered_mass (w sumPct : Q) :
  0 < w -> 0 <= sumPct ->
  REMAINDER_EPS < unallocatedKgOf w 1 sumPct ->
  sumPct < 100 /\ unallocatedKgOf w 1 sumPct == w * (1 - sumPct / 100).
Proof.
  intros Hw Hs Hrem.
  assert (Hlt : sumPct < 100).
  { apply Qnot_le_lt. intros Hge.
    rewrite unallocated_zero_when_covered in Hrem; [revert Hrem; qeval|].
    apply Qle_shift_div_l; lra. }
  split; [exact Hlt|]. unfold unallocatedKgOf.
  rewrite clamp_id; [field| |].
  - apply Qle_shift_div_l; lra.
  - apply Qle_shift_div_r; lra.
Qed.

Lemma componentRound_remainder (componentId : Z) (cname : string) (ctype : option string)
  (w : Q) (compIngs : list ComponentIngredientRow) (mappings : gmap string MappingRow)
  (lukeFoods : gmap Z LukeFoodRow) (acc : DonationBreakdown.Acc) :
  0 < breakdownSumPct compIngs ->
  breakdownSumPct compIngs <= 100 + ING_SHARE_MAX_OVER_EPS ->
  normFactorOf (existsb isNull (breakdownShares compIngs)) (breakdownSumPct compIngs) = 1 ->
  REMAINDER_EPS < unallocatedKgOf w 1 (breakdownSumPct compIngs) ->
  DonationBreakdown.componentRound componentId cname ctype w compIngs mappings lukeFoods acc
  = Ok (DonationBreakdown.pushUnmapped
          (fold_left
             (DonationBreakdown.ingredientStep componentId cname ctype w 1 mappings lukeFoods)
             (combine compIngs (breakdownShares compIngs)) acc)
          (unallocatedKgOf w 1 (breakdownSumPct compIngs))
          (DonationBreakdown.item componentId cname ctype w DonationBreakdown.unmapped
             "unallocated remainder (shares < 100)" "UNALLOCATED_REMAINDER"
             "UNALLOCATED_REMAINDER" None (unallocatedKgOf w 1 (breakdownSumPct compIngs))
             None None None "none" None 0 0)).
Proof.
  intros Hpos Hle Hnf Hrem. unfold DonationBreakdown.componentRound.
  destruct compIngs as [|r rows].
  { exfalso. revert Hpos. qeval. }
  fold (breakdownShares (r :: rows)). fold (breakdownSumPct (r :: rows)).
  apply Qle_bool_false_iff in Hpos. rewrite Hpos.
  apply Qlt_bool_false_iff in Hle. rewrite Hle.
  rewrite Hnf. change (Qeq_bool 1 1) with true. cbv iota.
  fold (unallocatedKgOf w 1 (breakdownSumPct (r :: rows))).
  apply Qlt_bool_iff in Hrem. rewrite Hrem. reflexivity.
Qed.

(** C5 as the code has it. For a component with ingredient rows whose clamped
    shares sum to more than 0 and where normalization does not occur (a share
    is missing, or the sum is more than 5 points away from 100), the uncovered
    part of the component mass, w x (1 - sum/100), is added to the unmapped
    mass whenever it exceeds 1e-9 kg: the calculator returns the loop totals
    with that remainder added to the unmapped bucket only, the three buckets
    then add up to the component mass, and the breakdown appends an unmapped
    leaf with the reason "unallocated remainder (shares < 100)". (With a share
    sum of 0 or less the component goes through the component-name fallback
    instead.) *)
Theorem uncovered_remainder_is_unmapped (db : Db) (componentId : Z) (w : Q) :
  0 < w ->
  0 < sumPctOf db componentId ->
  existsb isNull (sharesOf db componentId) = true
    \/ 5 < Qabs (sumPctOf db componentId - 100) ->
  REMAINDER_EPS < unallocatedKgOf w 1 (sumPctOf db componentId) ->
  let unallocatedKg := unallocatedKgOf w 1 (sumPctOf db componentId) in
  let loop := loopTotals db componentId w 1 in
  unallocatedKg == w * (1 - sumPctOf db componentId / 100) /\
  CarbonCalculator.computeComponentCarbon db componentId w
    = Ok (CarbonCalculator.addUnmapped loop unallocatedKg) /\
  CarbonCalculator.unmappedKg (CarbonCalculator.addUnmapped loop unallocatedKg)
    = CarbonCalculator.unmappedKg loop + unallocatedKg /\
  CarbonCalculator.ignoredKg (CarbonCalculator.addUnmapped loop unallocatedKg)
    = CarbonCalculator.ignoredKg loop /\
  massOf (CarbonCalculator.addUnmapped loop unallocatedKg) == w /\
  (forall cname ctype kg compIngs mappings lukeFoods acc,
     0 < kg ->
     0 < breakdownSumPct compIngs ->
     existsb isNull (breakdownShares compIngs) = true
       \/ 5 < Qabs (breakdownSumPct compIngs - 100) ->
     REMAINDER_EPS < unallocatedKgOf kg 1 (breakdownSumPct compIngs) ->
     exists it,
       DonationBreakdown.componentRound componentId cname ctype kg compIngs mappings
         lukeFoods acc
       = Ok (DonationBreakdown.pushUnmapped
               (fold_left
                  (DonationBreakdown.ingredientStep componentId cname ctype kg 1 mappings
                     lukeFoods)
                  (combine compIngs (breakdownShares compIngs)) acc)
               (unallocatedKgOf kg 1 (breakdownSumPct compIngs)) it) /\
       DonationBreakdown.status it = DonationBreakdown.unmapped /\
       DonationBreakdown.reason it = "unallocated remainder (shares < 100)"%string /\
       DonationBreakdown.cooked_mass_kg it = unallocatedKgOf kg 1 (breakdownSumPct compIngs)).
Proof.
  intros Hw Hpos Hnot Hrem unallocatedKg loop.
  assert (Hnf : normFactorOf (existsb isNull (sharesOf db componentId))
                  (sumPctOf db componentId) = 1)
    by (apply normFactorOf_not_normalized; exact Hnot).
  destruct (remainder_is_uncovered_mass w _ Hw (Qlt_le_weak _ _ Hpos) Hrem) as [Hlt Hval].
  assert (Hle : sumPctOf db componentId <= 100 + ING_SHARE_MAX_OVER_EPS)
    by (unfold ING_SHARE_MAX_OVER_EPS; lra).
  split; [exact Hval|]. split; [|split; [reflexivity|split; [reflexivity|split]]].
  - rewrite computeComponentCarbon_loop by assumption. cbv zeta. rewrite Hnf.
    fold unallocatedKg. unfold unallocatedKg at 1.
    apply Qlt_bool_iff in Hrem. rewrite Hrem. reflexivity.
  - unfold massOf. simpl.
    pose proof (massOf_loopTotals db componentId w 1) as Hloop.
    rewrite leaves_sum in Hloop.
    + unfold massOf in Hloop. fold loop in Hloop. fold (sumPctOf db componentId) in Hloop.
      unfold unallocatedKg. rewrite Hval.
      transitivity (CarbonCalculator.mappedKg loop + CarbonCalculator.unmappedKg loop
                    + CarbonCalculator.ignoredKg loop
                    + w * (1 - sumPctOf db componentId / 100)); [ring|].
      rewrite Hloop. field.
    + lra.
    + apply List.Forall_forall. intros s Hin p ->.
      pose proof (sharesOf_bounds db componentId) as Hb.
      rewrite List.Forall_forall in Hb. destruct (Hb _ Hin p eq_refl) as [Hp0 Hp1].
      split; [exact Hp0|]. apply Qle_shift_div_r; lra.
  - intros cname ctype kg compIngs mappings lukeFoods acc Hkg Hbpos Hbnot Hbrem.
    destruct (remainder_is_uncovered_mass kg _ Hkg (Qlt_le_weak _ _ Hbpos) Hbrem) as [Hblt _].
    eexists. split.
    + apply componentRound_remainder; try assumption.
      * unfold ING_SHARE_MAX_OVER_EPS. lra.
      * apply normFactorOf_not_normalized. exact Hbnot.
    + repeat split.
Qed.

Lemma uncovered_remainder_is_unmapped_witness :
  CarbonCalculator.computeComponentCarbon Sample.storeSeventy 1 10
    = Ok (CarbonCalculator.addUnmapped (loopTotals Sample.storeSeventy 1 10 1)
            (unallocatedKgOf 10 1 (sumPctOf Sample.storeSeventy 1))) /\
  unallocatedKgOf 10 1 (sumPctOf Sample.storeSeventy 1) == 3 /\
  CarbonCalculator.ignoredKg (loopTotals Sample.storeSeventy 1 10 1) == 0.
Proof.
  assert (Hw : 0 < 10) by qeval.
  assert (Hpos : 0 < sumPctOf Sample.storeSeventy 1) by qeval.
  assert (Hnot : existsb isNull (sharesOf Sample.storeSeventy 1) = true
                 \/ 5 < Qabs (sumPctOf Sample.storeSeventy 1 - 100))
    by (left; reflexivity).
  assert (Hrem : REMAINDER_EPS < unallocatedKgOf 10 1 (sumPctOf Sample.storeSeventy 1))
    by qeval.
  destruct (uncovered_remainder_is_unmapped Sample.storeSeventy 1 10 Hw Hpos Hnot Hrem)
    as (_ & Hrun & _).
  split; [exact Hrun|]. split; qeval.
Defined.

(** C5 as the specification words it fails: the component "Rice" has an
    ingredient row, its only share is missing, so no normalization occurs and
    the whole mass is uncovered; the calculator sends it through the
    component-name fallback, where the mapping of RICE marks it ignored: 10 kg
    ignored, nothing unmapped. And a remainder of at most 1e-9 kg is left out:
    for a component mass of 1e-9 kg with the shares 70 and missing, only the
    leaf's 0.7e-9 kg are booked. *)
Lemma uncovered_mass_of_shareless_rows_is_ignored :
  (CarbonCalculator.ingredientsOf Sample.storeRiceIgnored 1 <> [] /\
   existsb isNull (sharesOf Sample.storeRiceIgnored 1) = true /\
   normFactorOf (existsb isNull (sharesOf Sample.storeRiceIgnored 1))
     (sumPctOf Sample.storeRiceIgnored 1) = 1 /\
   exists r db',
     CarbonCalculator.computeDonationCarbon Sample.storeRiceIgnored 1 = Ok (r, db') /\
     CarbonCalculator.unmapped_mass_kg r == 0 /\
     CarbonCalculator.ignored_mass_kg r == 10) /\
  (exists c,
     CarbonCalculator.computeComponentCarbon Sample.storeSeventy 1 0.000000001 = Ok c /\
     CarbonCalculator.unmappedKg c == 0.0000000007 /\
     massOf c == 0.0000000007).
Proof.
  split.
  - split; [vm_compute; discriminate|]. split; [reflexivity|]. split; [reflexivity|].
    eexists. eexists. split; [vm_compute; reflexivity|]. split; qeval.
  - eexists. split; [vm_compute; reflexivity|]. split; qeval.
Qed.

(** ** Equal split of a dish without plate shares *)

Lemma sum_of_missing (provided : list (option Q)) :
  Forall (fun v => v = None) provided ->
  forall acc, fold_left (fun acc v => acc + default 0 v) provided acc == acc.
Proof.
  induction 1 as [|v l Hv _ IH]; intros acc; simpl.
  - reflexivity.
  - rewrite IH, Hv. simpl. ring.
Qed.

Lemma combine_repeat {A B : Type} (l : list A) (x : B) :
  combine l (map (fun _ => x) (repeat 0 (length l))) = map (fun a => (a, x)) l.
Proof. induction l as [|a l IH]; simpl; [reflexivity|]. rewrite IH. reflexivity. Qed.

Lemma plateShare_in_range (v : jsval) :
  (forall q, toNum v = Some q -> 0 <= q /\ q <= 1) ->
  default 0 (CarbonCalculator.plateShare v) == default 0 (toNum v).
Proof.
  intros H. destruct v as [|q|]; simpl; try reflexivity.
  destruct (H q eq_refl) as [H0 H1]. apply clamp_id; assumption.
Qed.

Lemma sumProvided_pointwise (comps : list DishComponentRow) :
  Forall (fun c => forall q, toNum (component_plate_share c) = Some q -> 0 <= q /\ q <= 1)
         comps ->
  forall a : Q,
    fold_left (fun acc v => acc + default 0 v) (providedSharesOf comps) a
    == fold_left Qplus (map (fun c => default 0 (toNum (component_plate_share c))) comps) a.
Proof.
  induction 1 as [|c l Hc _ IH]; intros a; simpl; [reflexivity|].
  rewrite IH.
  rewrite (fold_Qplus_acc _ (a + default 0 (CarbonCalculator.plateShare _))),
    (fold_Qplus_acc _ (a + default 0 (toNum _))).
  rewrite (plateShare_in_range _ Hc). reflexivity.
Qed.

(** For plate shares stored within [0,1] the clamped sum the code tests is the
    sum of the stored values. *)
Lemma sumProvided_in_range (comps : list DishComponentRow) :
  Forall (fun c => forall q, toNum (component_plate_share c) = Some q -> 0 <= q /\ q <= 1)
         comps ->
  sumProvidedOf comps == storedPlateSum comps.
Proof.
  intros H. unfold sumProvidedOf, storedPlateSum, sumNums.
  apply sumProvided_pointwise. exact H.
Qed.

Lemma ofNat_pos (n : nat) : n <> 0%nat -> 0 < CarbonCalculator.ofNat n.
Proof.
  intros H. unfold CarbonCalculator.ofNat. change 0 with (inject_Z 0).
  rewrite <- Zlt_Qlt. lia.
Qed.

(** C8. A dish-targeted donation whose components' plate shares are all
    missing, or sum (clamped to [0,1], a missing one counting as 0) to 0 or
    less, is split equally: the calculator gives every component the share
    1/n, and each of the n components is computed with the weight W x (1/n),
    that is W/n. When these n computations complete, the totals of the
    donation are the sums of their emissions and of their unmapped, mapped and
    ignored masses; when one of them fails, so does the donation. Both share
    normalisers ([donationBreakdown.ts], [donationBuckets.ts]) return 1/n for
    every component. *)
Theorem equal_split_without_plate_shares
  (db : Db) (donationId : Z) (donation : DonationRow) (dishId : Z) (donatedKg : Q) :
  0 < donatedKg ->
  donation_component_id donation = None ->
  donation_dish_id donation = Some dishId ->
  CarbonCalculator.componentsOfDish db dishId <> [] ->
  Forall (fun v => v = None) (providedSharesOf (CarbonCalculator.componentsOfDish db dishId))
    \/ sumProvidedOf (CarbonCalculator.componentsOfDish db dishId) <= 0 ->
  let comps := CarbonCalculator.componentsOfDish db dishId in
  let eq := 1 / CarbonCalculator.ofNat (length comps) in
  CarbonCalculator.dishShares dishId comps = Ok (map (fun _ => eq) (repeat 0 (length comps))) /\
  donatedKg * eq == donatedKg / CarbonCalculator.ofNat (length comps) /\
  (forall rs,
     Forall2 (fun c r =>
                CarbonCalculator.computeComponentCarbon db (component_id_of c) (donatedKg * eq)
                = Ok r) comps rs ->
     exists totals,
       CarbonCalculator.donationTotals db donationId donation donatedKg = Ok totals /\
       CarbonCalculator.co2eKg totals = sumNums (map CarbonCalculator.co2eKg rs) /\
       CarbonCalculator.unmappedKg totals = sumNums (map CarbonCalculator.unmappedKg rs) /\
       CarbonCalculator.mappedKg totals = sumNums (map CarbonCalculator.mappedKg rs) /\
       CarbonCalculator.ignoredKg totals = sumNums (map CarbonCalculator.ignoredKg rs)) /\
  (forall c e,
     In c comps ->
     CarbonCalculator.computeComponentCarbon db (component_id_of c) (donatedKg * eq) = Err e ->
     exists e', CarbonCalculator.donationTotals db donationId donation donatedKg = Err e') /\
  (forall comps',
     normaliserSumProvided comps' <= 0 ->
     DonationBreakdown.normalizeComponentShares comps'
       = Ok (map (fun _ => 1 / DonationBreakdown.ofNat (length comps')) comps') /\
     DonationBuckets.normalizeComponentShares comps'
       = map (fun _ => 1 / DonationBuckets.ofNat (length comps')) comps').
Proof.
  intros Hw Hc Hd Hne Hnone comps eq. subst eq comps.
  remember (CarbonCalculator.componentsOfDish db dishId) as comps eqn:Ecomps.
  assert (Hsum : sumProvidedOf comps <= 0).
  { destruct Hnone as [Hall|Hle]; [|exact Hle].
    unfold sumProvidedOf. rewrite (sum_of_missing _ Hall). lra. }
  assert (Hshares : CarbonCalculator.dishShares dishId comps
                    = Ok (map (fun _ => 1 / CarbonCalculator.ofNat (length comps))
                              (repeat 0 (length comps)))).
  { unfold CarbonCalculator.dishShares. fold (providedSharesOf comps).
    fold (sumProvidedOf comps). apply Qle_bool_iff in Hsum. rewrite Hsum. reflexivity. }
  assert (Hn : 0 < CarbonCalculator.ofNat (length comps)).
  { apply ofNat_pos. destruct comps; [congruence|discriminate]. }
  assert (Hpos : 0 < donatedKg * (1 / CarbonCalculator.ofNat (length comps))).
  { apply Qmult_lt_0_compat; [exact Hw|]. apply Qlt_shift_div_l; [exact Hn|lra]. }
  assert (Hrun : CarbonCalculator.donationTotals db donationId donation donatedKg
                 = CarbonCalculator.componentsLoop db donatedKg
                     (map (fun c => (c, 1 / CarbonCalculator.ofNat (length comps))) comps)
                     CarbonCalculator.noCarbon).
  { unfold CarbonCalculator.donationTotals. rewrite Hc, Hd, <- Ecomps.
    destruct comps as [|c0 rest] eqn:E0; [congruence|].
    rewrite <- E0 in *. rewrite Hshares. simpl bind. rewrite combine_repeat. reflexivity. }
  remember (1 / CarbonCalculator.ofNat (length comps)) as share eqn:Eshare.
  apply Qle_bool_false_iff in Hpos.
  split; [exact Hshares|]. split; [|split; [|split]].
  - rewrite Eshare. field. lra.
  - intros rs Hrs. rewrite Hrun. unfold sumNums.
    change 0 with (CarbonCalculator.co2eKg CarbonCalculator.noCarbon) at 1.
    change 0 with (CarbonCalculator.unmappedKg CarbonCalculator.noCarbon) at 1.
    change 0 with (CarbonCalculator.mappedKg CarbonCalculator.noCarbon) at 1.
    change 0 with (CarbonCalculator.ignoredKg CarbonCalculator.noCarbon) at 1.
    generalize CarbonCalculator.noCarbon as acc. clear - Hpos Hrs.
    induction Hrs as [|c r l rs' Hr _ IH]; intros acc.
    + exists acc. repeat split.
    + cbn [map CarbonCalculator.componentsLoop]. rewrite Hpos, Hr. cbn [bind].
      destruct (IH (CarbonCalculator.addCarbon acc r)) as (totals & Ht & E1 & E2 & E3 & E4).
      exists totals. split; [exact Ht|]. cbn [fold_left].
      split; [exact E1|]. split; [exact E2|]. split; [exact E3|exact E4].
  - intros c e Hin Hfail. rewrite Hrun.
    generalize CarbonCalculator.noCarbon as acc. clear - Hpos Hin Hfail.
    induction comps as [|c0 rest IH]; intros acc; [destruct Hin|].
    cbn [map CarbonCalculator.componentsLoop]. rewrite Hpos.
    destruct Hin as [->|Hin].
    + rewrite Hfail. exists e. reflexivity.
    + destruct (CarbonCalculator.computeComponentCarbon db (component_id_of c0)
                  (donatedKg * share)) as [r|e0]; cbn [bind].
      * apply IH. exact Hin.
      * exists e0. reflexivity.
  - intros comps' Hle. apply Qle_bool_iff in Hle. split.
    + unfold DonationBreakdown.normalizeComponentShares.
      fold (normaliserProvided comps'). fold (normaliserSumProvided comps').
      rewrite Hle. reflexivity.
    + unfold DonationBuckets.normalizeComponentShares.
      fold (normaliserProvided comps'). fold (normaliserSumProvided comps').
      rewrite Hle. reflexivity.
Qed.

Lemma equal_split_without_plate_shares_witness :
  CarbonCalculator.dishShares 7 (CarbonCalculator.componentsOfDish Sample.storeEqualSplit 7)
    = Ok [1 / CarbonCalculator.ofNat 2; 1 / CarbonCalculator.ofNat 2] /\
  10 * (1 / CarbonCalculator.ofNat 2) == 5 /\
  exists totals,
    CarbonCalculator.donationTotals Sample.storeEqualSplit 1 Sample.wholeDishDonation 10
      = Ok totals /\
    CarbonCalculator.mappedKg totals == 5 /\
    CarbonCalculator.co2eKg totals == 7.5 /\
    CarbonCalculator.unmappedKg totals == 5 /\
    CarbonCalculator.ignoredKg totals == 0.
Proof.
  assert (Hw : 0 < 10) by qeval.
  assert (Hne : CarbonCalculator.componentsOfDish Sample.storeEqualSplit 7 <> [])
    by (vm_compute; discriminate).
  assert (Hnone : Forall (fun v => v = None)
                    (providedSharesOf
                       (CarbonCalculator.componentsOfDish Sample.storeEqualSplit 7))
                  \/ sumProvidedOf
                       (CarbonCalculator.componentsOfDish Sample.storeEqualSplit 7) <= 0)
    by (left; repeat constructor).
  destruct (equal_split_without_plate_shares Sample.storeEqualSplit 1
              Sample.wholeDishDonation 7 10 Hw eq_refl eq_refl Hne Hnone)
    as (Hshares & _ & Hsums & _).
  split; [exact Hshares|]. split; [qeval|].
  destruct (Hsums [allMapped (10 * (1 / CarbonCalculator.ofNat 2))
                     (10 * (1 / CarbonCalculator.ofNat 2) * 1.5);
                   allUnmapped (10 * (1 / CarbonCalculator.ofNat 2))])
    as (totals & Ht & E1 & E2 & E3 & E4).
  - repeat constructor.
  - exists totals. split; [exact Ht|]. rewrite E1, E2, E3, E4. repeat split; qeval.
Defined.

(** ** Conservation of mass *)

(** C1 fails on the code. A dish whose two components carry the plate shares
    0.5 and 0.3 (no share missing, sum 0.8, further than 0.03 from 1) is
    computed with the component masses 5 kg and 3 kg for a donation of 10 kg:
    the three buckets add up to 8 kg and 2 kg of the donation appear nowhere.
    A component with the shares 60, 40.5 and a missing one is computed with
    leaf masses that add up to 100.5% of the donation. Both computations
    complete without error. *)
Theorem conservation_fails_on_partial_plate_shares :
  (exists r db',
     CarbonCalculator.computeDonationCarbon Sample.storeUnderPlate 1 = Ok (r, db') /\
     CarbonCalculator.donated_weight_kg r == 10 /\
     CarbonCalculator.mapped_mass_kg r + CarbonCalculator.unmapped_mass_kg r
       + CarbonCalculator.ignored_mass_kg r == 8 /\
     ~ Qabs (CarbonCalculator.mapped_mass_kg r + CarbonCalculator.unmapped_mass_kg r
             + CarbonCalculator.ignored_mass_kg r - CarbonCalculator.donated_weight_kg r)
       <= REMAINDER_EPS) /\
  (exists r db',
     CarbonCalculator.computeDonationCarbon Sample.storeOverWithMissing 1 = Ok (r, db') /\
     CarbonCalculator.donated_weight_kg r == 10 /\
     CarbonCalculator.mapped_mass_kg r + CarbonCalculator.unmapped_mass_kg r
       + CarbonCalculator.ignored_mass_kg r == 10.05 /\
     ~ Qabs (CarbonCalculator.mapped_mass_kg r + CarbonCalculator.unmapped_mass_kg r
             + CarbonCalculator.ignored_mass_kg r - CarbonCalculator.donated_weight_kg r)
       <= REMAINDER_EPS).
Proof.
  split.
  - eexists. eexists. split; [vm_compute; reflexivity|].
    split; [qeval|]. split; [qeval|]. vm_compute. intros H. apply H. reflexivity.
  - eexists. eexists. split; [vm_compute; reflexivity|].
    split; [qeval|]. split; [qeval|]. vm_compute. intros H. apply H. reflexivity.
Qed.

Lemma massOf_fallback (db : Db) (componentId : Z) (w : Q) :
  massOf (CarbonCalculator.computeComponentFallbackCarbonFromName db componentId w) == w.
Proof.
  rewrite fallback_by_mapping.
  destruct (fallbackMappingOf db componentId) as [mapping|];
    [|unfold massOf; simpl; ring].
  destruct (String.eqb _ "ignore"); [unfold massOf; simpl; ring|].
  destruct (CarbonCalculator.getCo2FactorKgPerKg _ _); [|unfold massOf; simpl; ring].
  destruct (massForFactorKg _ _ _); unfold massOf; simpl; ring.
Qed.

Lemma massOf_addUnmapped (c : CarbonCalculator.Carbon) (kg : Q) :
  massOf (CarbonCalculator.addUnmapped c kg) == massOf c + kg.
Proof. unfold massOf. simpl. ring. Qed.

Lemma unit_leaves (db : Db) (componentId : Z) :
  Forall (fun s => forall p, s = Some p -> 0 <= p /\ p * 1 / 100 <= 1) (sharesOf db componentId).
Proof.
  apply List.Forall_forall. intros s Hin p ->.
  pose proof (sharesOf_bounds db componentId) as Hb.
  rewrite List.Forall_forall in Hb. destruct (Hb _ Hin p eq_refl) as [Hp0 Hp1].
  split; [exact Hp0|]. apply Qle_shift_div_r; lra.
Qed.

(** Where conservation does hold: a single component computation keeps the
    three buckets within 1e-9 kg of the component mass unless a share is
    missing while the known shares already exceed 100. *)
Lemma component_mass_conserved (db : Db) (componentId : Z) (w : Q)
  (c : CarbonCalculator.Carbon) :
  0 < w ->
  CarbonCalculator.computeComponentCarbon db componentId w = Ok c ->
  existsb isNull (sharesOf db componentId) = false \/ sumPctOf db componentId <= 100 ->
  Qabs (massOf c - w) <= REMAINDER_EPS.
Proof.
  intros Hw Hrun Hcond.
  assert (Hexact : forall x, x == w -> Qabs (x - w) <= REMAINDER_EPS).
  { intros x Hx. apply Qabs_Qle_condition. unfold REMAINDER_EPS. split; lra. }
  destruct (CarbonCalculator.ingredientsOf db componentId) as [|r0 rows0] eqn:Hrows.
  { unfold CarbonCalculator.computeComponentCarbon in Hrun.
    pose proof Hw as Hw'. apply Qle_bool_false_iff in Hw'. rewrite Hw', Hrows in Hrun.
    inversion Hrun. apply Hexact, massOf_fallback. }
  destruct (Qle_bool (sumPctOf db componentId) 0) eqn:Hzero.
  { rewrite computeComponentCarbon_unfold in Hrun by (try rewrite Hrows; easy).
    cbv zeta in Hrun. rewrite Hzero in Hrun.
    inversion Hrun. apply Hexact, massOf_fallback. }
  apply Qle_bool_false_iff in Hzero.
  destruct (Qlt_bool (100 + ING_SHARE_MAX_OVER_EPS) (sumPctOf db componentId)) eqn:Hover.
  { apply Qlt_bool_iff in Hover.
    rewrite computeComponentCarbon_over_limit in Hrun by assumption. discriminate. }
  apply Qlt_bool_false_iff in Hover.
  pose proof Hrun as Hrun0.
  rewrite computeComponentCarbon_loop in Hrun by assumption. cbv zeta in Hrun.
  remember (sumPctOf db componentId) as S eqn:ES.
  unfold ING_SHARE_MAX_OVER_EPS in Hover.
  destruct (existsb isNull (sharesOf db componentId)) eqn:Hmiss;
    [|destruct (Qle_bool (Qabs (S - 100)) ING_SHARE_NORMALIZE_EPS) eqn:Hclose].
  - (* a share is missing: no rescaling, and the known shares stay within 100 *)
    destruct Hcond as [Hcontra|Hle]; [discriminate|].
    change (normFactorOf true S) with 1 in Hrun.
    pose proof (massOf_loopTotals db componentId w 1) as Hloop.
    rewrite leaves_sum in Hloop by (try apply unit_leaves; lra).
    fold (sumPctOf db componentId) in Hloop. rewrite <- ES in Hloop.
    assert (HU : unallocatedKgOf w 1 S == w * (1 - S / 100)).
    { unfold unallocatedKgOf. rewrite clamp_id; [field| |].
      - apply Qle_shift_div_l; lra.
      - apply Qle_shift_div_r; lra. }
    assert (HU0 : 0 <= w * (1 - S / 100)).
    { apply Qmult_le_0_compat; [lra|].
      assert (S / 100 <= 1) by (apply Qle_shift_div_r; lra). lra. }
    change (Qeq_bool 1 1) with true in Hrun. rewrite andb_true_r in Hrun.
    destruct (Qlt_bool REMAINDER_EPS (unallocatedKgOf w 1 S)) eqn:Hrem; inversion Hrun.
    + apply Hexact. rewrite massOf_addUnmapped, Hloop, HU. field.
    + apply Qlt_bool_false_iff in Hrem. rewrite HU in Hrem.
      apply Qabs_Qle_condition. rewrite Hloop. split.
      * setoid_replace (w * (S * 1 / 100) - w) with (- (w * (1 - S / 100)))
          using relation Qeq by field.
        lra.
      * setoid_replace (w * (S * 1 / 100) - w) with (- (w * (1 - S / 100)))
          using relation Qeq by field.
        unfold REMAINDER_EPS. lra.
  - (* all shares present and close to 100: rescaled, nothing left over *)
    apply Qle_bool_iff in Hclose. apply Qabs_Qle_condition in Hclose.
    unfold ING_SHARE_NORMALIZE_EPS in Hclose. destruct Hclose as [Hc1 Hc2].
    assert (H95 : 95 <= sumPctOf db componentId) by (rewrite <- ES; lra).
    assert (H1005 : sumPctOf db componentId <= 100 + 0.5) by (rewrite <- ES; lra).
    destruct (close_complete_shares_run db componentId w Hw Hmiss H95 H1005)
      as [Hsame Hmass].
    rewrite Hsame in Hrun0. inversion Hrun0. apply Hexact. exact Hmass.
  - (* all shares present, the sum further than 5 points from 100: below 95 *)
    apply Qle_bool_false_iff in Hclose.
    assert (Hlow : S < 95).
    { apply Qnot_le_lt. intros Hge. revert Hclose. apply Qle_not_lt.
      apply Qabs_Qle_condition. unfold ING_SHARE_NORMALIZE_EPS. split; lra. }
    assert (Hnf : normFactorOf false S = 1).
    { apply normFactorOf_not_normalized. right. exact Hclose. }
    rewrite Hnf in Hrun.
    pose proof (massOf_loopTotals db componentId w 1) as Hloop.
    rewrite leaves_sum in Hloop by (try apply unit_leaves; lra).
    fold (sumPctOf db componentId) in Hloop. rewrite <- ES in Hloop.
    assert (HU : unallocatedKgOf w 1 S == w * (1 - S / 100)).
    { unfold unallocatedKgOf. rewrite clamp_id; [field| |].
      - apply Qle_shift_div_l; lra.
      - apply Qle_shift_div_r; lra. }
    change (Qeq_bool 1 1) with true in Hrun. rewrite andb_true_r in Hrun.
    destruct (Qlt_bool REMAINDER_EPS (unallocatedKgOf w 1 S)) eqn:Hrem; inversion Hrun.
    + apply Hexact. rewrite massOf_addUnmapped, Hloop, HU. field.
    + apply Qlt_bool_false_iff in Hrem. rewrite HU in Hrem.
      assert (HU0 : 0 <= w * (1 - S / 100)).
      { apply Qmult_le_0_compat; [lra|].
        assert (S / 100 <= 1) by (apply Qle_shift_div_r; lra). lra. }
      apply Qabs_Qle_condition. rewrite Hloop. split.
      * setoid_replace (w * (S * 1 / 100) - w) with (- (w * (1 - S / 100)))
          using relation Qeq by field.
        lra.
      * setoid_replace (w * (S * 1 / 100) - w) with (- (w * (1 - S / 100)))
          using relation Qeq by field.
        unfold REMAINDER_EPS. lra.
Qed.

(** X17. For a donation that targets a component directly, the three buckets
    of the returned totals are within 1e-9 kg of the donated weight, unless a
    share is missing while the known shares already exceed 100. *)
Lemma component_donation_mass_conserved (db : Db) (donationId : Z) (donation : DonationRow)
  (componentId : Z) (w : Q) (totals : CarbonCalculator.Carbon) :
  0 < w ->
  donation_component_id donation = Some componentId ->
  CarbonCalculator.donationTotals db donationId donation w = Ok totals ->
  existsb isNull (sharesOf db componentId) = false \/ sumPctOf db componentId <= 100 ->
  Qabs (massOf totals - w) <= REMAINDER_EPS.
Proof.
  intros Hw Hc Hrun Hcond. unfold CarbonCalculator.donationTotals in Hrun.
  rewrite Hc in Hrun.
  destruct (CarbonCalculator.computeComponentCarbon db componentId w) as [r|e] eqn:E;
    [|discriminate].
  simpl in Hrun. inversion Hrun.
  pose proof (component_mass_conserved db componentId w r Hw E Hcond) as Hr.
  apply Qabs_Qle_condition in Hr. apply Qabs_Qle_condition.
  unfold massOf in *. simpl. lra.
Qed.

Lemma component_donation_mass_conserved_witness :
  exists totals,
    CarbonCalculator.donationTotals Sample.storeSeventy 1
      (Sample.donation 1 (Some 7%Z) (Some 1%Z) 10) 10 = Ok totals /\
    Qabs (massOf totals - 10) <= REMAINDER_EPS.
Proof.
  eexists. split; [vm_compute; reflexivity|].
  apply (component_donation_mass_conserved Sample.storeSeventy 1
           (Sample.donation 1 (Some 7%Z) (Some 1%Z) 10) 1 10).
  - qeval.
  - reflexivity.
  - vm_compute. reflexivity.
  - right. qeval.
Defined.

(** ** The metrics cache *)

Lemma computeComponentCarbon_withMetrics (ms : list DonationMetricsRow) (db : Db)
  (componentId : Z) (w : Q) :
  CarbonCalculator.computeComponentCarbon (withMetrics ms db) componentId w
  = CarbonCalculator.computeComponentCarbon db componentId w.
Proof. reflexivity. Qed.

Lemma componentsLoop_withMetrics (ms : list DonationMetricsRow) (db : Db) (donatedKg : Q)
  (compShares : list (DishComponentRow * Q)) :
  forall acc,
    CarbonCalculator.componentsLoop (withMetrics ms db) donatedKg compShares acc
    = CarbonCalculator.componentsLoop db donatedKg compShares acc.
Proof.
  induction compShares as [|[c share] rest IH]; intros acc; [reflexivity|].
  cbn [CarbonCalculator.componentsLoop].
  rewrite computeComponentCarbon_withMetrics.
  destruct (Qle_bool (donatedKg * share) 0); [apply IH|].
  destruct (CarbonCalculator.computeComponentCarbon db (component_id_of c) (donatedKg * share));
    [apply IH|reflexivity].
Qed.

Lemma donationTotals_withMetrics (ms : list DonationMetricsRow) (db : Db) (donationId : Z)
  (donation : DonationRow) (w : Q) :
  CarbonCalculator.donationTotals (withMetrics ms db) donationId donation w
  = CarbonCalculator.donationTotals db donationId donation w.
Proof.
  unfold CarbonCalculator.donationTotals.
  destruct (donation_component_id donation); [reflexivity|].
  destruct (donation_dish_id donation) as [dishId|]; [|reflexivity].
  change (CarbonCalculator.componentsOfDish (withMetrics ms db) dishId)
    with (CarbonCalculator.componentsOfDish db dishId).
  destruct (CarbonCalculator.componentsOfDish db dishId); [reflexivity|].
  destruct (CarbonCalculator.dishShares dishId (d :: l)); [|reflexivity].
  apply componentsLoop_withMetrics.
Qed.

Lemma upsertMetrics_withMetrics (row : DonationMetricsRow) (db : Db) :
  upsertMetrics row db = withMetrics (donation_metrics (upsertMetrics row db)) db.
Proof. reflexivity. Qed.

Lemma upsert_member (row : DonationMetricsRow) (db : Db) :
  In row (donation_metrics (upsertMetrics row db)).
Proof.
  unfold upsertMetrics; cbn [donation_metrics].
  destruct (existsb _ (donation_metrics db)) eqn:E.
  - apply existsb_exists in E. destruct E as (r & Hin & Hid).
    apply in_map_iff. exists r. rewrite Hid. auto.
  - apply in_or_app. right. left. reflexivity.
Qed.

Lemma upsert_keyed (row : DonationMetricsRow) (db : Db) (m : DonationMetricsRow) :
  In m (donation_metrics (upsertMetrics row db)) ->
  dm_donation_id m = dm_donation_id row -> m = row.
Proof.
  unfold upsertMetrics; cbn [donation_metrics]. intros Hin Hid.
  destruct (existsb _ (donation_metrics db)) eqn:E.
  - apply in_map_iff in Hin. destruct Hin as (r & Hr & Hin).
    destruct (Z.eqb (dm_donation_id r) (dm_donation_id row)) eqn:Er; [congruence|].
    subst m. apply Z.eqb_neq in Er. contradiction.
  - apply in_app_or in Hin. destruct Hin as [Hin|[<-|[]]]; [|reflexivity].
    exfalso. assert (Hn : existsb (fun r => Z.eqb (dm_donation_id r) (dm_donation_id row))
                            (donation_metrics db) = true).
    { apply existsb_exists. exists m. split; [exact Hin|]. apply Z.eqb_eq. exact Hid. }
    congruence.
Qed.

Lemma upsert_others (row : DonationMetricsRow) (db : Db) :
  otherMetrics (dm_donation_id row) (upsertMetrics row db)
  = otherMetrics (dm_donation_id row) db.
Proof.
  unfold otherMetrics, upsertMetrics; cbn [donation_metrics].
  destruct (existsb _ (donation_metrics db)) eqn:E.
  - clear E. induction (donation_metrics db) as [|r l IH]; [reflexivity|].
    cbn [map List.filter].
    destruct (Z.eqb (dm_donation_id r) (dm_donation_id row)) eqn:Er.
    + rewrite Z.eqb_refl. cbn [negb]. exact IH.
    + rewrite Er. cbn [negb]. rewrite IH. reflexivity.
  - rewrite List.filter_app. cbn [List.filter]. rewrite Z.eqb_refl. cbn [negb].
    apply app_nil_r.
Qed.

Lemma upsert_twice (row : DonationMetricsRow) (db : Db) :
  upsertMetrics row (upsertMetrics row db) = upsertMetrics row db.
Proof.
  unfold upsertMetrics at 1. cbn [env_MAPPING_SOURCE_SYSTEM donations dish_components
    component_ingredients ingredient_mappings luke_foods].
  assert (Hex : existsb (fun r => Z.eqb (dm_donation_id r) (dm_donation_id row))
                  (donation_metrics (upsertMetrics row db)) = true).
  { apply existsb_exists. exists row. split; [apply upsert_member|apply Z.eqb_refl]. }
  rewrite Hex.
  assert (Hmap : map (fun r => if Z.eqb (dm_donation_id r) (dm_donation_id row) then row else r)
                   (donation_metrics (upsertMetrics row db))
                 = donation_metrics (upsertMetrics row db)).
  { rewrite <- (map_id (donation_metrics (upsertMetrics row db))) at 2.
    apply map_ext_in. intros m Hin.
    destruct (Z.eqb (dm_donation_id m) (dm_donation_id row)) eqn:Em; [|reflexivity].
    symmetry. apply (upsert_keyed row db); [exact Hin|]. apply Z.eqb_eq. exact Em. }
  rewrite Hmap. reflexivity.
Qed.

Lemma computeDonationCarbon_store (db : Db) (donationId : Z)
  (r : CarbonCalculator.DonationCarbonResult) (db' : Db) :
  CarbonCalculator.computeDonationCarbon db donationId = Ok (r, db') ->
  CarbonCalculator.donation_id r = donationId /\ db' = upsertMetrics (metricsRowOf r) db.
Proof.
  unfold CarbonCalculator.computeDonationCarbon. intros H.
  destruct (single _) as [donation|]; [|discriminate].
  destruct (Number _) as [w|]; [|discriminate].
  destruct (Qle_bool w 0); [discriminate|].
  destruct (CarbonCalculator.donationTotals db donationId donation w) as [totals|];
    [|discriminate].
  cbn in H. inversion H. split; reflexivity.
Qed.

Lemma computeDonationCarbon_withMetrics (ms : list DonationMetricsRow) (db : Db) (donationId : Z) :
  CarbonCalculator.computeDonationCarbon (withMetrics ms db) donationId =
    match CarbonCalculator.computeDonationCarbon db donationId with
    | Ok (r, _) => Ok (r, upsertMetrics (metricsRowOf r) (withMetrics ms db))
    | Err e => Err e
    end.
Proof.
  unfold CarbonCalculator.computeDonationCarbon.
  change (donations (withMetrics ms db)) with (donations db).
  destruct (single _) as [donation|]; [|reflexivity].
  destruct (Number _) as [w|]; [|reflexivity].
  destruct (Qle_bool w 0); [reflexivity|].
  rewrite donationTotals_withMetrics.
  destruct (CarbonCalculator.donationTotals db donationId donation w) as [totals|];
    reflexivity.
Qed.

(** X1. [computeDonationCarbon] never reads the [donation_metrics] table: with any
    other content of that table the outcome is the same result, or the same
    error, and on success the store is the given one after the upsert of the
    result's row. *)
Theorem metrics_cache_is_never_read (db : Db) (ms : list DonationMetricsRow) (donationId : Z) :
  match CarbonCalculator.computeDonationCarbon db donationId,
        CarbonCalculator.computeDonationCarbon (withMetrics ms db) donationId with
  | Ok (r, _), Ok (r', db') =>
      r' = r /\ db' = upsertMetrics (metricsRowOf r) (withMetrics ms db)
  | Err e, Err e' => e' = e
  | _, _ => False
  end.
Proof.
  rewrite computeDonationCarbon_withMetrics.
  destruct (CarbonCalculator.computeDonationCarbon db donationId) as [[r db0]|e].
  - split; reflexivity.
  - reflexivity.
Qed.

(** X2. A computation that completes changes nothing in the store but the
    [donation_metrics] row of its own donation: the rows of the other
    donations stay as they are, and no other table changes. (What the row of
    the donation itself then holds is left open here: the table rounds to
    four decimals, and the source does not abort on a failed write.) *)
Theorem metrics_of_other_donations_are_kept (db : Db) (donationId : Z)
  (r : CarbonCalculator.DonationCarbonResult) (db' : Db) :
  CarbonCalculator.computeDonationCarbon db donationId = Ok (r, db') ->
  otherMetrics donationId db' = otherMetrics donationId db /\
  donations db' = donations db /\ dish_components db' = dish_components db /\
  component_ingredients db' = component_ingredients db /\
  ingredient_mappings db' = ingredient_mappings db /\ luke_foods db' = luke_foods db.
Proof.
  intros H. apply computeDonationCarbon_store in H. destruct H as [Hid ->].
  assert (Hrow : dm_donation_id (metricsRowOf r) = donationId) by exact Hid.
  split; [rewrite <- Hrow; apply upsert_others|]. repeat split.
Qed.

(** X3. Recomputing a donation on the store that the first computation left
    gives the same result and leaves that store as it is. *)
Theorem rerun_is_idempotent (db : Db) (donationId : Z)
  (r : CarbonCalculator.DonationCarbonResult) (db' : Db) :
  CarbonCalculator.computeDonationCarbon db donationId = Ok (r, db') ->
  CarbonCalculator.computeDonationCarbon db' donationId = Ok (r, db').
Proof.
  intros H. pose proof (computeDonationCarbon_store _ _ _ _ H) as [_ ->].
  rewrite upsertMetrics_withMetrics at 1.
  rewrite computeDonationCarbon_withMetrics, H.
  rewrite <- upsertMetrics_withMetrics, upsert_twice. reflexivity.
Qed.

Lemma metrics_of_other_donations_are_kept_witness :
  exists r db',
    CarbonCalculator.computeDonationCarbon Sample.storeWithOtherMetrics 1 = Ok (r, db') /\
    CarbonCalculator.unmapped_mass_kg r == 4 /\
    otherMetrics 1 db' = [Sample.otherDonationMetrics] /\
    donations db' = donations Sample.storeWithOtherMetrics.
Proof.
  eexists. eexists. split; [vm_compute; reflexivity|].
  match goal with |- CarbonCalculator.unmapped_mass_kg ?r == _ /\ otherMetrics 1 ?db' = _ /\ _ =>
    destruct (metrics_of_other_donations_are_kept Sample.storeWithOtherMetrics 1 r db')
      as (H1 & H2 & _) end.
  - vm_compute. reflexivity.
  - split; [qeval|]. split; [rewrite H1; reflexivity|exact H2].
Defined.

Lemma rerun_is_idempotent_witness :
  exists r db',
    CarbonCalculator.computeDonationCarbon Sample.storeEndToEnd 1 = Ok (r, db') /\
    CarbonCalculator.computeDonationCarbon db' 1 = Ok (r, db').
Proof.
  eexists. eexists. split; [vm_compute; reflexivity|].
  apply (rerun_is_idempotent Sample.storeEndToEnd 1). vm_compute. reflexivity.
Defined.

(** ** Errors and their causes *)





(** X5. [computeDonationUnmappedBuckets] fails only on the donation row itself:
    no single row, a weight that is not a positive finite number, or neither
    component nor dish. It never fails on shares. Whenever it fails,
    [computeDonationCarbon] and [computeDonationBreakdown] fail with the same
    error. *)
Theorem unusable_donation_row_fails_everywhere (db : Db) (donationId : Z) (e : error) :
  DonationBuckets.computeDonationUnmappedBuckets db donationId = Err e ->
  CarbonCalculator.computeDonationCarbon db donationId = Err e /\
  DonationBreakdown.computeDonationBreakdown db donationId = Err e /\
  ((e = DonationNotFound donationId /\ donationOf db donationId = None) \/
   (e = InvalidDonatedWeight donationId /\
    exists d, donationOf db donationId = Some d /\
      (Number (donation_weight d) = None \/
       exists w, Number (donation_weight d) = Some w /\ w <= 0)) \/
   (e = NeitherDishNorComponent donationId /\
    exists d, donationOf db donationId = Some d /\
      donation_component_id d = None /\ donation_dish_id d = None)).
Proof.
  unfold DonationBuckets.computeDonationUnmappedBuckets,
    CarbonCalculator.computeDonationCarbon, DonationBreakdown.computeDonationBreakdown.
  fold (donationOf db donationId).
  destruct (donationOf db donationId) as [d|] eqn:Hd.
  2: { intros H; injection H as <-. split; [reflexivity|]. split; [reflexivity|].
       left. split; reflexivity. }
  destruct (Number (donation_weight d)) as [w|] eqn:Hn.
  2: { intros H; injection H as <-. split; [reflexivity|]. split; [reflexivity|].
       right; left. split; [reflexivity|]. exists d. split; [reflexivity|]. left. exact Hn. }
  destruct (Qle_bool w 0) eqn:Hw.
  { intros H; injection H as <-. split; [reflexivity|]. split; [reflexivity|].
    right; left. split; [reflexivity|]. exists d. split; [reflexivity|]. right.
    exists w. split; [exact Hn|]. apply Qle_bool_iff. exact Hw. }
  destruct (donation_component_id d) as [componentId|] eqn:Hc; [discriminate|].
  destruct (donation_dish_id d) as [dishId|] eqn:Hdish.
  { destruct (List.filter _ (dish_components db)); discriminate. }
  intros H; injection H as <-.
  unfold CarbonCalculator.donationTotals. rewrite Hc, Hdish.
  split; [reflexivity|]. split; [reflexivity|].
  right; right. split; [reflexivity|]. exists d. auto.
Qed.

Lemma unusable_donation_row_fails_everywhere_witness :
  CarbonCalculator.computeDonationCarbon Sample.storeEndToEnd 99 = Err (DonationNotFound 99) /\
  DonationBreakdown.computeDonationBreakdown Sample.storeEndToEnd 99
    = Err (DonationNotFound 99).
Proof.
  destruct (unusable_donation_row_fails_everywhere Sample.storeEndToEnd 99
              (DonationNotFound 99)) as (H1 & H2 & _).
  - vm_compute. reflexivity.
  - split; [exact H1|exact H2].
Defined.

Lemma filter_none {A : Type} (f : A -> bool) (l : list A) :
  (forall x, In x l -> f x = false) -> List.filter f l = [].
Proof.
  induction l as [|x l IH]; intros H; [reflexivity|].
  cbn [List.filter]. rewrite (H x) by (left; reflexivity).
  apply IH. intros y Hy. apply H. right. exact Hy.
Qed.

(** X6. A dish-targeted donation whose dish has no component rows completes in
    all three modules with the whole donated weight unmapped: the calculator
    returns it as unmapped mass with no emissions and caches that row, the
    breakdown returns the single item "dish has no dish_components rows", the
    buckets put it into the missing-share bucket. *)
Theorem dish_without_components_is_unmapped
  (db : Db) (donationId : Z) (d : DonationRow) (dishId : Z) (w : Q) :
  donationOf db donationId = Some d ->
  Number (donation_weight d) = Some w -> 0 < w ->
  donation_component_id d = None -> donation_dish_id d = Some dishId ->
  (forall c, In c (dish_components db) -> component_dish_id c <> dishId) ->
  (exists r db',
     CarbonCalculator.computeDonationCarbon db donationId = Ok (r, db') /\
     CarbonCalculator.unmapped_mass_kg r = w /\
     CarbonCalculator.mapped_mass_kg r = 0 /\ CarbonCalculator.ignored_mass_kg r = 0 /\
     CarbonCalculator.total_co2e_kg r = 0 /\ CarbonCalculator.co2_per_kg r == 0 /\
     In {| dm_donation_id := donationId; dm_total_co2e_kg := 0;
           dm_total_food_mass_kg := w; dm_unmapped_mass_kg := w |}
        (donation_metrics db')) /\
  (exists b,
     DonationBreakdown.computeDonationBreakdown db donationId = Ok b /\
     DonationBreakdown.unmapped_mass_kg (DonationBreakdown.totals b) = w /\
     DonationBreakdown.mapped_mass_kg (DonationBreakdown.totals b) = 0 /\
     DonationBreakdown.ignored_mass_kg (DonationBreakdown.totals b) = 0 /\
     DonationBreakdown.total_co2e_kg (DonationBreakdown.totals b) = 0 /\
     map (fun it => (DonationBreakdown.status it, DonationBreakdown.reason it,
                     DonationBreakdown.cooked_mass_kg it)) (DonationBreakdown.items b)
     = [(DonationBreakdown.unmapped, "dish has no dish_components rows"%string, w)]) /\
  DonationBuckets.computeDonationUnmappedBuckets db donationId
  = Ok {| DonationBuckets.donation_id := donationId;
          DonationBuckets.mapping_source_system := SOURCE_SYSTEM db;
          DonationBuckets.missing_share_mass_kg := w;
          DonationBuckets.mapping_or_factor_unmapped_mass_kg := 0 |}.
Proof.
  intros Hd Hn Hw Hc Hdish Hnone.
  assert (Hcomps : List.filter (fun c => Z.eqb (component_dish_id c) dishId)
                               (dish_components db) = []).
  { apply filter_none. intros c Hin. apply Z.eqb_neq. apply Hnone. exact Hin. }
  pose proof Hw as Hw'. apply Qle_bool_false_iff in Hw'.
  split; [|split].
  - unfold CarbonCalculator.computeDonationCarbon. fold (donationOf db donationId).
    rewrite Hd, Hn, Hw'. unfold CarbonCalculator.donationTotals, CarbonCalculator.componentsOfDish.
    rewrite Hc, Hdish, Hcomps. cbn [bind CarbonCalculator.co2eKg CarbonCalculator.unmappedKg
      CarbonCalculator.mappedKg CarbonCalculator.ignoredKg].
    eexists. eexists. split; [reflexivity|].
    cbn [CarbonCalculator.unmapped_mass_kg CarbonCalculator.mapped_mass_kg
         CarbonCalculator.ignored_mass_kg CarbonCalculator.total_co2e_kg
         CarbonCalculator.co2_per_kg].
    repeat (split; [reflexivity|]).
    split; [|apply upsert_member].
    destruct (Qlt_bool 0 w); [|reflexivity]. unfold Qdiv. ring.
  - unfold DonationBreakdown.computeDonationBreakdown. fold (donationOf db donationId).
    rewrite Hd, Hn, Hw', Hc, Hdish. unfold DonationBreakdown.loadDishComponents.
    rewrite Hcomps. cbn [DonationBreakdown.sortByKey fold_right].
    eexists. split; [reflexivity|]. cbn. repeat split; reflexivity.
  - unfold DonationBuckets.computeDonationUnmappedBuckets. fold (donationOf db donationId).
    rewrite Hd, Hn, Hw', Hc, Hdish, Hcomps. reflexivity.
Qed.

Lemma dish_without_components_is_unmapped_witness :
  (exists r db',
     CarbonCalculator.computeDonationCarbon Sample.storeEmptyDish 1 = Ok (r, db') /\
     CarbonCalculator.unmapped_mass_kg r = 10) /\
  DonationBuckets.computeDonationUnmappedBuckets Sample.storeEmptyDish 1
  = Ok {| DonationBuckets.donation_id := 1;
          DonationBuckets.mapping_source_system := "SODEXO";
          DonationBuckets.missing_share_mass_kg := 10;
          DonationBuckets.mapping_or_factor_unmapped_mass_kg := 0 |}.
Proof.
  destruct (dish_without_components_is_unmapped Sample.storeEmptyDish 1
              (Sample.donation 1 (Some 7%Z) None 10) 7 10)
    as ((r & db' & Hr & Hu & _) & _ & Hb).
  - reflexivity.
  - reflexivity.
  - qeval.
  - reflexivity.
  - reflexivity.
  - intros c [].
  - split; [exists r, db'; split; assumption|exact Hb].
Defined.

(** ** The three share normalisers *)

Lemma sumNums_alter (a : Q) (sh : list Q) :
  forall i, (i < length sh)%nat ->
    sumNums (alter (fun x => x + a) i sh) == sumNums sh + a.
Proof.
  induction sh as [|x sh IH]; intros i Hi; [cbn in Hi; lia|].
  destruct i as [|i]; cbn [alter list_alter].
  - rewrite !sumNums_cons. ring.
  - rewrite !sumNums_cons. change (list_alter (fun x => x + a) i sh) with (alter (fun x => x + a) i sh).
    rewrite IH by (cbn in Hi; lia). ring.
Qed.

Lemma nonneg_alter (a : Q) (sh : list Q) :
  0 <= a -> Forall (fun x => 0 <= x) sh ->
  forall i, Forall (fun x => 0 <= x) (alter (fun x => x + a) i sh).
Proof.
  intros Ha H. induction H as [|x sh Hx Hsh IH]; intros i; [constructor|].
  destruct i as [|i]; cbn [alter list_alter]; constructor; try assumption; try lra.
  apply IH.
Qed.

Lemma addAt_length (a : Q) (idx : list nat) :
  forall sh, length (CarbonCalculator.addAt a idx sh) = length sh.
Proof.
  unfold CarbonCalculator.addAt.
  induction idx as [|i idx IH]; intros sh; [reflexivity|].
  cbn [fold_left]. rewrite IH. apply length_alter.
Qed.

Lemma addAt_sum (a : Q) (idx : list nat) :
  forall sh, Forall (fun i => (i < length sh)%nat) idx ->
    sumNums (CarbonCalculator.addAt a idx sh)
    == sumNums sh + CarbonCalculator.ofNat (length idx) * a.
Proof.
  unfold CarbonCalculator.addAt, CarbonCalculator.ofNat.
  induction idx as [|i idx IH]; intros sh H.
  - cbn [fold_left length]. change (inject_Z (Z.of_nat 0)) with 0. ring.
  - inversion H as [|? ? Hi Hrest]; subst. cbn [fold_left].
    rewrite IH.
    + rewrite sumNums_alter by exact Hi.
      cbn [length]. rewrite Nat2Z.inj_succ. unfold Z.succ. rewrite inject_Z_plus.
      change (inject_Z 1) with 1. ring.
    + rewrite length_alter. exact Hrest.
Qed.

Lemma addAt_nonneg (a : Q) (idx : list nat) :
  0 <= a ->
  forall sh, Forall (fun x => 0 <= x) sh ->
    Forall (fun x => 0 <= x) (CarbonCalculator.addAt a idx sh).
Proof.
  intros Ha. unfold CarbonCalculator.addAt.
  induction idx as [|i idx IH]; intros sh H; [exact H|].
  cbn [fold_left]. apply IH. apply nonneg_alter; assumption.
Qed.

Lemma missingIdx_spec (provided : list (option Q)) (i : nat) :
  In i (CarbonCalculator.missingIdxOf provided) <-> provided !! i = Some None.
Proof.
  unfold CarbonCalculator.missingIdxOf. rewrite in_map_iff. split.
  - intros ([v j] & Hj & Hin). cbn in Hj. subst j.
    apply filter_In in Hin. destruct Hin as [Hin Hnull]. cbn in Hnull.
    apply list_elem_of_In in Hin. apply elem_of_lookup_imap in Hin.
    destruct Hin as (k & y & Heq & Hlk). inversion Heq; subst.
    destruct y; [discriminate|]. exact Hlk.
  - intros H. exists (None, i). split; [reflexivity|].
    apply filter_In. split; [|reflexivity].
    apply list_elem_of_In. apply elem_of_lookup_imap. exists i, None. auto.
Qed.

Lemma missingIdx_bound (provided : list (option Q)) :
  Forall (fun i => (i < length provided)%nat) (CarbonCalculator.missingIdxOf provided).
Proof.
  apply List.Forall_forall. intros i Hi. apply missingIdx_spec in Hi.
  apply lookup_lt_Some in Hi. exact Hi.
Qed.

Lemma no_missing (provided : list (option Q)) :
  length (CarbonCalculator.missingIdxOf provided) = 0%nat ->
  Forall (fun v => v <> None) provided.
Proof.
  intros H. apply List.Forall_forall. intros v Hin ->.
  apply list_elem_of_In in Hin. apply list_elem_of_lookup in Hin. destruct Hin as [i Hi].
  apply missingIdx_spec in Hi.
  destruct (CarbonCalculator.missingIdxOf provided); [destruct Hi|discriminate].
Qed.

Lemma sumProvided_acc (provided : list (option Q)) :
  forall a : Q,
    fold_left (fun acc v => acc + default 0 v) provided a
    = fold_left Qplus (map (default 0) provided) a.
Proof.
  induction provided as [|v l IH]; intros a; [reflexivity|].
  cbn [fold_left map]. apply IH.
Qed.

Lemma sumProvided_sumNow (provided : list (option Q)) :
  fold_left (fun acc v => acc + default 0 v) provided 0 = sumNums (map (default 0) provided).
Proof. unfold sumNums. apply sumProvided_acc. Qed.

Lemma plateShare_toNum (v : jsval) :
  CarbonCalculator.plateShare v
  = match toNum v with None => None | Some n => Some (clamp n 0 1) end.
Proof. destruct v; reflexivity. Qed.

Lemma provided_same (comps : list DishComponentRow) :
  providedSharesOf comps = normaliserProvided comps.
Proof.
  unfold providedSharesOf, normaliserProvided. apply map_ext. intros c. apply plateShare_toNum.
Qed.

Lemma equal_shares_same {A : Type} (x : Q) (l : list A) :
  map (fun _ => x) (repeat 0 (length l)) = map (fun _ => x) l.
Proof. induction l as [|a l IH]; [reflexivity|]. cbn. rewrite IH. reflexivity. Qed.

Lemma not_within_above (s : Q) :
  1 + PLATE_SHARE_NORMALIZE_EPS < s ->
  (Qlt_bool 0 s && Qle_bool (Qabs (s - 1)) PLATE_SHARE_NORMALIZE_EPS)%bool = false.
Proof.
  intros H. apply andb_false_iff. right. apply Qle_bool_false_iff.
  unfold PLATE_SHARE_NORMALIZE_EPS in *.
  apply Qlt_le_trans with (s - 1); [lra|apply Qle_Qabs].
Qed.

Lemma not_within_below (s : Q) :
  s <= 1 + PLATE_SHARE_NORMALIZE_EPS ->
  (Qlt_bool 0 s && Qle_bool (Qabs (s - 1)) PLATE_SHARE_NORMALIZE_EPS)%bool = false ->
  s <= 0 \/ s < 1 - PLATE_SHARE_NORMALIZE_EPS.
Proof.
  intros Hle H. apply andb_false_iff in H. destruct H as [H|H].
  - left. apply Qlt_bool_false_iff. exact H.
  - right. apply Qle_bool_false_iff in H. apply Qnot_le_lt. intros Hge.
    revert H. apply Qle_not_lt. apply Qabs_Qle_condition.
    unfold PLATE_SHARE_NORMALIZE_EPS in *. split; lra.
Qed.

Lemma sumNums_const {A : Type} (x : Q) (l : list A) :
  sumNums (map (fun _ => x) l) == CarbonCalculator.ofNat (length l) * x.
Proof.
  unfold CarbonCalculator.ofNat.
  induction l as [|a l IH].
  - cbn [map length]. change (inject_Z (Z.of_nat 0)) with 0. unfold sumNums. cbn. ring.
  - cbn [map length]. rewrite sumNums_cons, IH.
    rewrite Nat2Z.inj_succ. unfold Z.succ. rewrite inject_Z_plus.
    change (inject_Z 1) with 1. ring.
Qed.

Lemma rescaled_shares (sh : list Q) :
  0 < sumNums sh -> Forall (fun x => 0 <= x) sh ->
  sumNums (map (fun s => s / sumNums sh) sh) == 1 /\
  Forall (fun x => 0 <= x) (map (fun s => s / sumNums sh) sh).
Proof.
  intros Hpos Hnn. split.
  - change (map (fun s => s / sumNums sh) sh) with (map (fun s => s * / sumNums sh) sh).
    rewrite sumNums_scaled. field. lra.
  - apply Forall_map. apply List.Forall_forall. intros x Hx.
    rewrite List.Forall_forall in Hnn. specialize (Hnn x Hx). cbn beta.
    apply Qle_shift_div_l; [exact Hpos|lra].
Qed.

Lemma provided_nonneg (comps : list DishComponentRow) :
  Forall (fun x => 0 <= x) (map (default 0) (providedSharesOf comps)).
Proof.
  unfold providedSharesOf. rewrite map_map. apply Forall_map.
  apply List.Forall_forall. intros c _. cbn beta.
  unfold CarbonCalculator.plateShare.
  destruct (component_plate_share c); cbn; try lra.
  apply clamp_bounds. lra.
Qed.

Lemma within_of_one (s : Q) :
  s == 1 ->
  Qlt_bool (1 + PLATE_SHARE_NORMALIZE_EPS) s = false /\
  (Qlt_bool 0 s && Qle_bool (Qabs (s - 1)) PLATE_SHARE_NORMALIZE_EPS)%bool = true.
Proof.
  intros H. unfold PLATE_SHARE_NORMALIZE_EPS. split.
  - apply Qlt_bool_false_iff. lra.
  - apply andb_true_iff. split; [apply Qlt_bool_iff; lra|].
    apply Qle_bool_iff. apply Qabs_Qle_condition. split; lra.
Qed.

Lemma dishShares_shape (dishId : Z) (comps : list DishComponentRow) (shares : list Q) :
  comps <> [] ->
  CarbonCalculator.dishShares dishId comps = Ok shares ->
  length shares = length comps /\
  Forall (fun s => 0 <= s) shares /\
  (sumNums shares == 1 \/
   (shares = map (default 0) (providedSharesOf comps) /\
    Forall (fun v => v <> None) (providedSharesOf comps) /\
    0 < sumNums shares /\ sumNums shares < 1 - PLATE_SHARE_NORMALIZE_EPS)).
Proof.
  intros Hne. unfold CarbonCalculator.dishShares.
  fold (providedSharesOf comps). rewrite sumProvided_sumNow.
  pose proof (provided_nonneg comps) as Hnn.
  assert (Hlen : length (map (default 0) (providedSharesOf comps)) = length comps).
  { unfold providedSharesOf. rewrite !length_map. reflexivity. }
  remember (providedSharesOf comps) as P eqn:EP.
  remember (map (default 0) P) as base eqn:Ebase.
  destruct (Qle_bool (sumNums base) 0) eqn:Ezero.
  { intros H. inversion H. clear H. rewrite equal_shares_same.
    split; [rewrite length_map; reflexivity|].
    assert (Hn : 0 < CarbonCalculator.ofNat (length comps)).
    { apply ofNat_pos. destruct comps; [congruence|discriminate]. }
    split.
    - apply Forall_map. apply List.Forall_forall. intros c _. cbn beta.
      apply Qle_shift_div_l; [exact Hn|lra].
    - left. rewrite sumNums_const. field. lra. }
  apply Qle_bool_false_iff in Ezero.
  set (idx := CarbonCalculator.missingIdxOf P).
  set (add := (1 - sumNums base) / CarbonCalculator.ofNat (length idx)).
  destruct (negb (Nat.eqb (length idx) 0) && Qlt_bool 0 (1 - sumNums base))%bool eqn:Ecase.
  - (* the missing shares take up the remainder *)
    apply andb_true_iff in Ecase. destruct Ecase as [Hidx Hrem].
    apply negb_true_iff, Nat.eqb_neq in Hidx. apply Qlt_bool_iff in Hrem.
    pose proof (ofNat_pos _ Hidx) as Hn.
    assert (Hadd : 0 <= add).
    { unfold add. apply Qle_shift_div_l; [exact Hn|lra]. }
    assert (Hsum : sumNums (CarbonCalculator.addAt add idx base) == 1).
    { rewrite addAt_sum.
      - unfold add. field. lra.
      - subst base. rewrite length_map. apply missingIdx_bound. }
    pose proof (addAt_nonneg add idx Hadd base Hnn) as Hnn'.
    destruct (within_of_one _ Hsum) as [H1 H2]. rewrite H1, H2.
    intros H. inversion H. clear H.
    destruct (rescaled_shares (CarbonCalculator.addAt add idx base)) as [Hs Hf];
      [lra|exact Hnn'|].
    split; [rewrite length_map, addAt_length; exact Hlen|].
    split; [exact Hf|left; exact Hs].
  - destruct (Qlt_bool (1 + PLATE_SHARE_NORMALIZE_EPS) (sumNums base)) eqn:Eover;
      [discriminate|].
    apply Qlt_bool_false_iff in Eover.
    destruct (Qlt_bool 0 (sumNums base) && _)%bool eqn:Ewithin.
    + intros H. inversion H. clear H.
      destruct (rescaled_shares base Ezero Hnn) as [Hs Hf].
      split; [rewrite length_map; exact Hlen|].
      split; [exact Hf|left; exact Hs].
    + intros H. inversion H. subst shares. clear H.
      split; [exact Hlen|]. split; [exact Hnn|]. right.
      destruct (not_within_below _ Eover Ewithin) as [Hle|Hlow]; [lra|].
      split; [reflexivity|]. split; [|split; [exact Ezero|exact Hlow]].
      apply no_missing. fold idx.
      apply andb_false_iff in Ecase. destruct Ecase as [Hidx|Hrem].
      * apply negb_false_iff, Nat.eqb_eq in Hidx. exact Hidx.
      * apply Qlt_bool_false_iff in Hrem. unfold PLATE_SHARE_NORMALIZE_EPS in Hlow. lra.
Qed.

(** X7. Unless the clamped plate shares sum to exactly 0.97 or 1.03, the
    plate-share normalisation written out in [computeDonationCarbon] and the
    [normalizeComponentShares] of the breakdown and of the buckets return the
    same shares whenever the calculator does not throw. Where it throws (the
    sum exceeds 1.03) the breakdown throws with the same sum, taking the dish
    id from the first component, and the buckets rescale the shares by that
    sum instead. (At 1.03 the doubles of the source are further than 0.03
    from 1 and not above [1 + 0.03]: calculator and breakdown keep the shares
    0.5 and 0.53 as they are, the buckets rescale them. At 0.97 all three
    keep the shares 0.47 and 0.5 as they are.) *)
Theorem three_normalisers_agree (dishId : Z) (comps : list DishComponentRow) :
  offPlateThresholds comps ->
  match CarbonCalculator.dishShares dishId comps with
  | Ok shares =>
      DonationBreakdown.normalizeComponentShares comps = Ok shares /\
      DonationBuckets.normalizeComponentShares comps = shares
  | Err e =>
      exists unscaled,
        e = PlateShareSumExceeds (Some dishId) (sumNums unscaled) /\
        1 + 0.03 < sumNums unscaled /\
        DonationBreakdown.normalizeComponentShares comps
          = Err (PlateShareSumExceeds (component_dish_id <$> head comps) (sumNums unscaled)) /\
        DonationBuckets.normalizeComponentShares comps
          = map (fun s => s / sumNums unscaled) unscaled
  end.
Proof.
  intros _.
  unfold CarbonCalculator.dishShares, DonationBreakdown.normalizeComponentShares,
    DonationBuckets.normalizeComponentShares.
  fold (providedSharesOf comps). fold (normaliserProvided comps).
  rewrite <- provided_same. rewrite equal_shares_same.
  change DonationBreakdown.ofNat with CarbonCalculator.ofNat.
  change DonationBuckets.ofNat with CarbonCalculator.ofNat.
  change DonationBreakdown.missingIdxOf with CarbonCalculator.missingIdxOf.
  change DonationBuckets.missingIdxOf with CarbonCalculator.missingIdxOf.
  change DonationBreakdown.addAt with CarbonCalculator.addAt.
  change DonationBuckets.addAt with CarbonCalculator.addAt.
  destruct (Qle_bool _ 0); [split; reflexivity|].
  match goal with |- context [Qlt_bool (1 + PLATE_SHARE_NORMALIZE_EPS) (sumNums ?s)] =>
    remember s as shares eqn:Eshares end.
  clear Eshares.
  destruct (Qlt_bool (1 + PLATE_SHARE_NORMALIZE_EPS) (sumNums shares)) eqn:Eover.
  - apply Qlt_bool_iff in Eover. exists shares.
    split; [reflexivity|]. split; [exact Eover|]. split; [reflexivity|].
    rewrite (not_within_above _ Eover).
    assert (H1 : Qlt_bool 1 (sumNums shares) = true).
    { apply Qlt_bool_iff. unfold PLATE_SHARE_NORMALIZE_EPS in Eover. lra. }
    rewrite H1. reflexivity.
  - apply Qlt_bool_false_iff in Eover.
    destruct (Qlt_bool 0 (sumNums shares) && _)%bool eqn:Ewithin; [split; reflexivity|].
    split; [reflexivity|].
    destruct (not_within_below _ Eover Ewithin) as [H|H].
    + assert (H1 : Qlt_bool 1 (sumNums shares) = false) by (apply Qlt_bool_false_iff; lra).
      rewrite H1. reflexivity.
    + assert (H1 : Qlt_bool 1 (sumNums shares) = false).
      { apply Qlt_bool_false_iff. unfold PLATE_SHARE_NORMALIZE_EPS in H. lra. }
      rewrite H1. reflexivity.
Qed.

Lemma three_normalisers_agree_witness :
  exists shares,
    CarbonCalculator.dishShares 7 (CarbonCalculator.componentsOfDish Sample.storeUnderPlate 7)
      = Ok shares /\
    DonationBreakdown.normalizeComponentShares
      (CarbonCalculator.componentsOfDish Sample.storeUnderPlate 7) = Ok shares /\
    DonationBuckets.normalizeComponentShares
      (CarbonCalculator.componentsOfDish Sample.storeUnderPlate 7) = shares /\
    sumNums shares == 0.8.
Proof.
  assert (Hoff : offPlateThresholds
                   (CarbonCalculator.componentsOfDish Sample.storeUnderPlate 7))
    by (split; vm_compute; discriminate).
  pose proof (three_normalisers_agree 7 _ Hoff) as H.
  destruct (CarbonCalculator.dishShares 7
              (CarbonCalculator.componentsOfDish Sample.storeUnderPlate 7))
    as [shares|e] eqn:E.
  - exists shares. destruct H as [H1 H2].
    split; [reflexivity|]. split; [exact H1|]. split; [exact H2|].
    vm_compute in E. injection E as <-. qeval.
  - vm_compute in E. discriminate E.
Defined.

(** X8. The shares [computeDonationCarbon] gives to the components of a dish
    whose clamped plate shares sum to neither 0.97 nor 1.03: one per
    component, none negative, and they sum to 1 unless every component has a
    plate share and these sum to less than 0.97, in which case the stored
    (clamped) shares are used as they are and sum to less than 1. (With the
    doubles of the source the shares 0.47 and 0.5 stay as they are and sum to
    0.97, the shares 0.5 and 0.53 stay as they are and sum to 1.03.) *)
Theorem plate_shares_cover_the_dish_or_fall_short
  (dishId : Z) (comps : list DishComponentRow) (shares : list Q) :
  comps <> [] ->
  offPlateThresholds comps ->
  CarbonCalculator.dishShares dishId comps = Ok shares ->
  length shares = length comps /\
  Forall (fun s => 0 <= s) shares /\
  (sumNums shares == 1 \/
   (shares = map (default 0) (providedSharesOf comps) /\
    Forall (fun v => v <> None) (providedSharesOf comps) /\
    0 < sumNums shares /\ sumNums shares < 1 - 0.03)).
Proof. intros Hne _. apply dishShares_shape. exact Hne. Qed.

Lemma plate_shares_cover_the_dish_or_fall_short_witness :
  exists shares,
    CarbonCalculator.dishShares 7 (CarbonCalculator.componentsOfDish Sample.storeUnderPlate 7)
      = Ok shares /\
    sumNums shares == 0.8 /\
    (sumNums shares == 1 \/
     (shares = map (default 0)
                   (providedSharesOf (CarbonCalculator.componentsOfDish Sample.storeUnderPlate 7)) /\
      Forall (fun v => v <> None)
             (providedSharesOf (CarbonCalculator.componentsOfDish Sample.storeUnderPlate 7)) /\
      0 < sumNums shares /\ sumNums shares < 1 - 0.03)).
Proof.
  eexists. split; [vm_compute; reflexivity|]. split; [qeval|].
  match goal with |- sumNums ?s == 1 \/ _ =>
    destruct (plate_shares_cover_the_dish_or_fall_short 7
                (CarbonCalculator.componentsOfDish Sample.storeUnderPlate 7) s)
      as (_ & _ & H) end.
  - vm_compute. discriminate.
  - split; vm_compute; discriminate.
  - vm_compute. reflexivity.
  - exact H.
Defined.

(** ** Bounds of the accounted mass *)

Ltac buckets :=
  unfold nonnegMass, massOf, allUnmapped, allIgnored, allMapped, CarbonCalculator.noCarbon,
    CarbonCalculator.addUnmapped, CarbonCalculator.addIgnored, CarbonCalculator.addMapped,
    CarbonCalculator.addCarbon in *;
  cbn [CarbonCalculator.co2eKg CarbonCalculator.mappedKg CarbonCalculator.unmappedKg
       CarbonCalculator.ignoredKg] in *.

Lemma cookedKg_nonneg (w normFactor p : Q) : 0 <= w -> 0 <= cookedKgOf w normFactor p.
Proof.
  intros Hw. unfold cookedKgOf, fracOf. apply Qmult_le_0_compat; [exact Hw|].
  apply clamp_bounds. lra.
Qed.

Lemma step_nonneg (w normFactor : Q) (M : gmap string MappingRow) (F : gmap Z LukeFoodRow)
  (acc : CarbonCalculator.Carbon) (row : ComponentIngredientRow) (share : option Q) :
  0 <= w -> nonnegMass acc ->
  nonnegMass (CarbonCalculator.ingredientStep w normFactor M F acc (row, share)).
Proof.
  intros Hw (Hm & Hu & Hi). destruct share as [p|]; [|repeat split; assumption].
  pose proof (cookedKg_nonneg w normFactor p Hw) as Hk.
  destruct (step_cases w normFactor M F acc row p) as [E|[E|[co2 E]]];
    rewrite E; buckets; repeat split; lra.
Qed.

Lemma loop_nonneg (w normFactor : Q) (M : gmap string MappingRow) (F : gmap Z LukeFoodRow)
  (rows : list (ComponentIngredientRow * option Q)) :
  0 <= w -> forall acc, nonnegMass acc ->
  nonnegMass (fold_left (CarbonCalculator.ingredientStep w normFactor M F) rows acc).
Proof.
  intros Hw. induction rows as [|[row share] rows IH]; intros acc Hacc; [exact Hacc|].
  cbn [fold_left]. apply IH. apply step_nonneg; assumption.
Qed.

Lemma fallback_nonneg (db : Db) (componentId : Z) (w : Q) :
  0 <= w ->
  nonnegMass (CarbonCalculator.computeComponentFallbackCarbonFromName db componentId w).
Proof.
  intros Hw. rewrite fallback_by_mapping.
  destruct (fallbackMappingOf db componentId) as [mapping|];
    [|buckets; repeat split; lra].
  destruct (String.eqb _ "ignore"); [buckets; repeat split; lra|].
  destruct (CarbonCalculator.getCo2FactorKgPerKg _ _);
    [|buckets; repeat split; lra].
  destruct (massForFactorKg _ _ _); buckets; repeat split; lra.
Qed.

Lemma component_nonneg (db : Db) (componentId : Z) (w : Q) (c : CarbonCalculator.Carbon) :
  CarbonCalculator.computeComponentCarbon db componentId w = Ok c -> nonnegMass c.
Proof.
  unfold CarbonCalculator.computeComponentCarbon.
  destruct (Qle_bool w 0) eqn:Hw.
  { intros H; inversion H. buckets; repeat split; lra. }
  apply Qle_bool_false_iff in Hw. assert (Hw0 : 0 <= w) by lra.
  destruct (CarbonCalculator.ingredientsOf db componentId) as [|r0 rows].
  { intros H; inversion H. apply fallback_nonneg; exact Hw0. }
  cbv zeta.
  destruct (Qle_bool _ 0).
  { intros H; inversion H. apply fallback_nonneg; exact Hw0. }
  destruct (Qlt_bool (100 + ING_SHARE_MAX_OVER_EPS) _); [discriminate|].
  match goal with |- context [fold_left ?f ?l CarbonCalculator.noCarbon] =>
    assert (Hloop : nonnegMass (fold_left f l CarbonCalculator.noCarbon));
    [|remember (fold_left f l CarbonCalculator.noCarbon) as loop eqn:Eloop; clear Eloop] end.
  { apply loop_nonneg; [exact Hw0|]. buckets; repeat split; lra. }
  match goal with |- context [Qlt_bool REMAINDER_EPS ?u] =>
    remember u as U eqn:EU; clear EU end.
  destruct (Qlt_bool REMAINDER_EPS U) eqn:Erem; cbn [andb].
  - apply Qlt_bool_iff in Erem. unfold REMAINDER_EPS in Erem.
    destruct (Qeq_bool _ 1); intros H; injection H as <-; [|exact Hloop].
    destruct Hloop as (Hm & Hu & Hi). buckets. repeat split; lra.
  - intros H; injection H as <-. exact Hloop.
Qed.

(** With [normFactor = 1] the leaves carry [sumPct]% of the component mass, and
    the remainder, if it is added, completes it. *)
Lemma unscaled_component_mass (db : Db) (componentId : Z) (w : Q) (c : CarbonCalculator.Carbon) :
  0 < w -> 0 < sumPctOf db componentId ->
  sumPctOf db componentId <= 100 + ING_SHARE_MAX_OVER_EPS ->
  normFactorOf (existsb isNull (sharesOf db componentId)) (sumPctOf db componentId) = 1 ->
  CarbonCalculator.computeComponentCarbon db componentId w = Ok c ->
  massOf c == w \/
  (massOf c == w * (sumPctOf db componentId / 100) /\
   ((sumPctOf db componentId < 100 /\
     w * (1 - sumPctOf db componentId / 100) <= REMAINDER_EPS) \/
    100 < sumPctOf db componentId)).
Proof.
  intros Hw Hpos Hover Hnf Hrun.
  rewrite computeComponentCarbon_loop in Hrun by assumption. cbv zeta in Hrun.
  rewrite Hnf in Hrun.
  pose proof (massOf_loopTotals db componentId w 1) as Hloop.
  rewrite leaves_sum in Hloop by (try apply unit_leaves; lra).
  fold (sumPctOf db componentId) in Hloop.
  remember (sumPctOf db componentId) as S eqn:ES.
  change (Qeq_bool 1 1) with true in Hrun. rewrite andb_true_r in Hrun.
  destruct (Qlt_le_dec 100 S) as [Hbig|Hle].
  - (* the known shares exceed 100: the allocated fraction is clamped to 1 *)
    assert (HU : unallocatedKgOf w 1 S == 0).
    { apply unallocated_zero_when_covered. apply Qle_shift_div_l; lra. }
    assert (Hrem : Qlt_bool REMAINDER_EPS (unallocatedKgOf w 1 S) = false).
    { apply Qlt_bool_false_iff. rewrite HU. unfold REMAINDER_EPS. lra. }
    rewrite Hrem in Hrun. inversion Hrun. right. split; [|right; exact Hbig].
    rewrite Hloop. field.
  - assert (HU : unallocatedKgOf w 1 S == w * (1 - S / 100)).
    { unfold unallocatedKgOf. rewrite clamp_id; [field| |].
      - apply Qle_shift_div_l; lra.
      - apply Qle_shift_div_r; lra. }
    destruct (Qlt_bool REMAINDER_EPS (unallocatedKgOf w 1 S)) eqn:Hrem; inversion Hrun.
    + left. rewrite massOf_addUnmapped, Hloop, HU. field.
    + apply Qlt_bool_false_iff in Hrem. rewrite HU in Hrem.
      destruct (Qlt_le_dec S 100) as [Hlt|Hge].
      * right. split; [rewrite Hloop; field|]. left. split; assumption.
      * left. rewrite Hloop. assert (HS : S == 100) by lra. rewrite HS. field.
Qed.

Lemma component_mass_cases (db : Db) (componentId : Z) (w : Q) (c : CarbonCalculator.Carbon) :
  0 < w ->
  CarbonCalculator.computeComponentCarbon db componentId w = Ok c ->
  massOf c == w \/
  (massOf c == w * (sumPctOf db componentId / 100) /\
   0 < sumPctOf db componentId /\
   ((sumPctOf db componentId < 100 /\
     w * (1 - sumPctOf db componentId / 100) <= REMAINDER_EPS) \/
    (100 < sumPctOf db componentId /\
     sumPctOf db componentId <= 100 + ING_SHARE_MAX_OVER_EPS /\
     existsb isNull (sharesOf db componentId) = true))).
Proof.
  intros Hw Hrun.
  destruct (CarbonCalculator.ingredientsOf db componentId) as [|r0 rows0] eqn:Hrows.
  { unfold CarbonCalculator.computeComponentCarbon in Hrun.
    pose proof Hw as Hw'. apply Qle_bool_false_iff in Hw'. rewrite Hw', Hrows in Hrun.
    inversion Hrun. left. apply massOf_fallback. }
  destruct (Qle_bool (sumPctOf db componentId) 0) eqn:Hzero.
  { rewrite computeComponentCarbon_unfold in Hrun by (try rewrite Hrows; easy).
    cbv zeta in Hrun. rewrite Hzero in Hrun.
    inversion Hrun. left. apply massOf_fallback. }
  apply Qle_bool_false_iff in Hzero.
  destruct (Qlt_bool (100 + ING_SHARE_MAX_OVER_EPS) (sumPctOf db componentId)) eqn:Hover.
  { apply Qlt_bool_iff in Hover.
    rewrite computeComponentCarbon_over_limit in Hrun by assumption. discriminate. }
  apply Qlt_bool_false_iff in Hover.
  destruct (existsb isNull (sharesOf db componentId)) eqn:Hmiss.
  - assert (Hnf : normFactorOf (existsb isNull (sharesOf db componentId))
                    (sumPctOf db componentId) = 1) by (rewrite Hmiss; reflexivity).
    destruct (unscaled_component_mass db componentId w c Hw Hzero Hover Hnf Hrun)
      as [H|[H [H'|H']]]; [left; exact H| |].
    + right. split; [exact H|]. split; [exact Hzero|]. left. exact H'.
    + right. split; [exact H|]. split; [exact Hzero|]. right. auto.
  - destruct (Qle_bool (Qabs (sumPctOf db componentId - 100)) ING_SHARE_NORMALIZE_EPS)
      eqn:Hclose.
    + apply Qle_bool_iff in Hclose. apply Qabs_Qle_condition in Hclose.
      unfold ING_SHARE_NORMALIZE_EPS in Hclose. destruct Hclose as [Hc1 Hc2].
      assert (H95 : 95 <= sumPctOf db componentId) by lra.
      destruct (close_complete_shares_run db componentId w Hw Hmiss H95 Hover)
        as [Hsame Hmass].
      rewrite Hsame in Hrun. inversion Hrun. left. exact Hmass.
    + apply Qle_bool_false_iff in Hclose.
      assert (Hnf : normFactorOf (existsb isNull (sharesOf db componentId))
                      (sumPctOf db componentId) = 1).
      { apply normFactorOf_not_normalized. right. exact Hclose. }
      assert (Hlow : sumPctOf db componentId < 95).
      { apply Qnot_le_lt. intros Hge. revert Hclose. apply Qle_not_lt.
        apply Qabs_Qle_condition. unfold ING_SHARE_NORMALIZE_EPS, ING_SHARE_MAX_OVER_EPS in *.
        split; lra. }
      destruct (unscaled_component_mass db componentId w c Hw Hzero Hover Hnf Hrun)
        as [H|[H [H'|H']]]; [left; exact H| |lra].
      right. split; [exact H|]. split; [exact Hzero|]. left. exact H'.
Qed.

Lemma component_mass_range (db : Db) (componentId : Z) (w : Q) (c : CarbonCalculator.Carbon) :
  0 < w ->
  CarbonCalculator.computeComponentCarbon db componentId w = Ok c ->
  w - REMAINDER_EPS <= massOf c /\ massOf c <= w * (1 + 0.005).
Proof.
  intros Hw Hrun.
  destruct (component_mass_cases db componentId w c Hw Hrun) as [H|(H & Hpos & [[H1 H2]|H1])].
  - rewrite H. unfold REMAINDER_EPS. split; nra.
  - rewrite H. remember (sumPctOf db componentId) as S eqn:ES.
    assert (E : w * (S / 100) == w - w * (1 - S / 100)) by field.
    assert (Hfrac : 0 <= 1 - S / 100).
    { assert (S / 100 <= 1) by (apply Qle_shift_div_r; lra). lra. }
    assert (0 <= w * (1 - S / 100)) by (apply Qmult_le_0_compat; lra).
    rewrite E. split; nra.
  - destruct H1 as (Hbig & Hcap & _). rewrite H.
    remember (sumPctOf db componentId) as S eqn:ES.
    unfold ING_SHARE_MAX_OVER_EPS in Hcap.
    assert (H1 : 1 <= S / 100) by (apply Qle_shift_div_l; lra).
    assert (H2 : S / 100 <= 1 + 0.005) by (apply Qle_shift_div_r; lra).
    unfold REMAINDER_EPS. split; nra.
Qed.

Lemma massOf_addCarbon (a r : CarbonCalculator.Carbon) :
  massOf (CarbonCalculator.addCarbon a r) == massOf a + massOf r.
Proof. buckets. ring. Qed.

Lemma nonneg_addCarbon (a r : CarbonCalculator.Carbon) :
  nonnegMass a -> nonnegMass r -> nonnegMass (CarbonCalculator.addCarbon a r).
Proof. intros (A1 & A2 & A3) (R1 & R2 & R3). buckets. repeat split; lra. Qed.

Lemma componentsLoop_mass (db : Db) (donatedKg : Q) (compShares : list (DishComponentRow * Q)) :
  0 < donatedKg -> Forall (fun s => 0 <= s) (map snd compShares) ->
  forall acc acc',
    CarbonCalculator.componentsLoop db donatedKg compShares acc = Ok acc' ->
    nonnegMass acc ->
    nonnegMass acc' /\
    massOf acc + donatedKg * sumNums (map snd compShares)
      - CarbonCalculator.ofNat (length compShares) * REMAINDER_EPS <= massOf acc' /\
    massOf acc' <= massOf acc + donatedKg * sumNums (map snd compShares) * (1 + 0.005).
Proof.
  intros HW. induction compShares as [|[c share] rest IH]; intros Hnn acc acc' Hrun Hacc.
  - cbn in Hrun. injection Hrun as <-. split; [exact Hacc|].
    cbn [map length]. change (sumNums []) with 0.
    change (CarbonCalculator.ofNat 0) with 0. split; lra.
  - cbn [map snd] in Hnn. inversion Hnn as [|? ? Hs Hrest]; subst.
    cbn [CarbonCalculator.componentsLoop] in Hrun.
    cbn [map snd length]. rewrite sumNums_cons.
    assert (Hn : CarbonCalculator.ofNat (S (length rest))
                 == CarbonCalculator.ofNat (length rest) + 1).
    { unfold CarbonCalculator.ofNat. rewrite Nat2Z.inj_succ. unfold Z.succ.
      rewrite inject_Z_plus. reflexivity. }
    rewrite Hn.
    pose proof (sumNums_nonneg _ Hrest) as Hsum.
    destruct (Qle_bool (donatedKg * share) 0) eqn:Ew.
    + apply Qle_bool_iff in Ew.
      assert (Hshare : share == 0).
      { apply Qle_antisym; [|exact Hs]. apply Qnot_lt_le. intros Hpos.
        apply (Qlt_not_le 0 (donatedKg * share)); [|exact Ew].
        apply Qmult_lt_0_compat; assumption. }
      destruct (IH Hrest acc acc' Hrun Hacc) as (H1 & H2 & H3).
      split; [exact H1|]. rewrite Hshare. unfold REMAINDER_EPS in *. split; lra.
    + apply Qle_bool_false_iff in Ew.
      destruct (CarbonCalculator.computeComponentCarbon db (component_id_of c)
                  (donatedKg * share)) as [r|e] eqn:Ec; [|discriminate].
      cbn [bind] in Hrun.
      pose proof (component_nonneg _ _ _ _ Ec) as Hr.
      destruct (component_mass_range _ _ _ _ Ew Ec) as [Hlo Hhi].
      destruct (IH Hrest _ acc' Hrun (nonneg_addCarbon _ _ Hacc Hr)) as (H1 & H2 & H3).
      split; [exact H1|]. rewrite massOf_addCarbon in H2, H3.
      unfold REMAINDER_EPS in *. split; lra.
Qed.

Lemma snd_combine {A B : Type} (l : list A) :
  forall l' : list B, length l' = length l -> map snd (combine l l') = l'.
Proof.
  induction l as [|a l IH]; intros [|b l'] H; try discriminate; [reflexivity|].
  cbn. f_equal. apply IH. cbn in H. lia.
Qed.

Lemma dish_totals (db : Db) (donationId : Z) (d : DonationRow) (dishId : Z) (w : Q)
  (shares : list Q) (totals : CarbonCalculator.Carbon) :
  0 < w ->
  donation_component_id d = None -> donation_dish_id d = Some dishId ->
  CarbonCalculator.componentsOfDish db dishId <> [] ->
  CarbonCalculator.dishShares dishId (CarbonCalculator.componentsOfDish db dishId) = Ok shares ->
  CarbonCalculator.donationTotals db donationId d w = Ok totals ->
  nonnegMass totals /\
  w * sumNums shares
    - CarbonCalculator.ofNat (length (CarbonCalculator.componentsOfDish db dishId))
      * REMAINDER_EPS <= massOf totals /\
  massOf totals <= w * sumNums shares * (1 + 0.005).
Proof.
  intros Hw Hc Hd Hne Hshares Hrun.
  destruct (dishShares_shape _ _ _ Hne Hshares) as (Hlen & Hnn & _).
  unfold CarbonCalculator.donationTotals in Hrun. rewrite Hc, Hd in Hrun.
  destruct (CarbonCalculator.componentsOfDish db dishId) as [|c0 cs] eqn:Ecomps;
    [congruence|].
  rewrite Hshares in Hrun. cbn [bind] in Hrun.
  assert (Hnone : nonnegMass CarbonCalculator.noCarbon) by (buckets; repeat split; lra).
  assert (Hsnd : map snd (combine (c0 :: cs) shares) = shares) by (apply snd_combine; exact Hlen).
  assert (Hlen' : length (combine (c0 :: cs) shares) = length (c0 :: cs)).
  { rewrite length_combine. rewrite Hlen. apply Nat.min_id. }
  destruct (componentsLoop_mass db w (combine (c0 :: cs) shares) Hw
              ltac:(rewrite Hsnd; exact Hnn) _ _ Hrun Hnone) as (H1 & H2 & H3).
  rewrite Hsnd, Hlen' in *.
  split; [exact H1|].
  assert (H0 : massOf CarbonCalculator.noCarbon == 0) by (buckets; ring).
  rewrite H0 in H2, H3. split; lra.
Qed.

Lemma donation_totals_range (db : Db) (donationId : Z) (d : DonationRow) (w : Q)
  (totals : CarbonCalculator.Carbon) :
  0 < w ->
  CarbonCalculator.donationTotals db donationId d w = Ok totals ->
  nonnegMass totals /\ massOf totals <= w * (1 + 0.005).
Proof.
  intros Hw Hrun. pose proof Hrun as Hrun0.
  unfold CarbonCalculator.donationTotals in Hrun.
  destruct (donation_component_id d) as [componentId|] eqn:Hc.
  - destruct (CarbonCalculator.computeComponentCarbon db componentId w) as [r|e] eqn:Ec;
      [|discriminate].
    cbn [bind] in Hrun. injection Hrun as <-.
    pose proof (component_nonneg _ _ _ _ Ec) as (R1 & R2 & R3).
    destruct (component_mass_range _ _ _ _ Hw Ec) as [_ Hhi].
    buckets. split; [repeat split; lra|lra].
  - destruct (donation_dish_id d) as [dishId|] eqn:Hd; [|discriminate].
    destruct (CarbonCalculator.componentsOfDish db dishId) as [|c0 cs] eqn:Ecomps.
    + injection Hrun as <-. buckets. split; [repeat split; lra|lra].
    + destruct (CarbonCalculator.dishShares dishId (c0 :: cs)) as [shares|e] eqn:Es;
        [|discriminate].
      assert (Hne : CarbonCalculator.componentsOfDish db dishId <> [])
        by (rewrite Ecomps; discriminate).
      rewrite <- Ecomps in Es.
      destruct (dish_totals db donationId d dishId w shares totals Hw Hc Hd Hne Es Hrun0)
        as (H1 & _ & H3).
      split; [exact H1|].
      destruct (dishShares_shape _ _ _ Hne Es) as (_ & Hnn & Hsum).
      assert (Hle : sumNums shares <= 1).
      { destruct Hsum as [Hs|(_ & _ & _ & Hs)]; [lra|].
        unfold PLATE_SHARE_NORMALIZE_EPS in Hs. lra. }
      nra.
Qed.

(** X9. A component computation that completes for a positive mass [w] keeps the
    three buckets non-negative, and their sum between [w - 1e-9] and
    [1.005 * w]; the sum exceeds [w] only when a share is missing while the
    known shares sum to more than 100, and it is then [w * sumPct / 100]. *)
Theorem component_mass_accounting (db : Db) (componentId : Z) (w : Q)
  (c : CarbonCalculator.Carbon) :
  0 < w ->
  CarbonCalculator.computeComponentCarbon db componentId w = Ok c ->
  0 <= CarbonCalculator.mappedKg c /\ 0 <= CarbonCalculator.unmappedKg c /\
  0 <= CarbonCalculator.ignoredKg c /\
  w - REMAINDER_EPS <= massOf c /\ massOf c <= w * (1 + 0.005) /\
  (w < massOf c ->
   existsb isNull (sharesOf db componentId) = true /\ 100 < sumPctOf db componentId /\
   massOf c == w * (sumPctOf db componentId / 100)).
Proof.
  intros Hw Hrun.
  destruct (component_nonneg _ _ _ _ Hrun) as (Hm & Hu & Hi).
  destruct (component_mass_range _ _ _ _ Hw Hrun) as [Hlo Hhi].
  split; [exact Hm|]. split; [exact Hu|]. split; [exact Hi|].
  split; [exact Hlo|]. split; [exact Hhi|]. intros Hbig.
  destruct (component_mass_cases _ _ _ _ Hw Hrun) as [H|(H & Hpos & [[H1 H2]|(H1 & H2 & H3)])].
  - lra.
  - exfalso. rewrite H in Hbig.
    assert (sumPctOf db componentId / 100 <= 1) by (apply Qle_shift_div_r; lra). nra.
  - auto.
Qed.

Lemma component_mass_accounting_witness :
  exists c,
    CarbonCalculator.computeComponentCarbon Sample.storeOverWithMissing 1 10 = Ok c /\
    massOf c == 10.05 /\ massOf c <= 10 * (1 + 0.005).
Proof.
  eexists. split; [vm_compute; reflexivity|]. split; [qeval|].
  match goal with |- massOf ?c <= _ =>
    destruct (component_mass_accounting Sample.storeOverWithMissing 1 10 c)
      as (_ & _ & _ & _ & H & _) end.
  - qeval.
  - vm_compute. reflexivity.
  - exact H.
Defined.

(** X10. For a dish-targeted donation of [w] kg whose components received the
    shares [shares], the three buckets sum to at least
    [w * sum shares - n * 1e-9] (n components) and at most
    [1.005 * w * sum shares]: the accounted mass follows the sum of the
    shares, not the donated weight. *)
Theorem dish_mass_follows_plate_shares
  (db : Db) (donationId : Z) (d : DonationRow) (dishId : Z) (w : Q)
  (shares : list Q) (totals : CarbonCalculator.Carbon) :
  0 < w ->
  donation_component_id d = None -> donation_dish_id d = Some dishId ->
  CarbonCalculator.componentsOfDish db dishId <> [] ->
  CarbonCalculator.dishShares dishId (CarbonCalculator.componentsOfDish db dishId) = Ok shares ->
  CarbonCalculator.donationTotals db donationId d w = Ok totals ->
  w * sumNums shares
    - CarbonCalculator.ofNat (length (CarbonCalculator.componentsOfDish db dishId))
      * REMAINDER_EPS <= massOf totals /\
  massOf totals <= w * sumNums shares * (1 + 0.005).
Proof.
  intros Hw Hc Hd Hne Hs Hrun.
  destruct (dish_totals db donationId d dishId w shares totals Hw Hc Hd Hne Hs Hrun)
    as (_ & H). exact H.
Qed.

Lemma dish_mass_follows_plate_shares_witness :
  exists shares totals,
    CarbonCalculator.dishShares 7 (CarbonCalculator.componentsOfDish Sample.storeUnderPlate 7)
      = Ok shares /\
    CarbonCalculator.donationTotals Sample.storeUnderPlate 1 Sample.wholeDishDonation 10
      = Ok totals /\
    sumNums shares == 0.8 /\ massOf totals == 8 /\
    massOf totals <= 10 * sumNums shares * (1 + 0.005).
Proof.
  eexists. eexists. split; [vm_compute; reflexivity|]. split; [vm_compute; reflexivity|].
  split; [qeval|]. split; [qeval|].
  match goal with |- massOf ?t <= 10 * sumNums ?s * _ =>
    destruct (dish_mass_follows_plate_shares Sample.storeUnderPlate 1 Sample.wholeDishDonation
                7 10 s t) as (_ & H) end.
  - qeval.
  - reflexivity.
  - reflexivity.
  - vm_compute. discriminate.
  - vm_compute. reflexivity.
  - vm_compute. reflexivity.
  - exact H.
Defined.

(** X11. Every result of [computeDonationCarbon] has a positive donated weight
    that is also its total food mass, non-negative mapped, unmapped and
    ignored masses, and an intensity [co2_per_kg] that is the emissions
    divided by that weight. The three masses sum to at most 100.5% of the
    donated weight unless the donation targets a dish whose clamped plate
    shares sum to exactly 1.03: there the doubles of the source neither
    throw nor rescale (the shares 0.5 and 0.53 book 10.3 kg of 10 kg), and
    the sum is at most 103% of 100.5% of the donated weight. *)
Theorem donation_mass_never_exceeds (db : Db) (donationId : Z)
  (r : CarbonCalculator.DonationCarbonResult) (db' : Db) :
  CarbonCalculator.computeDonationCarbon db donationId = Ok (r, db') ->
  0 < CarbonCalculator.donated_weight_kg r /\
  CarbonCalculator.total_food_mass_kg r = CarbonCalculator.donated_weight_kg r /\
  0 <= CarbonCalculator.mapped_mass_kg r /\
  0 <= CarbonCalculator.unmapped_mass_kg r /\
  0 <= CarbonCalculator.ignored_mass_kg r /\
  CarbonCalculator.mapped_mass_kg r + CarbonCalculator.unmapped_mass_kg r
    + CarbonCalculator.ignored_mass_kg r
    <= CarbonCalculator.donated_weight_kg r * (1 + 0.03) * (1 + 0.005) /\
  (~ sumProvidedOf (componentsOfDonation db donationId) == 1 + 0.03 ->
   CarbonCalculator.mapped_mass_kg r + CarbonCalculator.unmapped_mass_kg r
     + CarbonCalculator.ignored_mass_kg r
     <= CarbonCalculator.donated_weight_kg r * (1 + 0.005)) /\
  CarbonCalculator.co2_per_kg r * CarbonCalculator.donated_weight_kg r
    == CarbonCalculator.total_co2e_kg r.
Proof.
  unfold CarbonCalculator.computeDonationCarbon.
  destruct (single _) as [d|]; [|discriminate].
  destruct (Number _) as [w|]; [|discriminate].
  destruct (Qle_bool w 0) eqn:Hw; [discriminate|].
  apply Qle_bool_false_iff in Hw.
  destruct (CarbonCalculator.donationTotals db donationId d w) as [totals|] eqn:Ht;
    [|discriminate].
  cbn [bind]. intros H. injection H as <- _.
  cbn [CarbonCalculator.donated_weight_kg CarbonCalculator.total_food_mass_kg
       CarbonCalculator.mapped_mass_kg CarbonCalculator.unmapped_mass_kg
       CarbonCalculator.ignored_mass_kg CarbonCalculator.co2_per_kg
       CarbonCalculator.total_co2e_kg].
  destruct (donation_totals_range db donationId d w totals Hw Ht) as [(Hm & Hu & Hi) Hhi].
  unfold massOf in Hhi.
  split; [exact Hw|]. split; [reflexivity|].
  split; [exact Hm|]. split; [exact Hu|]. split; [exact Hi|].
  split; [nra|]. split; [intros _; exact Hhi|].
  pose proof Hw as Hw'. apply Qlt_bool_iff in Hw'. rewrite Hw'. field. lra.
Qed.

Lemma donation_mass_never_exceeds_witness :
  exists r db',
    CarbonCalculator.computeDonationCarbon Sample.storeUnderPlate 1 = Ok (r, db') /\
    CarbonCalculator.mapped_mass_kg r + CarbonCalculator.unmapped_mass_kg r
      + CarbonCalculator.ignored_mass_kg r == 8 /\
    CarbonCalculator.mapped_mass_kg r + CarbonCalculator.unmapped_mass_kg r
      + CarbonCalculator.ignored_mass_kg r
      <= CarbonCalculator.donated_weight_kg r * (1 + 0.005).
Proof.
  eexists. eexists. split; [vm_compute; reflexivity|]. split; [qeval|].
  match goal with |- context [CarbonCalculator.donated_weight_kg ?r] =>
    destruct (donation_mass_never_exceeds Sample.storeUnderPlate 1 r
                (upsertMetrics (metricsRowOf r) Sample.storeUnderPlate))
      as (_ & _ & _ & _ & _ & _ & H & _) end.
  - vm_compute. reflexivity.
  - apply H. vm_compute. discriminate.
Defined.

(** ** The breakdown against the calculator *)

Lemma bstep_totals (cid : Z) (cname : string) (ctype : option string) (w normFactor : Q)
  (M : gmap string MappingRow) (F : gmap Z LukeFoodRow) (acc : DonationBreakdown.Acc)
  (rowShare : ComponentIngredientRow * option Q) :
  totalsOf (DonationBreakdown.ingredientStep cid cname ctype w normFactor M F acc rowShare)
  = CarbonCalculator.ingredientStep w normFactor M F (totalsOf acc) rowShare.
Proof.
  destruct rowShare as [row [p|]]; [|reflexivity].
  unfold DonationBreakdown.ingredientStep, CarbonCalculator.ingredientStep, fracOf.
  cbv zeta.
  destruct (ing_is_water row); [reflexivity|].
  destruct (ing_is_salt row); [reflexivity|]. cbn [orb].
  destruct (Qlt_bool _ MIN_SHARE_FRAC); [reflexivity|].
  destruct (M !! ing_core row) as [m|]; [|reflexivity].
  destruct (String.eqb _ "ignore"); [reflexivity|].
  rewrite resolveFactor_value.
  destruct (CarbonCalculator.getCo2FactorKgPerKg _ _); [|reflexivity].
  destruct (massForFactorKg _ _ _); reflexivity.
Qed.

Lemma bloop_totals (cid : Z) (cname : string) (ctype : option string) (w normFactor : Q)
  (M : gmap string MappingRow) (F : gmap Z LukeFoodRow)
  (rows : list (ComponentIngredientRow * option Q)) :
  forall acc,
    totalsOf (fold_left (DonationBreakdown.ingredientStep cid cname ctype w normFactor M F)
                        rows acc)
    = fold_left (CarbonCalculator.ingredientStep w normFactor M F) rows (totalsOf acc).
Proof.
  induction rows as [|rs rows IH]; intros acc; [reflexivity|].
  cbn [fold_left]. rewrite IH, bstep_totals. reflexivity.
Qed.

Lemma sharePct_toNum (v : jsval) :
  CarbonCalculator.sharePct v
  = match toNum v with None => None | Some n => Some (clamp n 0 100) end.
Proof. destruct v; reflexivity. Qed.

Lemma breakdownShares_same (db : Db) (componentId : Z) :
  breakdownShares (CarbonCalculator.ingredientsOf db componentId) = sharesOf db componentId.
Proof.
  unfold breakdownShares, sharesOf. apply map_ext. intros r. symmetry. apply sharePct_toNum.
Qed.

Lemma breakdownSumPct_same (db : Db) (componentId : Z) :
  breakdownSumPct (CarbonCalculator.ingredientsOf db componentId) = sumPctOf db componentId.
Proof. unfold breakdownSumPct, sumPctOf. rewrite breakdownShares_same. reflexivity. Qed.

(** X12. Run on the rows, mappings and foods that [computeComponentCarbon] loads
    for a component with usable shares and a positive mass, one round of the
    breakdown's loop ends with the very totals the calculator returns, or
    with the same error. *)
Theorem breakdown_round_matches_calculator
  (db : Db) (componentId : Z) (cname : string) (ctype : option string) (w : Q) :
  0 < w -> 0 < sumPctOf db componentId ->
  match CarbonCalculator.computeComponentCarbon db componentId w,
        DonationBreakdown.componentRound componentId cname ctype w
          (CarbonCalculator.ingredientsOf db componentId)
          (mappingByCoreOf db componentId) (foodByIdOf db componentId)
          DonationBreakdown.emptyAcc with
  | Ok c, Ok acc => totalsOf acc = c
  | Err e, Err e' => e' = e
  | _, _ => False
  end.
Proof.
  intros Hw Hpos.
  assert (Hrows : CarbonCalculator.ingredientsOf db componentId <> []).
  { intros E. rewrite (sumPctOf_no_rows _ _ E) in Hpos. lra. }
  unfold DonationBreakdown.componentRound.
  destruct (CarbonCalculator.ingredientsOf db componentId) as [|r0 rows] eqn:Erows;
    [congruence|].
  rewrite <- Erows. clear Hrows.
  fold (breakdownShares (CarbonCalculator.ingredientsOf db componentId)).
  fold (breakdownSumPct (CarbonCalculator.ingredientsOf db componentId)).
  rewrite breakdownShares_same, breakdownSumPct_same.
  pose proof Hpos as Hpos'. apply Qle_bool_false_iff in Hpos'. cbv zeta. rewrite Hpos'.
  destruct (Qlt_bool (100 + ING_SHARE_MAX_OVER_EPS) (sumPctOf db componentId)) eqn:Hover.
  { apply Qlt_bool_iff in Hover.
    rewrite computeComponentCarbon_over_limit by assumption. reflexivity. }
  apply Qlt_bool_false_iff in Hover.
  rewrite computeComponentCarbon_loop by assumption. cbv zeta.
  unfold loopTotals, unallocatedKgOf.
  remember (normFactorOf _ (sumPctOf db componentId)) as nf eqn:Enf.
  destruct (Qeq_bool nf 1) eqn:Eone.
  - rewrite andb_true_r.
    destruct (Qlt_bool REMAINDER_EPS _) eqn:Erem.
    + unfold totalsOf at 1. cbn [DonationBreakdown.pushUnmapped DonationBreakdown.totalCo2
        DonationBreakdown.unmappedMass DonationBreakdown.mappedMass
        DonationBreakdown.ignoredMass].
      pose proof (bloop_totals componentId cname ctype w nf (mappingByCoreOf db componentId)
                    (foodByIdOf db componentId)
                    (combine (CarbonCalculator.ingredientsOf db componentId)
                             (sharesOf db componentId))
                    DonationBreakdown.emptyAcc) as Hl.
      change (totalsOf DonationBreakdown.emptyAcc) with CarbonCalculator.noCarbon in Hl.
      rewrite <- Hl. reflexivity.
    + rewrite bloop_totals. reflexivity.
  - rewrite andb_false_r.
    change (Qlt_bool REMAINDER_EPS 0) with false. cbv iota.
    rewrite bloop_totals. reflexivity.
Qed.

Lemma breakdown_round_matches_calculator_witness :
  exists c acc,
    CarbonCalculator.computeComponentCarbon Sample.storeSeventy 1 10 = Ok c /\
    DonationBreakdown.componentRound 1 "Stew" None 10
      (CarbonCalculator.ingredientsOf Sample.storeSeventy 1)
      (mappingByCoreOf Sample.storeSeventy 1) (foodByIdOf Sample.storeSeventy 1)
      DonationBreakdown.emptyAcc = Ok acc /\
    totalsOf acc = c /\ CarbonCalculator.unmappedKg c == 10.
Proof.
  assert (Hw : 0 < 10) by qeval.
  assert (Hp : 0 < sumPctOf Sample.storeSeventy 1) by qeval.
  pose proof (breakdown_round_matches_calculator Sample.storeSeventy 1 "Stew" None 10 Hw Hp)
    as H.
  destruct (CarbonCalculator.computeComponentCarbon Sample.storeSeventy 1 10) as [c|e] eqn:E1.
  - destruct (DonationBreakdown.componentRound _ _ _ _ _ _ _ _) as [acc|e'] eqn:E2;
      [|destruct H].
    exists c, acc. split; [reflexivity|]. split; [reflexivity|]. split; [exact H|].
    vm_compute in E1. injection E1 as <-. qeval.
  - vm_compute in E1. discriminate E1.
Defined.

(** ** Totals and items of the breakdown *)

Lemma sumNums_snoc (l : list Q) (x : Q) : sumNums (l ++ [x]) == sumNums l + x.
Proof.
  unfold sumNums. rewrite fold_left_app. cbn [fold_left]. reflexivity.
Qed.

Lemma massWithStatus_snoc (st : DonationBreakdown.BreakdownStatus)
  (items : list DonationBreakdown.BreakdownItem) (it : DonationBreakdown.BreakdownItem) :
  massWithStatus st (items ++ [it])
  == massWithStatus st items
     + (if statusEqb (DonationBreakdown.status it) st
        then DonationBreakdown.cooked_mass_kg it else 0).
Proof.
  unfold massWithStatus. rewrite List.filter_app. cbn [List.filter].
  destruct (statusEqb (DonationBreakdown.status it) st).
  - rewrite map_app. cbn [map]. apply sumNums_snoc.
  - rewrite app_nil_r. ring.
Qed.

Lemma co2Of_snoc (items : list DonationBreakdown.BreakdownItem)
  (it : DonationBreakdown.BreakdownItem) :
  co2Of (items ++ [it]) == co2Of items + DonationBreakdown.co2e_kg it.
Proof. unfold co2Of. rewrite map_app. cbn [map]. apply sumNums_snoc. Qed.

(** A push keeps the totals in step with the items when the item carries the
    status and the amounts that are added to the totals. *)
Lemma push_keeps (acc : DonationBreakdown.Acc) (it : DonationBreakdown.BreakdownItem) :
  totalsMatchItems acc ->
  DonationBreakdown.status it = DonationBreakdown.unmapped ->
  DonationBreakdown.cooked_mass_kg it = 0 -> DonationBreakdown.co2e_kg it = 0 ->
  totalsMatchItems (DonationBreakdown.push acc it).
Proof.
  intros (Hm & Hu & Hi & Hc) Hst Hkg Hco2. unfold totalsMatchItems, DonationBreakdown.push.
  cbn [DonationBreakdown.acc_items DonationBreakdown.mappedMass DonationBreakdown.unmappedMass
       DonationBreakdown.ignoredMass DonationBreakdown.totalCo2].
  rewrite !massWithStatus_snoc, co2Of_snoc, Hst, Hkg, Hco2. cbn [statusEqb].
  repeat split; lra.
Qed.

Lemma pushUnmapped_keeps (acc : DonationBreakdown.Acc) (kg : Q)
  (it : DonationBreakdown.BreakdownItem) :
  totalsMatchItems acc ->
  DonationBreakdown.status it = DonationBreakdown.unmapped ->
  DonationBreakdown.cooked_mass_kg it = kg -> DonationBreakdown.co2e_kg it = 0 ->
  totalsMatchItems (DonationBreakdown.pushUnmapped acc kg it).
Proof.
  intros (Hm & Hu & Hi & Hc) Hst Hkg Hco2. unfold totalsMatchItems, DonationBreakdown.pushUnmapped.
  cbn [DonationBreakdown.acc_items DonationBreakdown.mappedMass DonationBreakdown.unmappedMass
       DonationBreakdown.ignoredMass DonationBreakdown.totalCo2].
  rewrite !massWithStatus_snoc, co2Of_snoc, Hst, Hkg, Hco2. cbn [statusEqb].
  repeat split; lra.
Qed.

Lemma pushIgnored_keeps (acc : DonationBreakdown.Acc) (kg : Q)
  (it : DonationBreakdown.BreakdownItem) :
  totalsMatchItems acc ->
  DonationBreakdown.status it = DonationBreakdown.ignored ->
  DonationBreakdown.cooked_mass_kg it = kg -> DonationBreakdown.co2e_kg it = 0 ->
  totalsMatchItems (DonationBreakdown.pushIgnored acc kg it).
Proof.
  intros (Hm & Hu & Hi & Hc) Hst Hkg Hco2. unfold totalsMatchItems, DonationBreakdown.pushIgnored.
  cbn [DonationBreakdown.acc_items DonationBreakdown.mappedMass DonationBreakdown.unmappedMass
       DonationBreakdown.ignoredMass DonationBreakdown.totalCo2].
  rewrite !massWithStatus_snoc, co2Of_snoc, Hst, Hkg, Hco2. cbn [statusEqb].
  repeat split; lra.
Qed.

Lemma pushMapped_keeps (acc : DonationBreakdown.Acc) (kg co2 : Q)
  (it : DonationBreakdown.BreakdownItem) :
  totalsMatchItems acc ->
  DonationBreakdown.status it = DonationBreakdown.mapped ->
  DonationBreakdown.cooked_mass_kg it = kg -> DonationBreakdown.co2e_kg it = co2 ->
  totalsMatchItems (DonationBreakdown.pushMapped acc kg co2 it).
Proof.
  intros (Hm & Hu & Hi & Hc) Hst Hkg Hco2. unfold totalsMatchItems, DonationBreakdown.pushMapped.
  cbn [DonationBreakdown.acc_items DonationBreakdown.mappedMass DonationBreakdown.unmappedMass
       DonationBreakdown.ignoredMass DonationBreakdown.totalCo2].
  rewrite !massWithStatus_snoc, co2Of_snoc, Hst, Hkg, Hco2. cbn [statusEqb].
  repeat split; lra.
Qed.

Ltac pushed :=
  match goal with
  | H : accWellFormed ?acc |- accWellFormed (DonationBreakdown.push ?acc _) =>
      destruct H as [Ht Hf]; split;
      [apply push_keeps; [exact Ht|reflexivity..]
      |cbn [DonationBreakdown.push DonationBreakdown.acc_items];
       apply Forall_app; split; [exact Hf|constructor; [|constructor]]]
  | H : accWellFormed ?acc |- accWellFormed (DonationBreakdown.pushUnmapped ?acc _ _) =>
      destruct H as [Ht Hf]; split;
      [apply pushUnmapped_keeps; [exact Ht|reflexivity..]
      |cbn [DonationBreakdown.pushUnmapped DonationBreakdown.acc_items];
       apply Forall_app; split; [exact Hf|constructor; [|constructor]]]
  | H : accWellFormed ?acc |- accWellFormed (DonationBreakdown.pushIgnored ?acc _ _) =>
      destruct H as [Ht Hf]; split;
      [apply pushIgnored_keeps; [exact Ht|reflexivity..]
      |cbn [DonationBreakdown.pushIgnored DonationBreakdown.acc_items];
       apply Forall_app; split; [exact Hf|constructor; [|constructor]]]
  | H : accWellFormed ?acc |- accWellFormed (DonationBreakdown.pushMapped ?acc _ _ _) =>
      destruct H as [Ht Hf]; split;
      [apply pushMapped_keeps; [exact Ht|reflexivity..]
      |cbn [DonationBreakdown.pushMapped DonationBreakdown.acc_items];
       apply Forall_app; split; [exact Hf|constructor; [|constructor]]]
  end.

Lemma plain_item (cid : Z) (cname : string) (ctype : option string) (w : Q)
  (st : DonationBreakdown.BreakdownStatus) (rs core base : string) (share : option Q)
  (cooked : Q) (fid : option Z) (fi en : option string) (src : string) (fac : option Q) :
  st <> DonationBreakdown.mapped ->
  itemWellFormed
    (DonationBreakdown.item cid cname ctype w st rs core base share cooked fid fi en src fac 0 0).
Proof.
  intros Hst. unfold itemWellFormed, DonationBreakdown.item. cbn.
  destruct st; [congruence|split; reflexivity..].
Qed.

Lemma mapped_item (cid : Z) (cname : string) (ctype : option string) (w : Q)
  (rs core base : string) (share : option Q)
  (cooked : Q) (fid : option Z) (fi en : option string) (src : string) (factor mass : Q) :
  itemWellFormed
    (DonationBreakdown.item cid cname ctype w DonationBreakdown.mapped rs core base share cooked
       fid fi en src (Some factor) mass (mass * factor)).
Proof.
  unfold itemWellFormed, DonationBreakdown.item. cbn. exists factor. split; reflexivity.
Qed.

Lemma bstep_wellFormed (cid : Z) (cname : string) (ctype : option string) (w normFactor : Q)
  (M : gmap string MappingRow) (F : gmap Z LukeFoodRow) (acc : DonationBreakdown.Acc)
  (rowShare : ComponentIngredientRow * option Q) :
  accWellFormed acc ->
  accWellFormed (DonationBreakdown.ingredientStep cid cname ctype w normFactor M F acc rowShare).
Proof.
  intros Hacc. destruct rowShare as [row [p|]]; unfold DonationBreakdown.ingredientStep; cbv zeta.
  2: { pushed. apply plain_item. discriminate. }
  destruct (ing_is_water row); [pushed; apply plain_item; discriminate|].
  destruct (ing_is_salt row); [pushed; apply plain_item; discriminate|].
  destruct (Qlt_bool _ MIN_SHARE_FRAC); [pushed; apply plain_item; discriminate|].
  destruct (M !! ing_core row) as [m|]; [|pushed; apply plain_item; discriminate].
  destruct (String.eqb _ "ignore"); [pushed; apply plain_item; discriminate|].
  destruct (DonationBreakdown.value _) as [factorValue|] eqn:Ev;
    [|pushed; apply plain_item; discriminate].
  destruct (massForFactorKg _ _ _) as [massKg|];
    [|pushed; apply plain_item; discriminate].
  pushed. apply mapped_item.
Qed.

Lemma bloop_wellFormed (cid : Z) (cname : string) (ctype : option string) (w normFactor : Q)
  (M : gmap string MappingRow) (F : gmap Z LukeFoodRow)
  (rows : list (ComponentIngredientRow * option Q)) :
  forall acc, accWellFormed acc ->
    accWellFormed
      (fold_left (DonationBreakdown.ingredientStep cid cname ctype w normFactor M F) rows acc).
Proof.
  induction rows as [|rs rows IH]; intros acc Hacc; [exact Hacc|].
  cbn [fold_left]. apply IH, bstep_wellFormed, Hacc.
Qed.

Lemma fallbackStep_wellFormed (cid : Z) (cname : string) (ctype : option string) (w : Q)
  (M : gmap string MappingRow) (F : gmap Z LukeFoodRow) (acc : DonationBreakdown.Acc) :
  accWellFormed acc ->
  accWellFormed (DonationBreakdown.fallbackStep cid cname ctype w M F acc).
Proof.
  intros Hacc. unfold DonationBreakdown.fallbackStep. cbv zeta.
  destruct (if String.eqb (normalizeCoreFromName cname) "" then None
            else M !! normalizeCoreFromName cname) as [m|];
    [|pushed; apply plain_item; discriminate].
  destruct (String.eqb _ "ignore"); [pushed; apply plain_item; discriminate|].
  destruct (DonationBreakdown.value _) as [factorValue|] eqn:Ev;
    [|pushed; apply plain_item; discriminate].
  destruct (massForFactorKg _ _ _) as [massKg|];
    [|pushed; apply plain_item; discriminate].
  pushed. apply mapped_item.
Qed.

Lemma componentRound_wellFormed (cid : Z) (cname : string) (ctype : option string) (w : Q)
  (compIngs : list ComponentIngredientRow) (M : gmap string MappingRow)
  (F : gmap Z LukeFoodRow) (acc acc' : DonationBreakdown.Acc) :
  accWellFormed acc ->
  DonationBreakdown.componentRound cid cname ctype w compIngs M F acc = Ok acc' ->
  accWellFormed acc'.
Proof.
  intros Hacc. unfold DonationBreakdown.componentRound.
  destruct compIngs as [|r0 rows].
  { intros H; injection H as <-. apply fallbackStep_wellFormed, Hacc. }
  cbv zeta. destruct (Qle_bool _ 0).
  { intros H; injection H as <-. pushed. apply plain_item. discriminate. }
  destruct (Qlt_bool (100 + ING_SHARE_MAX_OVER_EPS) _); [discriminate|].
  match goal with
  |- context [fold_left (DonationBreakdown.ingredientStep _ _ _ _ ?nf _ _) ?l acc] =>
    pose proof (bloop_wellFormed cid cname ctype w nf M F l acc Hacc) as Hloop;
    remember (fold_left (DonationBreakdown.ingredientStep cid cname ctype w nf M F) l acc)
      as loop eqn:Eloop; clear Eloop end.
  destruct (Qlt_bool REMAINDER_EPS _); intros H; injection H as <-; [|exact Hloop].
  pushed. apply plain_item. discriminate.
Qed.

Lemma allocationsLoop_wellFormed (allIngs : list ComponentIngredientRow)
  (M : gmap string MappingRow) (F : gmap Z LukeFoodRow)
  (allocations : list DonationBreakdown.Allocation) :
  forall acc acc', accWellFormed acc ->
    DonationBreakdown.allocationsLoop allIngs M F allocations acc = Ok acc' ->
    accWellFormed acc'.
Proof.
  induction allocations as [|alloc rest IH]; intros acc acc' Hacc Hrun.
  - injection Hrun as <-. exact Hacc.
  - cbn [DonationBreakdown.allocationsLoop] in Hrun.
    destruct (DonationBreakdown.componentStep allIngs M F acc alloc) as [acc1|e] eqn:E;
      [|discriminate].
    cbn [bind] in Hrun. apply (IH acc1 acc'); [|exact Hrun].
    unfold DonationBreakdown.componentStep in E.
    apply (componentRound_wellFormed _ _ _ _ _ _ _ _ _ Hacc E).
Qed.

Lemma emptyAcc_wellFormed : accWellFormed DonationBreakdown.emptyAcc.
Proof.
  split; [|constructor].
  unfold totalsMatchItems, massWithStatus, co2Of, sumNums. cbn. repeat split; reflexivity.
Qed.

Lemma breakdownOf_wellFormed (db : Db) (d : DonationRow) (w : Q)
  (allocations : list DonationBreakdown.Allocation) (b : DonationBreakdown.DonationBreakdown) :
  DonationBreakdown.breakdownOf db d w allocations = Ok b ->
  exists acc,
    accWellFormed acc /\
    DonationBreakdown.items b = DonationBreakdown.acc_items acc /\
    DonationBreakdown.totals b =
      {| DonationBreakdown.total_food_mass_kg := w;
         DonationBreakdown.total_co2e_kg := DonationBreakdown.totalCo2 acc;
         DonationBreakdown.co2_per_kg :=
           if Qlt_bool 0 w then DonationBreakdown.totalCo2 acc / w else 0;
         DonationBreakdown.mapped_mass_kg := DonationBreakdown.mappedMass acc;
         DonationBreakdown.unmapped_mass_kg := DonationBreakdown.unmappedMass acc;
         DonationBreakdown.ignored_mass_kg := DonationBreakdown.ignoredMass acc |}.
Proof.
  unfold DonationBreakdown.breakdownOf. cbv zeta.
  destruct (DonationBreakdown.allocationsLoop _ _ _ allocations DonationBreakdown.emptyAcc)
    as [acc|e] eqn:E; [|discriminate].
  cbn [bind]. intros H; injection H as <-. exists acc.
  split; [|split; reflexivity].
  apply (allocationsLoop_wellFormed _ _ _ _ _ _ emptyAcc_wellFormed E).
Qed.

Lemma breakdown_wellFormed (db : Db) (donationId : Z) (b : DonationBreakdown.DonationBreakdown) :
  DonationBreakdown.computeDonationBreakdown db donationId = Ok b ->
  Forall itemWellFormed (DonationBreakdown.items b) /\
  DonationBreakdown.mapped_mass_kg (DonationBreakdown.totals b)
    == massWithStatus DonationBreakdown.mapped (DonationBreakdown.items b) /\
  DonationBreakdown.unmapped_mass_kg (DonationBreakdown.totals b)
    == massWithStatus DonationBreakdown.unmapped (DonationBreakdown.items b) /\
  DonationBreakdown.ignored_mass_kg (DonationBreakdown.totals b)
    == massWithStatus DonationBreakdown.ignored (DonationBreakdown.items b) /\
  DonationBreakdown.total_co2e_kg (DonationBreakdown.totals b)
    == co2Of (DonationBreakdown.items b).
Proof.
  assert (Hof : forall d w allocations,
            DonationBreakdown.breakdownOf db d w allocations = Ok b ->
            Forall itemWellFormed (DonationBreakdown.items b) /\
            DonationBreakdown.mapped_mass_kg (DonationBreakdown.totals b)
              == massWithStatus DonationBreakdown.mapped (DonationBreakdown.items b) /\
            DonationBreakdown.unmapped_mass_kg (DonationBreakdown.totals b)
              == massWithStatus DonationBreakdown.unmapped (DonationBreakdown.items b) /\
            DonationBreakdown.ignored_mass_kg (DonationBreakdown.totals b)
              == massWithStatus DonationBreakdown.ignored (DonationBreakdown.items b) /\
            DonationBreakdown.total_co2e_kg (DonationBreakdown.totals b)
              == co2Of (DonationBreakdown.items b)).
  { intros d w allocations H. apply breakdownOf_wellFormed in H.
    destruct H as (acc & [(Hm & Hu & Hi & Hc) Hf] & Hitems & Htotals).
    rewrite Hitems, Htotals. cbn. auto. }
  unfold DonationBreakdown.computeDonationBreakdown.
  destruct (single _) as [d|]; [|discriminate].
  destruct (Number _) as [w|]; [|discriminate].
  destruct (Qle_bool w 0); [discriminate|].
  destruct (donation_component_id d) as [componentId|].
  - destruct (List.filter _ (dish_components db)) as [|c0 [|c1 cs]]; try discriminate;
      apply Hof.
  - destruct (donation_dish_id d) as [dishId|]; [|discriminate].
    destruct (DonationBreakdown.loadDishComponents db dishId) as [|c0 cs].
    + intros H; injection H as <-.
      cbn [DonationBreakdown.items DonationBreakdown.totals DonationBreakdown.mapped_mass_kg
           DonationBreakdown.unmapped_mass_kg DonationBreakdown.ignored_mass_kg
           DonationBreakdown.total_co2e_kg].
      split; [constructor; [apply plain_item; discriminate|constructor]|].
      unfold massWithStatus, co2Of, sumNums. cbn. repeat split; ring.
    + destruct (DonationBreakdown.normalizeComponentShares (c0 :: cs)) as [shares|e];
        [|discriminate].
      cbn [bind]. apply Hof.
Qed.

(** X13. In every breakdown the mapped, unmapped and ignored totals are the sums
    of [cooked_mass_kg] over the items of that status, and the total
    emissions are the sum of [co2e_kg] over all items. *)
Theorem breakdown_totals_are_sums_of_items
  (db : Db) (donationId : Z) (b : DonationBreakdown.DonationBreakdown) :
  DonationBreakdown.computeDonationBreakdown db donationId = Ok b ->
  DonationBreakdown.mapped_mass_kg (DonationBreakdown.totals b)
    == massWithStatus DonationBreakdown.mapped (DonationBreakdown.items b) /\
  DonationBreakdown.unmapped_mass_kg (DonationBreakdown.totals b)
    == massWithStatus DonationBreakdown.unmapped (DonationBreakdown.items b) /\
  DonationBreakdown.ignored_mass_kg (DonationBreakdown.totals b)
    == massWithStatus DonationBreakdown.ignored (DonationBreakdown.items b) /\
  DonationBreakdown.total_co2e_kg (DonationBreakdown.totals b)
    == co2Of (DonationBreakdown.items b).
Proof. intros H. apply breakdown_wellFormed in H. destruct H as [_ H]. exact H. Qed.

Lemma breakdown_totals_are_sums_of_items_witness :
  exists b,
    DonationBreakdown.computeDonationBreakdown Sample.storeEndToEnd 1 = Ok b /\
    DonationBreakdown.mapped_mass_kg (DonationBreakdown.totals b)
      == massWithStatus DonationBreakdown.mapped (DonationBreakdown.items b) /\
    massWithStatus DonationBreakdown.mapped (DonationBreakdown.items b) == 6 /\
    co2Of (DonationBreakdown.items b) == 9.
Proof.
  eexists. split; [vm_compute; reflexivity|].
  match goal with |- DonationBreakdown.mapped_mass_kg (DonationBreakdown.totals ?b) == _ /\ _ =>
    destruct (breakdown_totals_are_sums_of_items Sample.storeEndToEnd 1 b) as (H & _) end.
  - vm_compute. reflexivity.
  - split; [exact H|]. split; qeval.
Defined.

(** X14. Every item of a breakdown is well formed: a mapped item carries a
    factor and its emissions are its factor mass times that factor; an
    unmapped or ignored item has no emissions and no factor mass. *)
Theorem breakdown_items_are_well_formed
  (db : Db) (donationId : Z) (b : DonationBreakdown.DonationBreakdown) :
  DonationBreakdown.computeDonationBreakdown db donationId = Ok b ->
  Forall itemWellFormed (DonationBreakdown.items b).
Proof. intros H. apply breakdown_wellFormed in H. destruct H as [H _]. exact H. Qed.

Lemma breakdown_items_are_well_formed_witness :
  exists b,
    DonationBreakdown.computeDonationBreakdown Sample.storeEndToEnd 1 = Ok b /\
    Forall itemWellFormed (DonationBreakdown.items b).
Proof.
  eexists. split; [vm_compute; reflexivity|].
  apply (breakdown_items_are_well_formed Sample.storeEndToEnd 1). vm_compute. reflexivity.
Defined.

(** ** The unmapped buckets against the calculator *)

Lemma clamp_compat (a b lo hi : Q) : a == b -> clamp a lo hi == clamp b lo hi.
Proof.
  intros H. unfold clamp. apply Qle_antisym.
  - apply Q.max_le_compat_l. apply Q.min_le_compat_l. lra.
  - apply Q.max_le_compat_l. apply Q.min_le_compat_l. lra.
Qed.

Lemma Qlt_bool_compat (a b c : Q) : a == b -> Qlt_bool a c = Qlt_bool b c.
Proof. intros H. unfold Qlt_bool. rewrite H. reflexivity. Qed.

Lemma bucket_frac (p : Q) : clamp (p / 100) 0 1 == fracOf 1 p.
Proof. unfold fracOf. apply clamp_compat. field. Qed.

(** What a row adds to the bucket [mappingUnmappedMassKg] is what the
    calculator, run without rescaling, adds to its unmapped mass. *)
Lemma bucket_step (w : Q) (M : gmap string MappingRow) (F : gmap Z LukeFoodRow)
  (u : Q) (acc : CarbonCalculator.Carbon) (rowShare : ComponentIngredientRow * option Q) :
  u == CarbonCalculator.unmappedKg acc ->
  DonationBuckets.ingredientStep w M F u rowShare
  == CarbonCalculator.unmappedKg (CarbonCalculator.ingredientStep w 1 M F acc rowShare).
Proof.
  intros Hu. destruct rowShare as [row [p|]]; [|exact Hu].
  unfold DonationBuckets.ingredientStep, CarbonCalculator.ingredientStep. cbv zeta.
  rewrite (Qlt_bool_compat _ _ MIN_SHARE_FRAC (bucket_frac p)).
  assert (Hk : w * clamp (p / 100) 0 1 == w * fracOf 1 p) by (rewrite bucket_frac; reflexivity).
  destruct (ing_is_water row || ing_is_salt row)%bool; [exact Hu|].
  destruct (Qlt_bool _ MIN_SHARE_FRAC); [exact Hu|].
  destruct (M !! ing_core row) as [m|]; [|cbn; rewrite Hu, Hk; reflexivity].
  destruct (String.eqb _ "ignore") eqn:Eign; [exact Hu|].
  change (DonationBuckets.getCo2FactorKgPerKg (Some m) (luke_foodid m ≫= fun fid => F !! fid))
    with (CarbonCalculator.getCo2FactorKgPerKg (Some m) (luke_foodid m ≫= fun fid => F !! fid)).
  destruct (CarbonCalculator.getCo2FactorKgPerKg _ _) as [factor|];
    [|cbn; rewrite Hu, Hk; reflexivity].
  unfold massForFactorKg.
  destruct (String.eqb _ "raw"); [|exact Hu].
  destruct (yield_cooked_per_raw m) as [y|]; [|cbn; rewrite Hu, Hk; reflexivity].
  destruct (Qlt_bool 0 y); [exact Hu|cbn; rewrite Hu, Hk; reflexivity].
Qed.

Lemma bucket_loop (w : Q) (M : gmap string MappingRow) (F : gmap Z LukeFoodRow)
  (rows : list (ComponentIngredientRow * option Q)) :
  forall u acc,
    u == CarbonCalculator.unmappedKg acc ->
    fold_left (DonationBuckets.ingredientStep w M F) rows u
    == CarbonCalculator.unmappedKg
         (fold_left (CarbonCalculator.ingredientStep w 1 M F) rows acc).
Proof.
  induction rows as [|rs rows IH]; intros u acc Hu; [exact Hu|].
  cbn [fold_left]. apply IH. apply bucket_step. exact Hu.
Qed.

Lemma rows_of_loaded (db : Db) (componentIds : list Z) (componentId : Z) :
  memZ componentId componentIds = true ->
  List.filter (fun r => Z.eqb (ing_component_id r) componentId)
    (List.filter (fun r => memZ (ing_component_id r) componentIds) (component_ingredients db))
  = CarbonCalculator.ingredientsOf db componentId.
Proof.
  intros Hmem. unfold CarbonCalculator.ingredientsOf.
  induction (component_ingredients db) as [|r l IH]; [reflexivity|].
  cbn [List.filter].
  destruct (Z.eqb (ing_component_id r) componentId) eqn:E.
  - apply Z.eqb_eq in E. rewrite E, Hmem. cbn [List.filter]. rewrite <- E at 1.
    rewrite Z.eqb_refl. rewrite IH. reflexivity.
  - destruct (memZ (ing_component_id r) componentIds); [cbn [List.filter]; rewrite E|];
      exact IH.
Qed.

Lemma bucket_shares_same (db : Db) (componentId : Z) :
  map (fun r => DonationBuckets.sharePct (ing_share_of_component r))
      (CarbonCalculator.ingredientsOf db componentId)
  = sharesOf db componentId.
Proof.
  unfold sharesOf. apply map_ext. intros r. rewrite sharePct_toNum. reflexivity.
Qed.

Lemma foods_guard (db : Db) (foodids : list Z) :
  match foodids with
  | [] => ∅
  | _ :: _ => foodsById (List.filter (fun f => memZ (lf_foodid f) foodids) (luke_foods db))
  end = foodsById (CarbonCalculator.foodsDataOf db foodids).
Proof. destruct foodids; reflexivity. Qed.

(** One allocation of the buckets against the component computation of the
    calculator, for a component with usable shares that is not rescaled. *)
Lemma bucket_allocation (db : Db) (componentIds : list Z) (componentId : Z) (w : Q)
  (c : CarbonCalculator.Carbon) :
  memZ componentId componentIds = true ->
  0 < w -> 0 < sumPctOf db componentId ->
  normFactorOf (existsb isNull (sharesOf db componentId)) (sumPctOf db componentId) = 1 ->
  CarbonCalculator.computeComponentCarbon db componentId w = Ok c ->
  let sums :=
    DonationBuckets.allocationStep db
      (List.filter (fun r => memZ (ing_component_id r) componentIds) (component_ingredients db))
      DonationBuckets.noSums (componentId, w) in
  let total :=
    DonationBuckets.missingShareMassKg sums + DonationBuckets.mappingUnmappedMassKg sums in
  CarbonCalculator.unmappedKg c <= total /\
  total <= CarbonCalculator.unmappedKg c + REMAINDER_EPS /\
  (REMAINDER_EPS < unallocatedKgOf w 1 (sumPctOf db componentId)
   \/ 100 <= sumPctOf db componentId ->
   total == CarbonCalculator.unmappedKg c).
Proof.
  intros Hmem Hw Hpos Hnf Hrun.
  assert (Hover : sumPctOf db componentId <= 100 + ING_SHARE_MAX_OVER_EPS).
  { apply Qnot_lt_le. intros Hover.
    rewrite computeComponentCarbon_over_limit in Hrun by assumption. discriminate. }
  rewrite computeComponentCarbon_loop in Hrun by assumption. cbv zeta in Hrun.
  rewrite Hnf in Hrun. change (Qeq_bool 1 1) with true in Hrun. rewrite andb_true_r in Hrun.
  unfold DonationBuckets.allocationStep.
  pose proof Hw as Hw'. apply Qle_bool_false_iff in Hw'. rewrite Hw'.
  rewrite (rows_of_loaded db componentIds componentId Hmem).
  assert (Hrows : CarbonCalculator.ingredientsOf db componentId <> []).
  { intros E. rewrite (sumPctOf_no_rows _ _ E) in Hpos. lra. }
  destruct (CarbonCalculator.ingredientsOf db componentId) as [|r0 rows] eqn:Erows;
    [congruence|].
  rewrite <- Erows. clear Hrows. cbv zeta.
  rewrite bucket_shares_same. fold (sumPctOf db componentId).
  pose proof Hpos as Hpos'. apply Qle_bool_false_iff in Hpos'. rewrite Hpos'.
  fold (CarbonCalculator.mappingsDataOf db
          (uniqStrings (map ing_core (CarbonCalculator.ingredientsOf db componentId)))).
  fold (mappingByCoreOf db componentId).
  rewrite foods_guard. fold (foodByIdOf db componentId).
  remember (sumPctOf db componentId) as S eqn:ES.
  pose proof (bucket_loop w (mappingByCoreOf db componentId) (foodByIdOf db componentId)
                (combine (CarbonCalculator.ingredientsOf db componentId)
                         (sharesOf db componentId))) as Hloop.
  unfold loopTotals in Hrun.
  cbn zeta. cbn [DonationBuckets.missingShareMassKg DonationBuckets.mappingUnmappedMassKg].
  destruct (Qlt_bool S 100) eqn:Hlt.
  - (* the shares leave a remainder *)
    apply Qlt_bool_iff in Hlt.
    cbn [DonationBuckets.addMissingShare DonationBuckets.noSums
         DonationBuckets.missingShareMassKg DonationBuckets.mappingUnmappedMassKg].
    rewrite (Hloop 0 CarbonCalculator.noCarbon) by reflexivity.
    assert (HU : unallocatedKgOf w 1 S == w * (1 - S / 100)).
    { unfold unallocatedKgOf. rewrite clamp_id; [field| |].
      - apply Qle_shift_div_l; lra.
      - apply Qle_shift_div_r; lra. }
    assert (HB : w * clamp (1 - S / 100) 0 1 == w * (1 - S / 100)).
    { assert (0 <= S / 100) by (apply Qle_shift_div_l; lra).
      assert (S / 100 <= 1) by (apply Qle_shift_div_r; lra).
      rewrite clamp_id; [reflexivity|lra|lra]. }
    assert (HU0 : 0 <= w * (1 - S / 100)).
    { apply Qmult_le_0_compat; [lra|].
      assert (S / 100 <= 1) by (apply Qle_shift_div_r; lra). lra. }
    rewrite HB.
    destruct (Qlt_bool REMAINDER_EPS (unallocatedKgOf w 1 S)) eqn:Hrem;
      injection Hrun as <-.
    + cbn [CarbonCalculator.addUnmapped CarbonCalculator.unmappedKg]. rewrite HU.
      unfold REMAINDER_EPS. split; [lra|]. split; [lra|]. intros _. ring.
    + apply Qlt_bool_false_iff in Hrem. rewrite HU in Hrem.
      split; [lra|]. split; [lra|]. intros [Hc|Hc]; [|lra].
      rewrite HU in Hc. lra.
  - apply Qlt_bool_false_iff in Hlt.
    cbn [DonationBuckets.noSums
         DonationBuckets.missingShareMassKg DonationBuckets.mappingUnmappedMassKg].
    rewrite (Hloop 0 CarbonCalculator.noCarbon) by reflexivity.
    assert (HU : unallocatedKgOf w 1 S == 0).
    { apply unallocated_zero_when_covered. apply Qle_shift_div_l; lra. }
    assert (Hrem : Qlt_bool REMAINDER_EPS (unallocatedKgOf w 1 S) = false).
    { apply Qlt_bool_false_iff. rewrite HU. unfold REMAINDER_EPS. lra. }
    rewrite Hrem in Hrun. injection Hrun as <-.
    unfold REMAINDER_EPS. split; [lra|]. split; [lra|]. intros _. ring.
Qed.

(** X15. For a component-targeted donation whose component has usable shares
    that the calculator does not rescale (a share is missing, or the sum is
    further than 5 from 100), the two buckets together are the unmapped mass
    of [computeDonationCarbon], up to the remainder of at most 1e-9 kg that
    the calculator drops: equal when the remainder is added or the shares
    cover the component. *)
Theorem buckets_follow_calculator_without_rescaling
  (db : Db) (donationId : Z) (d : DonationRow) (componentId : Z)
  (r : CarbonCalculator.DonationCarbonResult) (db' : Db) :
  donationOf db donationId = Some d ->
  donation_component_id d = Some componentId ->
  0 < sumPctOf db componentId ->
  existsb isNull (sharesOf db componentId) = true
    \/ 5 < Qabs (sumPctOf db componentId - 100) ->
  CarbonCalculator.computeDonationCarbon db donationId = Ok (r, db') ->
  exists b,
    DonationBuckets.computeDonationUnmappedBuckets db donationId = Ok b /\
    let total :=
      DonationBuckets.missing_share_mass_kg b
      + DonationBuckets.mapping_or_factor_unmapped_mass_kg b in
    CarbonCalculator.unmapped_mass_kg r <= total /\
    total <= CarbonCalculator.unmapped_mass_kg r + REMAINDER_EPS /\
    (REMAINDER_EPS
       < unallocatedKgOf (CarbonCalculator.donated_weight_kg r) 1 (sumPctOf db componentId)
     \/ 100 <= sumPctOf db componentId ->
     total == CarbonCalculator.unmapped_mass_kg r).
Proof.
  intros Hd Hc Hpos Hnorm.
  unfold CarbonCalculator.computeDonationCarbon,
    DonationBuckets.computeDonationUnmappedBuckets.
  fold (donationOf db donationId). rewrite Hd.
  destruct (Number (donation_weight d)) as [w|]; [|discriminate].
  destruct (Qle_bool w 0) eqn:Hw; [discriminate|].
  apply Qle_bool_false_iff in Hw.
  unfold CarbonCalculator.donationTotals. rewrite Hc.
  destruct (CarbonCalculator.computeComponentCarbon db componentId w) as [c|] eqn:Ec;
    [|discriminate].
  cbn [bind]. intros H. injection H as <- _.
  eexists. split; [reflexivity|].
  unfold DonationBuckets.bucketsOfAllocations, DonationBuckets.bucketsOf.
  cbn [map fst fold_left DonationBuckets.missing_share_mass_kg
       DonationBuckets.mapping_or_factor_unmapped_mass_kg
       CarbonCalculator.unmapped_mass_kg CarbonCalculator.donated_weight_kg
       CarbonCalculator.addCarbon CarbonCalculator.noCarbon CarbonCalculator.unmappedKg].
  assert (Hmem : memZ componentId [componentId] = true).
  { unfold memZ. cbn [existsb]. rewrite Z.eqb_refl. reflexivity. }
  assert (Hnf : normFactorOf (existsb isNull (sharesOf db componentId))
                  (sumPctOf db componentId) = 1).
  { apply normFactorOf_not_normalized. exact Hnorm. }
  destruct (bucket_allocation db [componentId] componentId w c Hmem Hw Hpos Hnf Ec)
    as (H1 & H2 & H3).
  cbv zeta in *. split; [lra|]. split; [lra|].
  intros Hcase. rewrite (H3 Hcase). ring.
Qed.

Lemma buckets_follow_calculator_without_rescaling_witness :
  exists r db' b,
    CarbonCalculator.computeDonationCarbon Sample.storeSeventy 1 = Ok (r, db') /\
    DonationBuckets.computeDonationUnmappedBuckets Sample.storeSeventy 1 = Ok b /\
    CarbonCalculator.unmapped_mass_kg r == 10 /\
    DonationBuckets.missing_share_mass_kg b == 3 /\
    DonationBuckets.mapping_or_factor_unmapped_mass_kg b == 7.
Proof.
  assert (Hd : donationOf Sample.storeSeventy 1
               = Some (Sample.donation 1 (Some 7%Z) (Some 1%Z) 10)) by reflexivity.
  assert (Hpos : 0 < sumPctOf Sample.storeSeventy 1) by qeval.
  assert (Hmiss : existsb isNull (sharesOf Sample.storeSeventy 1) = true
                  \/ 5 < Qabs (sumPctOf Sample.storeSeventy 1 - 100)) by (left; reflexivity).
  eexists. eexists.
  match goal with |- exists b, ?run = Ok (?r, ?db') /\ _ =>
    assert (Hrun : run = Ok (r, db')) by (vm_compute; reflexivity) end.
  destruct (buckets_follow_calculator_without_rescaling Sample.storeSeventy 1 _ 1 _ _
              Hd eq_refl Hpos Hmiss Hrun) as (b & Hb & _).
  exists b. split; [exact Hrun|]. split; [exact Hb|].
  vm_compute in Hb. injection Hb as <-. split; [qeval|]. split; qeval.
Defined.

(** ** The mapping key of a component name *)

Lemma kStar_end (p : ascii -> bool) (s : list ascii) :
  forall prev, exists r, Str.kStarFrom p Str.kEnd prev s = Some r /\ (r <= length s)%nat.
Proof.
  induction s as [|c rest IH]; intros prev.
  - exists 0%nat. split; [reflexivity|cbn; lia].
  - cbn [Str.kStarFrom]. destruct (p c).
    + destruct (IH (Some c)) as (r & Hr & Hle). rewrite Hr. exists r. split; [reflexivity|].
      cbn [length]. lia.
    + exists (length (c :: rest)). split; [reflexivity|lia].
Qed.

Lemma kPlus_end (p : ascii -> bool) (prev : option ascii) (c : ascii) (rest : list ascii) :
  p c = true -> exists n, Str.matchLen (Str.kPlus p Str.kEnd) prev (c :: rest) = Some (S n).
Proof.
  intros Hp. unfold Str.matchLen, Str.kPlus, Str.kChar, Str.kStar. rewrite Hp.
  destruct (kStar_end p rest (Some c)) as (r & Hr & Hle). rewrite Hr.
  exists (length rest - r)%nat. cbn [length]. rewrite Nat.sub_succ_l by exact Hle. reflexivity.
Qed.

Lemma kPlus_fail (p : ascii -> bool) (k : Str.matcher) (prev : option ascii) (c : ascii)
  (rest : list ascii) :
  p c = false -> Str.matchLen (Str.kPlus p k) prev (c :: rest) = None.
Proof.
  intros Hp. unfold Str.matchLen, Str.kPlus, Str.kChar. rewrite Hp. reflexivity.
Qed.

Lemma replace_preserves (P : ascii -> Prop) (m : Str.matcher) (rep : list ascii) :
  Forall P rep ->
  forall s prev skip, Forall P s -> Forall P (Str.replaceFrom m rep prev skip s).
Proof.
  intros Hrep. induction s as [|c rest IH]; intros prev skip Hs; [constructor|].
  inversion Hs as [|? ? Hc Hrest]; subst. cbn [Str.replaceFrom].
  destruct skip as [|k]; [|apply IH; exact Hrest].
  destruct (Str.matchLen m prev (c :: rest)) as [[|n]|].
  - constructor; [exact Hc|apply IH; exact Hrest].
  - apply Forall_app. split; [exact Hrep|apply IH; exact Hrest].
  - constructor; [exact Hc|apply IH; exact Hrest].
Qed.

Lemma nonAlnum_replaced (s : list ascii) :
  forall prev skip,
    Forall (fun c => isCoreChar c = true)
           (Str.replaceFrom Str.reNonAlnum ["_"%char] prev skip s).
Proof.
  induction s as [|c rest IH]; intros prev skip; [constructor|].
  cbn [Str.replaceFrom]. destruct skip as [|k]; [|apply IH].
  unfold Str.reNonAlnum.
  destruct (negb (Str.isUpper c || Str.isDigit c)) eqn:E.
  - destruct (kPlus_end (fun c => negb (Str.isUpper c || Str.isDigit c)) prev c rest E)
      as [n Hn].
    rewrite Hn. apply Forall_app. split; [constructor; [reflexivity|constructor]|apply IH].
  - rewrite kPlus_fail by exact E. constructor; [|apply IH].
    apply negb_false_iff in E. unfold isCoreChar. rewrite E. reflexivity.
Qed.

(** X16. [normalizeCoreFromName] never returns the empty string, and its result
    consists of the characters A-Z, 0-9 and the underscore only. *)
Theorem name_core_is_a_nonempty_key (nameRaw : string) :
  normalizeCoreFromName nameRaw <> ""%string /\
  Forall (fun c => isCoreChar c = true)
         (list_ascii_of_string (normalizeCoreFromName nameRaw)).
Proof.
  unfold normalizeCoreFromName. cbv zeta.
  match goal with |- context [Str.replaceAll Str.reNonAlnum _ ?s] =>
    pose proof (nonAlnum_replaced s None 0%nat) as H5;
    fold (Str.replaceAll Str.reNonAlnum ["_"%char] s) in H5;
    remember (Str.replaceAll Str.reNonAlnum ["_"%char] s) as s5 eqn:E5; clear E5 end.
  assert (H7 : Forall (fun c => isCoreChar c = true)
                 (Str.replaceAll Str.reEdgeUnderscores []
                    (Str.replaceAll Str.reUnderscores ["_"%char] s5))).
  { unfold Str.replaceAll. apply replace_preserves; [constructor|].
    apply replace_preserves; [constructor; [reflexivity|constructor]|exact H5]. }
  destruct (Str.replaceAll Str.reEdgeUnderscores [] _) as [|c s7].
  - split; [discriminate|]. vm_compute. repeat constructor.
  - split; [discriminate|]. rewrite list_ascii_of_string_of_list_ascii. exact H7.
Qed.

(** ** A component donation in the breakdown and in the calculator *)

Lemma carbonEq_refl (a : CarbonCalculator.Carbon) : carbonEq a a.
Proof. unfold carbonEq. repeat split; reflexivity. Qed.

Lemma carbonEq_sym (a b : CarbonCalculator.Carbon) : carbonEq a b -> carbonEq b a.
Proof. intros (H1 & H2 & H3 & H4). unfold carbonEq. repeat split; symmetry; assumption. Qed.

Lemma carbonEq_trans (a b c : CarbonCalculator.Carbon) :
  carbonEq a b -> carbonEq b c -> carbonEq a c.
Proof.
  intros (H1 & H2 & H3 & H4) (G1 & G2 & G3 & G4). unfold carbonEq.
  repeat split; etransitivity; eassumption.
Qed.

Ltac carbon :=
  unfold carbonEq, CarbonCalculator.addUnmapped, CarbonCalculator.addIgnored,
    CarbonCalculator.addMapped, CarbonCalculator.addCarbon, CarbonCalculator.noCarbon in *;
  cbn [CarbonCalculator.co2eKg CarbonCalculator.mappedKg CarbonCalculator.unmappedKg
       CarbonCalculator.ignoredKg] in *.

Lemma fracOf_compat (nf nf' p : Q) : nf == nf' -> fracOf nf p == fracOf nf' p.
Proof. intros H. unfold fracOf. apply clamp_compat. rewrite H. reflexivity. Qed.

(** The loop body respects equality of rationals in the rescaling factor and
    in the accumulators, and reads only the foods the mappings refer to. *)
Lemma step_compat (w nf nf' : Q) (M : gmap string MappingRow) (F F' : gmap Z LukeFoodRow)
  (acc acc' : CarbonCalculator.Carbon) (rowShare : ComponentIngredientRow * option Q) :
  nf == nf' -> sameFoodsFor M F F' -> carbonEq acc acc' ->
  carbonEq (CarbonCalculator.ingredientStep w nf M F acc rowShare)
           (CarbonCalculator.ingredientStep w nf' M F' acc' rowShare).
Proof.
  intros Hnf HF Hacc. destruct rowShare as [row [p|]]; [|exact Hacc].
  unfold CarbonCalculator.ingredientStep. cbv zeta.
  pose proof (fracOf_compat nf nf' p Hnf) as Hfrac.
  rewrite (Qlt_bool_compat _ _ MIN_SHARE_FRAC Hfrac).
  assert (Hk : w * fracOf nf p == w * fracOf nf' p) by (rewrite Hfrac; reflexivity).
  destruct Hacc as (A1 & A2 & A3 & A4).
  destruct (ing_is_water row || ing_is_salt row)%bool; [carbon; repeat split; lra|].
  destruct (Qlt_bool _ MIN_SHARE_FRAC); [carbon; repeat split; lra|].
  destruct (M !! ing_core row) as [m|] eqn:Em; [|carbon; repeat split; lra].
  destruct (String.eqb _ "ignore"); [carbon; repeat split; lra|].
  assert (Hfood : (luke_foodid m ≫= fun fid => F !! fid)
                  = (luke_foodid m ≫= fun fid => F' !! fid)).
  { destruct (luke_foodid m) as [fid|] eqn:Efid; [|reflexivity]. cbn.
    apply (HF _ _ _ Em Efid). }
  rewrite Hfood.
  destruct (CarbonCalculator.getCo2FactorKgPerKg _ _) as [factor|];
    [|carbon; repeat split; lra].
  unfold massForFactorKg.
  destruct (String.eqb _ "raw").
  - destruct (yield_cooked_per_raw m) as [y|]; [|carbon; repeat split; lra].
    destruct (Qlt_bool 0 y); [|carbon; repeat split; lra].
    carbon. repeat split; try lra. rewrite A1, Hk. reflexivity.
  - carbon. repeat split; try lra. rewrite A1, Hk. reflexivity.
Qed.

(** What a row adds does not depend on what was accumulated before it. *)
Lemma step_adds (w nf : Q) (M : gmap string MappingRow) (F : gmap Z LukeFoodRow)
  (acc : CarbonCalculator.Carbon) (rowShare : ComponentIngredientRow * option Q) :
  carbonEq (CarbonCalculator.ingredientStep w nf M F acc rowShare)
           (CarbonCalculator.addCarbon acc
              (CarbonCalculator.ingredientStep w nf M F CarbonCalculator.noCarbon rowShare)).
Proof.
  destruct rowShare as [row [p|]].
  2: { cbn. carbon. repeat split; ring. }
  unfold CarbonCalculator.ingredientStep. cbv zeta.
  destruct (ing_is_water row || ing_is_salt row)%bool; [carbon; repeat split; ring|].
  destruct (Qlt_bool _ MIN_SHARE_FRAC); [carbon; repeat split; ring|].
  destruct (M !! ing_core row) as [m|]; [|carbon; repeat split; ring].
  destruct (String.eqb _ "ignore"); [carbon; repeat split; ring|].
  destruct (CarbonCalculator.getCo2FactorKgPerKg _ _) as [factor|];
    [|carbon; repeat split; ring].
  destruct (massForFactorKg _ _ _); carbon; repeat split; ring.
Qed.

Lemma addCarbon_compat (a a' b b' : CarbonCalculator.Carbon) :
  carbonEq a a' -> carbonEq b b' ->
  carbonEq (CarbonCalculator.addCarbon a b) (CarbonCalculator.addCarbon a' b').
Proof.
  intros (A1 & A2 & A3 & A4) (B1 & B2 & B3 & B4). carbon. repeat split; lra.
Qed.

Lemma sameFoods_refl (M : gmap string MappingRow) (F : gmap Z LukeFoodRow) :
  sameFoodsFor M F F.
Proof. intros core m fid _ _. reflexivity. Qed.

Lemma step_swap (w nf : Q) (M : gmap string MappingRow) (F : gmap Z LukeFoodRow)
  (acc acc' : CarbonCalculator.Carbon) (a b : ComponentIngredientRow * option Q) :
  carbonEq acc acc' ->
  carbonEq
    (CarbonCalculator.ingredientStep w nf M F (CarbonCalculator.ingredientStep w nf M F acc a) b)
    (CarbonCalculator.ingredientStep w nf M F (CarbonCalculator.ingredientStep w nf M F acc' b) a).
Proof.
  intros Hacc.
  pose proof (step_adds w nf M F (CarbonCalculator.ingredientStep w nf M F acc a) b) as H1.
  pose proof (step_adds w nf M F acc a) as H2.
  pose proof (step_adds w nf M F (CarbonCalculator.ingredientStep w nf M F acc' b) a) as H3.
  pose proof (step_adds w nf M F acc' b) as H4.
  remember (CarbonCalculator.ingredientStep w nf M F CarbonCalculator.noCarbon a) as ca.
  remember (CarbonCalculator.ingredientStep w nf M F CarbonCalculator.noCarbon b) as cb.
  remember (CarbonCalculator.ingredientStep w nf M F
              (CarbonCalculator.ingredientStep w nf M F acc a) b) as lhs.
  remember (CarbonCalculator.ingredientStep w nf M F
              (CarbonCalculator.ingredientStep w nf M F acc' b) a) as rhs.
  remember (CarbonCalculator.ingredientStep w nf M F acc a) as xa.
  remember (CarbonCalculator.ingredientStep w nf M F acc' b) as xb.
  destruct Hacc as (A1 & A2 & A3 & A4).
  destruct H1 as (P1 & P2 & P3 & P4). destruct H2 as (Q1 & Q2 & Q3 & Q4).
  destruct H3 as (R1 & R2 & R3 & R4). destruct H4 as (S1 & S2 & S3 & S4).
  carbon. repeat split; lra.
Qed.

Lemma loop_compat (w nf nf' : Q) (M : gmap string MappingRow) (F F' : gmap Z LukeFoodRow)
  (rows : list (ComponentIngredientRow * option Q)) :
  nf == nf' -> sameFoodsFor M F F' ->
  forall acc acc', carbonEq acc acc' ->
    carbonEq (fold_left (CarbonCalculator.ingredientStep w nf M F) rows acc)
             (fold_left (CarbonCalculator.ingredientStep w nf' M F') rows acc').
Proof.
  intros Hnf HF. induction rows as [|rs rows IH]; intros acc acc' Hacc; [exact Hacc|].
  cbn [fold_left]. apply IH. apply step_compat; assumption.
Qed.

(** The order of the rows does not matter for the totals. *)
Lemma loop_perm (w nf : Q) (M : gmap string MappingRow) (F : gmap Z LukeFoodRow)
  (rows rows' : list (ComponentIngredientRow * option Q)) :
  Permutation rows rows' ->
  forall acc acc', carbonEq acc acc' ->
    carbonEq (fold_left (CarbonCalculator.ingredientStep w nf M F) rows acc)
             (fold_left (CarbonCalculator.ingredientStep w nf M F) rows' acc').
Proof.
  induction 1 as [|x l l' Hp IH|x y l|l l' l'' H1 IH1 H2 IH2]; intros acc acc' Hacc.
  - exact Hacc.
  - cbn [fold_left]. apply IH. apply step_compat;
      [reflexivity|apply sameFoods_refl|exact Hacc].
  - cbn [fold_left].
    apply loop_compat; [reflexivity|apply sameFoods_refl|]. apply step_swap. exact Hacc.
  - apply carbonEq_trans with (fold_left (CarbonCalculator.ingredientStep w nf M F) l' acc).
    + apply IH1. apply carbonEq_refl.
    + apply IH2. exact Hacc.
Qed.

Lemma insertByKey_perm {A : Type} (key : A -> Z) (x : A) (l : list A) :
  Permutation (DonationBreakdown.insertByKey key x l) (x :: l).
Proof.
  induction l as [|y l IH]; [apply Permutation_refl|].
  cbn [DonationBreakdown.insertByKey]. destruct (Z.leb (key x) (key y)).
  - apply Permutation_refl.
  - apply Permutation_trans with (y :: x :: l); [|apply perm_swap].
    apply perm_skip. exact IH.
Qed.

Lemma sortByKey_perm {A : Type} (key : A -> Z) (l : list A) :
  Permutation (DonationBreakdown.sortByKey key l) l.
Proof.
  unfold DonationBreakdown.sortByKey. induction l as [|x l IH]; [apply Permutation_refl|].
  cbn [fold_right]. apply Permutation_trans with (x :: fold_right (DonationBreakdown.insertByKey key) [] l).
  - apply insertByKey_perm.
  - apply perm_skip. exact IH.
Qed.

Lemma sumNums_perm (l l' : list Q) : Permutation l l' -> sumNums l == sumNums l'.
Proof.
  induction 1 as [|x l l' Hp IH|x y l|l l' l'' H1 IH1 H2 IH2].
  - reflexivity.
  - rewrite !sumNums_cons, IH. reflexivity.
  - rewrite !sumNums_cons. ring.
  - rewrite IH1. exact IH2.
Qed.

Lemma existsb_perm {A : Type} (f : A -> bool) (l l' : list A) :
  Permutation l l' -> existsb f l = existsb f l'.
Proof.
  induction 1 as [|x l l' Hp IH|x y l|l l' l'' H1 IH1 H2 IH2]; cbn [existsb].
  - reflexivity.
  - rewrite IH. reflexivity.
  - destruct (f x), (f y); reflexivity.
  - congruence.
Qed.

Lemma combine_map {A B : Type} (f : A -> B) (l : list A) :
  combine l (map f l) = map (fun a => (a, f a)) l.
Proof. induction l as [|a l IH]; [reflexivity|]. cbn. rewrite IH. reflexivity. Qed.

(** The rows of a component as the breakdown orders them carry the same
    shares as the rows the calculator reads. *)
Lemma sorted_shares (key : ComponentIngredientRow -> Z) (rows : list ComponentIngredientRow) :
  Permutation (breakdownShares (DonationBreakdown.sortByKey key rows)) (breakdownShares rows) /\
  Permutation
    (combine (DonationBreakdown.sortByKey key rows)
             (breakdownShares (DonationBreakdown.sortByKey key rows)))
    (combine rows (breakdownShares rows)).
Proof.
  unfold breakdownShares. split.
  - apply Permutation_map. apply sortByKey_perm.
  - rewrite !combine_map. apply Permutation_map. apply sortByKey_perm.
Qed.

Lemma sorted_sumPct (key : ComponentIngredientRow -> Z) (rows : list ComponentIngredientRow) :
  breakdownSumPct (DonationBreakdown.sortByKey key rows) == breakdownSumPct rows.
Proof.
  unfold breakdownSumPct. apply sumNums_perm. apply Permutation_map.
  apply (sorted_shares key rows).
Qed.

Lemma sorted_missing (key : ComponentIngredientRow -> Z) (rows : list ComponentIngredientRow) :
  existsb isNull (breakdownShares (DonationBreakdown.sortByKey key rows))
  = existsb isNull (breakdownShares rows).
Proof. apply existsb_perm. apply (sorted_shares key rows). Qed.

Lemma normFactorOf_compat (b : bool) (s s' : Q) :
  s == s' -> normFactorOf b s == normFactorOf b s' /\
             (Qeq_bool (normFactorOf b s) 1 = Qeq_bool (normFactorOf b s') 1).
Proof.
  intros H. unfold normFactorOf.
  assert (E : Qle_bool (Qabs (s - 100)) ING_SHARE_NORMALIZE_EPS
              = Qle_bool (Qabs (s' - 100)) ING_SHARE_NORMALIZE_EPS).
  { rewrite H. reflexivity. }
  rewrite E. destruct (negb b && _)%bool.
  - split; [rewrite H; reflexivity|].
    destruct (Qeq_bool (100 / s) 1) eqn:E1, (Qeq_bool (100 / s') 1) eqn:E2; try reflexivity.
    + apply Qeq_bool_iff in E1. apply Qeq_bool_neq in E2. exfalso. apply E2.
      rewrite <- H. exact E1.
    + apply Qeq_bool_iff in E2. apply Qeq_bool_neq in E1. exfalso. apply E1.
      rewrite H. exact E2.
  - split; reflexivity.
Qed.

(** The mappings and foods of the breakdown for a single allocated component
    that has ingredient rows. *)
Lemma loaded_rows (db : Db) (componentId : Z) :
  DonationBreakdown.loadComponentIngredients db [componentId]
  = CarbonCalculator.ingredientsOf db componentId.
Proof.
  unfold DonationBreakdown.loadComponentIngredients, CarbonCalculator.ingredientsOf.
  apply filter_ext. intros r. unfold memZ. cbn [existsb]. apply orb_false_r.
Qed.

Lemma loadMappings_data (db : Db) (cores : list string) :
  DonationBreakdown.loadMappings db cores
  = mappingsByCore (CarbonCalculator.mappingsDataOf db cores).
Proof.
  unfold DonationBreakdown.loadMappings, CarbonCalculator.mappingsDataOf.
  destruct cores as [|c cs]; [|reflexivity].
  rewrite filter_none; [reflexivity|]. intros m _. cbn. apply andb_false_r.
Qed.

Lemma coresOf_single (db : Db) (componentId : Z) (alloc : DonationBreakdown.Allocation) :
  component_id_of (DonationBreakdown.component alloc) = componentId ->
  CarbonCalculator.ingredientsOf db componentId <> [] ->
  DonationBreakdown.coresOf (CarbonCalculator.ingredientsOf db componentId) [alloc]
  = uniqStrings (map ing_core (CarbonCalculator.ingredientsOf db componentId)).
Proof.
  intros Hid Hrows. unfold DonationBreakdown.coresOf. cbv zeta. cbn [omap list_omap].
  rewrite Hid.
  assert (Hmem : memZ componentId
                   (map ing_component_id (CarbonCalculator.ingredientsOf db componentId)) = true).
  { destruct (CarbonCalculator.ingredientsOf db componentId) as [|r rows] eqn:E; [congruence|].
    assert (Hr : In r (CarbonCalculator.ingredientsOf db componentId)) by (rewrite E; left; reflexivity).
    unfold CarbonCalculator.ingredientsOf in Hr. apply filter_In in Hr. destruct Hr as [_ Hr].
    apply Z.eqb_eq in Hr. unfold memZ. cbn [map existsb]. rewrite Hr, Z.eqb_refl. reflexivity. }
  rewrite Hmem. rewrite app_nil_r. reflexivity.
Qed.

Lemma uniqFrom_keeps (x : Z) (xs : list Z) :
  forall seen, In x xs -> In x (uniqFrom memZ seen xs) \/ memZ x seen = true.
Proof.
  induction xs as [|x0 rest IH]; intros seen Hin; [destruct Hin|].
  cbn [uniqFrom]. destruct (memZ x0 seen) eqn:Eseen.
  - destruct Hin as [<-|Hin]; [right; exact Eseen|apply IH; exact Hin].
  - destruct Hin as [<-|Hin]; [left; left; reflexivity|].
    destruct (IH (x0 :: seen) Hin) as [H|H]; [left; right; exact H|].
    unfold memZ in H. cbn [existsb] in H. apply orb_true_iff in H.
    destruct H as [H|H]; [|right; exact H].
    apply Z.eqb_eq in H. subst. left; left; reflexivity.
Qed.

Lemma uniqZ_mem (x : Z) (xs : list Z) : In x xs -> memZ x (uniqZ xs) = true.
Proof.
  intros Hin. destruct (uniqFrom_keeps x xs [] Hin) as [H|H]; [|discriminate].
  unfold memZ. apply existsb_exists. exists x. split; [exact H|apply Z.eqb_refl].
Qed.

(** A food table restricted to ids that include [fid] answers for [fid] as
    the whole table does. *)
Lemma foodsById_filter (P : LukeFoodsRow -> bool) (fid : Z) (rows : list LukeFoodsRow) :
  (forall f, lf_foodid f = fid -> P f = true) ->
  forall F0 F0' : gmap Z LukeFoodRow, F0 !! fid = F0' !! fid ->
    fold_left (fun m r => <[lf_foodid r := toLukeFoodRow r]> m) (List.filter P rows) F0 !! fid
    = fold_left (fun m r => <[lf_foodid r := toLukeFoodRow r]> m) rows F0' !! fid.
Proof.
  intros HP. induction rows as [|x rows IH]; intros F0 F0' H0; [exact H0|].
  cbn [List.filter fold_left]. destruct (P x) eqn:Ex.
  - cbn [fold_left]. apply IH.
    destruct (decide (lf_foodid x = fid)) as [->|Hne].
    + rewrite !lookup_insert_eq. reflexivity.
    + rewrite !lookup_insert_ne by exact Hne. exact H0.
  - apply IH. rewrite lookup_insert_ne; [exact H0|].
    intros E. rewrite (HP x E) in Ex. discriminate.
Qed.

Lemma restricted_foods (db : Db) (ids : list Z) (fid : Z) :
  memZ fid ids = true ->
  DonationBreakdown.loadLukeFoods db ids !! fid = foodsById (luke_foods db) !! fid /\
  foodsById (CarbonCalculator.foodsDataOf db ids) !! fid = foodsById (luke_foods db) !! fid.
Proof.
  intros Hmem. unfold DonationBreakdown.loadLukeFoods, CarbonCalculator.foodsDataOf.
  destruct ids as [|i ids]; [discriminate|]. unfold foodsById.
  split; apply foodsById_filter; try reflexivity; intros f <-; exact Hmem.
Qed.

Lemma mappingsByCore_range (rows : list IngredientMappingRow) (core : string) (m : MappingRow) :
  forall M0 : gmap string MappingRow,
    fold_left (fun M r => <[im_core r := toMappingRow r]> M) rows M0 !! core = Some m ->
    (exists r, In r rows /\ toMappingRow r = m) \/ M0 !! core = Some m.
Proof.
  induction rows as [|r rows IH]; intros M0 H; [right; exact H|].
  cbn [fold_left] in H. destruct (IH _ H) as [(r' & Hin & Hr')|H'].
  - left. exists r'. split; [right; exact Hin|exact Hr'].
  - destruct (decide (im_core r = core)) as [E|Hne].
    + rewrite E, lookup_insert_eq in H'. left. exists r. split; [left; reflexivity|congruence].
    + rewrite lookup_insert_ne in H' by exact Hne. right. exact H'.
Qed.

(** The foods the breakdown loads answer like the foods the calculator loads,
    for every food a loaded mapping refers to. *)
Lemma breakdown_foods (db : Db) (componentId : Z) :
  sameFoodsFor (mappingByCoreOf db componentId)
    (DonationBreakdown.loadLukeFoods db
       (uniqZ (omap (fun kv => luke_foodid (snd kv))
                    (map_to_list (mappingByCoreOf db componentId)))))
    (foodByIdOf db componentId).
Proof.
  intros core m fid Hm Hfid.
  assert (H1 : memZ fid (uniqZ (omap (fun kv => luke_foodid (snd kv))
                                     (map_to_list (mappingByCoreOf db componentId)))) = true).
  { apply uniqZ_mem. apply list_elem_of_In. apply list_elem_of_omap.
    exists (core, m). split; [apply elem_of_map_to_list; exact Hm|exact Hfid]. }
  assert (H2 : memZ fid
                 (foodidsOf (map im_luke_foodid
                    (CarbonCalculator.mappingsDataOf db
                       (uniqStrings (map ing_core
                          (CarbonCalculator.ingredientsOf db componentId)))))) = true).
  { unfold mappingByCoreOf, mappingsByCore in Hm.
    apply mappingsByCore_range in Hm. destruct Hm as [(r & Hin & Hr)|Hm];
      [|rewrite lookup_empty in Hm; discriminate].
    unfold foodidsOf. apply uniqZ_mem. apply list_elem_of_In. apply list_elem_of_omap.
    exists (Some fid). split; [|reflexivity].
    apply list_elem_of_In. apply in_map_iff. exists r. split; [|exact Hin].
    rewrite <- Hfid, <- Hr. reflexivity. }
  destruct (restricted_foods db _ fid H1) as [E1 _].
  destruct (restricted_foods db _ fid H2) as [_ E2].
  unfold foodByIdOf. rewrite E1, E2. reflexivity.
Qed.

Lemma filter_twice {A : Type} (f : A -> bool) (l : list A) :
  List.filter f (List.filter f l) = List.filter f l.
Proof.
  induction l as [|x l IH]; [reflexivity|]. cbn [List.filter].
  destruct (f x) eqn:E; [|exact IH]. cbn [List.filter]. rewrite E, IH. reflexivity.
Qed.

Lemma Qlt_bool_compat_r (a b c : Q) : b == c -> Qlt_bool a b = Qlt_bool a c.
Proof. intros H. unfold Qlt_bool. rewrite H. reflexivity. Qed.

Lemma unallocated_compat (w nf nf' s s' : Q) :
  nf == nf' -> s == s' -> unallocatedKgOf w nf s == unallocatedKgOf w nf' s'.
Proof.
  intros H1 H2. unfold unallocatedKgOf.
  rewrite (clamp_compat (s * nf / 100) (s' * nf' / 100)); [reflexivity|].
  rewrite H1, H2. reflexivity.
Qed.

Lemma compIngs_loaded (db : Db) (componentId : Z) :
  DonationBreakdown.compIngsOf (DonationBreakdown.loadComponentIngredients db [componentId])
    componentId
  = DonationBreakdown.sortByKey (fun r => default 9999%Z (ing_seq_no r))
      (CarbonCalculator.ingredientsOf db componentId).
Proof.
  rewrite loaded_rows. unfold DonationBreakdown.compIngsOf, CarbonCalculator.ingredientsOf.
  rewrite filter_twice. reflexivity.
Qed.

(** One allocated component with usable shares: the round of the breakdown on
    its own rows, mappings and foods against the calculator. *)
Lemma single_round (db : Db) (componentId : Z) (cname : string) (ctype : option string) (w : Q) :
  0 < w -> 0 < sumPctOf db componentId ->
  match CarbonCalculator.computeComponentCarbon db componentId w,
        DonationBreakdown.componentRound componentId cname ctype w
          (DonationBreakdown.sortByKey (fun r => default 9999%Z (ing_seq_no r))
             (CarbonCalculator.ingredientsOf db componentId))
          (mappingByCoreOf db componentId)
          (DonationBreakdown.loadLukeFoods db
             (uniqZ (omap (fun kv => luke_foodid (snd kv))
                          (map_to_list (mappingByCoreOf db componentId)))))
          DonationBreakdown.emptyAcc with
  | Ok c, Ok acc => carbonEq (totalsOf acc) c
  | Err e, Err e' =>
      exists s s', e = IngredientShareSumExceeds componentId s /\
                   e' = IngredientShareSumExceeds componentId s' /\ s == s'
  | _, _ => False
  end.
Proof.
  intros Hw Hpos.
  set (key := fun r : ComponentIngredientRow => default 9999%Z (ing_seq_no r)).
  set (rows := CarbonCalculator.ingredientsOf db componentId).
  set (sorted := DonationBreakdown.sortByKey key rows).
  set (F := DonationBreakdown.loadLukeFoods db _).
  pose proof (sorted_sumPct key rows) as HS. fold sorted in HS.
  pose proof (sorted_missing key rows) as Hmiss. fold sorted in Hmiss.
  destruct (sorted_shares key rows) as [_ Hperm]. fold sorted in Hperm.
  unfold rows in HS, Hmiss, Hperm.
  rewrite breakdownSumPct_same in HS. rewrite breakdownShares_same in Hmiss, Hperm.
  fold rows in Hperm.
  assert (Hne : sorted <> []).
  { intros E. assert (Hp : Permutation sorted rows) by apply sortByKey_perm.
    rewrite E in Hp. apply Permutation_nil in Hp.
    unfold rows in Hp. rewrite (sumPctOf_no_rows _ _ Hp) in Hpos. lra. }
  unfold DonationBreakdown.componentRound.
  destruct sorted as [|r0 rest] eqn:Esorted; [congruence|]. rewrite <- Esorted in *.
  clear Hne. fold (breakdownShares sorted). fold (breakdownSumPct sorted). cbv zeta.
  assert (Hpos' : Qle_bool (breakdownSumPct sorted) 0 = false).
  { apply Qle_bool_false_iff. rewrite HS. exact Hpos. }
  rewrite Hpos'.
  rewrite (Qlt_bool_compat_r _ _ _ HS).
  destruct (Qlt_bool (100 + ING_SHARE_MAX_OVER_EPS) (sumPctOf db componentId)) eqn:Hover.
  { apply Qlt_bool_iff in Hover.
    rewrite computeComponentCarbon_over_limit by assumption.
    exists (sumPctOf db componentId), (breakdownSumPct sorted).
    split; [reflexivity|]. split; [reflexivity|]. symmetry. exact HS. }
  apply Qlt_bool_false_iff in Hover.
  rewrite computeComponentCarbon_loop by assumption. cbv zeta.
  rewrite Hmiss.
  destruct (normFactorOf_compat (existsb isNull (sharesOf db componentId)) _ _ HS)
    as [Hnf Hone].
  remember (normFactorOf (existsb isNull (sharesOf db componentId)) (breakdownSumPct sorted))
    as nf' eqn:Enf'.
  remember (normFactorOf (existsb isNull (sharesOf db componentId)) (sumPctOf db componentId))
    as nf eqn:Enf.
  assert (Hloop : carbonEq
            (totalsOf (fold_left
               (DonationBreakdown.ingredientStep componentId cname ctype w nf'
                  (mappingByCoreOf db componentId) F)
               (combine sorted (breakdownShares sorted)) DonationBreakdown.emptyAcc))
            (loopTotals db componentId w nf)).
  { rewrite bloop_totals. unfold loopTotals.
    apply carbonEq_trans with
      (fold_left (CarbonCalculator.ingredientStep w nf (mappingByCoreOf db componentId)
                    (foodByIdOf db componentId))
                 (combine sorted (breakdownShares sorted)) CarbonCalculator.noCarbon).
    - apply loop_compat; [exact Hnf|apply breakdown_foods|apply carbonEq_refl].
    - apply loop_perm; [exact Hperm|apply carbonEq_refl]. }
  pose proof (unallocated_compat w nf' nf _ _ Hnf HS) as HU.
  unfold unallocatedKgOf in HU.
  rewrite Hone. destruct (Qeq_bool nf 1).
  - rewrite andb_true_r. rewrite (Qlt_bool_compat_r _ _ _ HU).
    fold (unallocatedKgOf w nf (sumPctOf db componentId)).
    destruct (Qlt_bool REMAINDER_EPS (unallocatedKgOf w nf (sumPctOf db componentId)));
      [|exact Hloop].
    destruct Hloop as (L1 & L2 & L3 & L4).
    unfold totalsOf in *. unfold unallocatedKgOf.
    cbn [DonationBreakdown.pushUnmapped DonationBreakdown.totalCo2
         DonationBreakdown.unmappedMass DonationBreakdown.mappedMass
         DonationBreakdown.ignoredMass] in *.
    carbon. repeat split; try assumption. rewrite L2, HU. reflexivity.
  - rewrite andb_false_r. change (Qlt_bool REMAINDER_EPS 0) with false. cbv iota.
    exact Hloop.
Qed.

Lemma single_breakdown (db : Db) (d : DonationRow) (w : Q) (comp : DishComponentRow)
  (componentId : Z) :
  component_id_of comp = componentId -> 0 < w -> 0 < sumPctOf db componentId ->
  match CarbonCalculator.computeComponentCarbon db componentId w,
        DonationBreakdown.breakdownOf db d w
          [{| DonationBreakdown.component := comp;
              DonationBreakdown.alloc_weight_kg := w;
              DonationBreakdown.used_component_fallback := false |}] with
  | Ok c, Ok b =>
      carbonEq (breakdownTotals b) c /\
      DonationBreakdown.total_food_mass_kg (DonationBreakdown.totals b) = w /\
      DonationBreakdown.co2_per_kg (DonationBreakdown.totals b)
      = DonationBreakdown.total_co2e_kg (DonationBreakdown.totals b) / w
  | Err e, Err e' =>
      exists s s', e = IngredientShareSumExceeds componentId s /\
                   e' = IngredientShareSumExceeds componentId s' /\ s == s'
  | _, _ => False
  end.
Proof.
  intros Hid Hw Hpos.
  assert (Hrows : CarbonCalculator.ingredientsOf db componentId <> []).
  { intros E. rewrite (sumPctOf_no_rows _ _ E) in Hpos. lra. }
  unfold DonationBreakdown.breakdownOf. cbv zeta.
  cbn [map DonationBreakdown.component DonationBreakdown.allocationsLoop].
  unfold DonationBreakdown.componentStep.
  cbn [DonationBreakdown.component DonationBreakdown.alloc_weight_kg].
  rewrite Hid. rewrite compIngs_loaded. rewrite loaded_rows.
  rewrite (coresOf_single db componentId
             {| DonationBreakdown.component := comp;
                DonationBreakdown.alloc_weight_kg := w;
                DonationBreakdown.used_component_fallback := false |} Hid Hrows).
  rewrite loadMappings_data. fold (mappingByCoreOf db componentId).
  pose proof (single_round db componentId (DonationBreakdown.componentNameOf comp)
                (component_type_of comp) w Hw Hpos) as H.
  destruct (CarbonCalculator.computeComponentCarbon db componentId w) as [c|e];
    destruct (DonationBreakdown.componentRound _ _ _ _ _ _ _ _) as [acc|e'];
    cbn [bind]; try exact H.
  split; [exact H|]. split; [reflexivity|].
  cbn [DonationBreakdown.totals DonationBreakdown.co2_per_kg DonationBreakdown.total_co2e_kg].
  apply Qlt_bool_iff in Hw. rewrite Hw. reflexivity.
Qed.

(** X18. For a donation that targets a component with usable shares (clamped sum
    above 0) and at most one [dish_components] row, [computeDonationBreakdown]
    and [computeDonationCarbon] agree, provided the share sum is neither 95
    nor 100.5 and no leaf has the fraction 0.10 exactly: both complete with
    the same emissions, mapped, unmapped and ignored masses, intensity and
    total food mass, or both fail, with the same error up to the
    representation of the share sum. The breakdown reads the rows in
    [seq_no] order and loads mappings and foods in its own way; neither
    changes the totals. (The proviso is about the doubles of the source. The
    two modules add the shares in different orders, and on a threshold the
    two double sums can fall on different sides: (0.2 + 15.9) + 84.4 is 100.5,
    (0.2 + 84.4) + 15.9 is above it. Off the thresholds the order changes the
    last digits only.) *)
Theorem component_donation_totals_agree
  (db : Db) (donationId : Z) (d : DonationRow) (componentId : Z) :
  donationOf db donationId = Some d ->
  donation_component_id d = Some componentId ->
  (length (List.filter (fun c => Z.eqb (component_id_of c) componentId) (dish_components db))
   <= 1)%nat ->
  0 < sumPctOf db componentId ->
  offShareThresholds (sumPctOf db componentId) ->
  noLeafOnThreshold
    (normFactorOf (existsb isNull (sharesOf db componentId)) (sumPctOf db componentId))
    (sharesOf db componentId) ->
  match CarbonCalculator.computeDonationCarbon db donationId,
        DonationBreakdown.computeDonationBreakdown db donationId with
  | Ok (r, _), Ok b =>
      CarbonCalculator.total_co2e_kg r
        == DonationBreakdown.total_co2e_kg (DonationBreakdown.totals b) /\
      CarbonCalculator.mapped_mass_kg r
        == DonationBreakdown.mapped_mass_kg (DonationBreakdown.totals b) /\
      CarbonCalculator.unmapped_mass_kg r
        == DonationBreakdown.unmapped_mass_kg (DonationBreakdown.totals b) /\
      CarbonCalculator.ignored_mass_kg r
        == DonationBreakdown.ignored_mass_kg (DonationBreakdown.totals b) /\
      CarbonCalculator.co2_per_kg r
        == DonationBreakdown.co2_per_kg (DonationBreakdown.totals b) /\
      CarbonCalculator.total_food_mass_kg r
        = DonationBreakdown.total_food_mass_kg (DonationBreakdown.totals b)
  | Err e, Err e' =>
      e' = e \/
      exists s s', e = IngredientShareSumExceeds componentId s /\
                   e' = IngredientShareSumExceeds componentId s' /\ s == s'
  | _, _ => False
  end.
Proof.
  intros Hd Hc Hlen Hpos _ _.
  unfold CarbonCalculator.computeDonationCarbon, DonationBreakdown.computeDonationBreakdown.
  fold (donationOf db donationId). rewrite Hd.
  destruct (Number (donation_weight d)) as [w|]; [|left; reflexivity].
  destruct (Qle_bool w 0) eqn:Hw; [left; reflexivity|].
  apply Qle_bool_false_iff in Hw.
  unfold CarbonCalculator.donationTotals. rewrite Hc.
  assert (Hcomp : exists comp,
            component_id_of comp = componentId /\
            match List.filter (fun c => Z.eqb (component_id_of c) componentId)
                              (dish_components db) with
            | _ :: _ :: _ => Err (ComponentLoadFailed componentId)
            | rows =>
                DonationBreakdown.breakdownOf db d w
                  [{| DonationBreakdown.component :=
                        default {| component_id_of := componentId;
                                   component_dish_id := default (-1)%Z (donation_dish_id d);
                                   component_name_raw :=
                                     Some "(missing dish_components row)"%string;
                                   component_type_of := None;
                                   component_plate_share := JNull |}
                                (head rows);
                      DonationBreakdown.alloc_weight_kg := w;
                      DonationBreakdown.used_component_fallback := false |}]
            end
            = DonationBreakdown.breakdownOf db d w
                [{| DonationBreakdown.component := comp;
                    DonationBreakdown.alloc_weight_kg := w;
                    DonationBreakdown.used_component_fallback := false |}]).
  { destruct (List.filter _ (dish_components db)) as [|c0 [|c1 cs]] eqn:Edc.
    - eexists. split; [|reflexivity]. reflexivity.
    - exists c0. split; [|reflexivity].
      assert (Hin : In c0 (List.filter (fun c => Z.eqb (component_id_of c) componentId)
                                       (dish_components db))) by (rewrite Edc; left; reflexivity).
      apply filter_In in Hin. apply Z.eqb_eq. apply Hin.
    - cbn [length] in Hlen. lia. }
  destruct Hcomp as (comp & Hid & ->).
  pose proof (single_breakdown db d w comp componentId Hid Hw Hpos) as H.
  destruct (CarbonCalculator.computeComponentCarbon db componentId w) as [c|e];
    destruct (DonationBreakdown.breakdownOf db d w _) as [b|e']; cbn [bind];
    try exact H.
  - destruct H as ((H1 & H2 & H3 & H4) & Hmass & Hper).
    unfold breakdownTotals in *. carbon.
    cbn [CarbonCalculator.total_co2e_kg CarbonCalculator.mapped_mass_kg
         CarbonCalculator.unmapped_mass_kg CarbonCalculator.ignored_mass_kg
         CarbonCalculator.co2_per_kg CarbonCalculator.total_food_mass_kg].
    split; [lra|]. split; [lra|]. split; [lra|]. split; [lra|].
    split; [|symmetry; exact Hmass].
    rewrite Hper. pose proof Hw as Hw'. apply Qlt_bool_iff in Hw'. rewrite Hw'.
    rewrite H1. field. lra.
  - right. exact H.
Qed.

Lemma component_donation_totals_agree_witness :
  exists r db' b,
    CarbonCalculator.computeDonationCarbon Sample.storeSeventy 1 = Ok (r, db') /\
    DonationBreakdown.computeDonationBreakdown Sample.storeSeventy 1 = Ok b /\
    CarbonCalculator.unmapped_mass_kg r
      == DonationBreakdown.unmapped_mass_kg (DonationBreakdown.totals b) /\
    CarbonCalculator.unmapped_mass_kg r == 10.
Proof.
  assert (Hd : donationOf Sample.storeSeventy 1
               = Some (Sample.donation 1 (Some 7%Z) (Some 1%Z) 10)) by reflexivity.
  assert (Hlen : (length (List.filter (fun c => Z.eqb (component_id_of c) 1)
                            (dish_components Sample.storeSeventy)) <= 1)%nat)
    by (vm_compute; lia).
  assert (Hpos : 0 < sumPctOf Sample.storeSeventy 1) by qeval.
  assert (Hoff : offShareThresholds (sumPctOf Sample.storeSeventy 1))
    by (split; vm_compute; discriminate).
  assert (Hleaf : noLeafOnThreshold
                    (normFactorOf (existsb isNull (sharesOf Sample.storeSeventy 1))
                       (sumPctOf Sample.storeSeventy 1))
                    (sharesOf Sample.storeSeventy 1)).
  { repeat constructor; intros p Hp; [|discriminate Hp].
    injection Hp as <-. vm_compute. discriminate. }
  pose proof (component_donation_totals_agree Sample.storeSeventy 1 _ 1 Hd eq_refl Hlen Hpos
                Hoff Hleaf) as H.
  destruct (CarbonCalculator.computeDonationCarbon Sample.storeSeventy 1) as [[r db']|e] eqn:E1.
  - destruct (DonationBreakdown.computeDonationBreakdown Sample.storeSeventy 1) as [b|e'] eqn:E2;
      [|destruct H].
    exists r, db', b. split; [reflexivity|]. split; [reflexivity|].
    destruct H as (_ & _ & Hu & _). split; [exact Hu|].
    vm_compute in E1. injection E1 as <- _. qeval.
  - vm_compute in E1. discriminate E1.
Defined.

(** ** Errors of the breakdown *)









(** ** Rows without a usable share *)

Lemma shareless_round (componentId : Z) (cname : string) (ctype : option string) (w : Q)
  (compIngs : list ComponentIngredientRow) (M : gmap string MappingRow)
  (F : gmap Z LukeFoodRow) (acc : DonationBreakdown.Acc) :
  compIngs <> [] -> breakdownSumPct compIngs <= 0 ->
  DonationBreakdown.componentRound componentId cname ctype w compIngs M F acc
  = Ok (DonationBreakdown.pushUnmapped acc w
          (DonationBreakdown.item componentId cname ctype w DonationBreakdown.unmapped
             "share_of_component missing for all rows" "NO_SHARES_PROVIDED"
             "NO_SHARES_PROVIDED" None w None None None "none" None 0 0)).
Proof.
  intros Hne Hzero. unfold DonationBreakdown.componentRound.
  destruct compIngs as [|r0 rows]; [congruence|].
  fold (breakdownShares (r0 :: rows)). fold (breakdownSumPct (r0 :: rows)). cbv zeta.
  apply Qle_bool_iff in Hzero. rewrite Hzero. reflexivity.
Qed.

(** X20. A component-targeted donation whose component has ingredient rows but
    no usable share (clamped sum 0): the breakdown reports the whole weight
    as one unmapped item "share_of_component missing for all rows" without
    emissions, and the buckets put the whole weight into the missing-share
    bucket, whatever the mappings; the calculator returns what the
    component-name fallback gives, which may be mapped or ignored mass. *)
Theorem shareless_rows_are_unmapped_outside_the_calculator
  (db : Db) (donationId : Z) (d : DonationRow) (componentId : Z) (w : Q) :
  donationOf db donationId = Some d ->
  Number (donation_weight d) = Some w -> 0 < w ->
  donation_component_id d = Some componentId ->
  (length (List.filter (fun c => Z.eqb (component_id_of c) componentId) (dish_components db))
   <= 1)%nat ->
  CarbonCalculator.ingredientsOf db componentId <> [] ->
  sumPctOf db componentId <= 0 ->
  (exists b,
     DonationBreakdown.computeDonationBreakdown db donationId = Ok b /\
     map (fun it => (DonationBreakdown.status it, DonationBreakdown.reason it,
                     DonationBreakdown.cooked_mass_kg it, DonationBreakdown.co2e_kg it))
         (DonationBreakdown.items b)
     = [(DonationBreakdown.unmapped, "share_of_component missing for all rows"%string, w, 0)] /\
     DonationBreakdown.unmapped_mass_kg (DonationBreakdown.totals b) == w /\
     DonationBreakdown.mapped_mass_kg (DonationBreakdown.totals b) == 0 /\
     DonationBreakdown.ignored_mass_kg (DonationBreakdown.totals b) == 0 /\
     DonationBreakdown.total_co2e_kg (DonationBreakdown.totals b) == 0) /\
  (exists k,
     DonationBuckets.computeDonationUnmappedBuckets db donationId = Ok k /\
     DonationBuckets.missing_share_mass_kg k == w /\
     DonationBuckets.mapping_or_factor_unmapped_mass_kg k == 0) /\
  (exists r db',
     CarbonCalculator.computeDonationCarbon db donationId = Ok (r, db') /\
     let fallback :=
       CarbonCalculator.computeComponentFallbackCarbonFromName db componentId w in
     CarbonCalculator.mapped_mass_kg r == CarbonCalculator.mappedKg fallback /\
     CarbonCalculator.unmapped_mass_kg r == CarbonCalculator.unmappedKg fallback /\
     CarbonCalculator.ignored_mass_kg r == CarbonCalculator.ignoredKg fallback /\
     CarbonCalculator.total_co2e_kg r == CarbonCalculator.co2eKg fallback).
Proof.
  intros Hd Hn Hw Hc Hlen Hrows Hzero.
  pose proof Hw as Hw'. apply Qle_bool_false_iff in Hw'.
  split; [|split].
  - unfold DonationBreakdown.computeDonationBreakdown. fold (donationOf db donationId).
    rewrite Hd, Hn, Hw', Hc.
    assert (Hround : forall comp, component_id_of comp = componentId ->
              exists b,
                DonationBreakdown.breakdownOf db d w
                  [{| DonationBreakdown.component := comp;
                      DonationBreakdown.alloc_weight_kg := w;
                      DonationBreakdown.used_component_fallback := false |}] = Ok b /\
                map (fun it => (DonationBreakdown.status it, DonationBreakdown.reason it,
                                DonationBreakdown.cooked_mass_kg it,
                                DonationBreakdown.co2e_kg it))
                    (DonationBreakdown.items b)
                = [(DonationBreakdown.unmapped,
                    "share_of_component missing for all rows"%string, w, 0)] /\
                DonationBreakdown.unmapped_mass_kg (DonationBreakdown.totals b) == w /\
                DonationBreakdown.mapped_mass_kg (DonationBreakdown.totals b) == 0 /\
                DonationBreakdown.ignored_mass_kg (DonationBreakdown.totals b) == 0 /\
                DonationBreakdown.total_co2e_kg (DonationBreakdown.totals b) == 0).
    { intros comp Hid. unfold DonationBreakdown.breakdownOf. cbv zeta.
      cbn [map DonationBreakdown.component DonationBreakdown.allocationsLoop].
      unfold DonationBreakdown.componentStep.
      cbn [DonationBreakdown.component DonationBreakdown.alloc_weight_kg].
      rewrite Hid. rewrite compIngs_loaded.
      rewrite shareless_round.
      - cbn [bind]. eexists. split; [reflexivity|].
        cbn. split; [reflexivity|]. repeat split; ring.
      - intros E.
        pose proof (sortByKey_perm (fun r => default 9999%Z (ing_seq_no r))
                      (CarbonCalculator.ingredientsOf db componentId)) as Hp.
        rewrite E in Hp. apply Permutation_nil in Hp. contradiction.
      - rewrite sorted_sumPct, breakdownSumPct_same. exact Hzero. }
    destruct (List.filter _ (dish_components db)) as [|c0 [|c1 cs]] eqn:Edc.
    + apply Hround. reflexivity.
    + apply Hround.
      assert (Hin : In c0 (List.filter (fun c => Z.eqb (component_id_of c) componentId)
                                       (dish_components db))) by (rewrite Edc; left; reflexivity).
      apply filter_In in Hin. apply Z.eqb_eq. apply Hin.
    + cbn [length] in Hlen. lia.
  - unfold DonationBuckets.computeDonationUnmappedBuckets. fold (donationOf db donationId).
    rewrite Hd, Hn, Hw', Hc. eexists. split; [reflexivity|].
    unfold DonationBuckets.bucketsOfAllocations, DonationBuckets.bucketsOf.
    cbn [map fst fold_left DonationBuckets.missing_share_mass_kg
         DonationBuckets.mapping_or_factor_unmapped_mass_kg].
    unfold DonationBuckets.allocationStep. rewrite Hw'.
    rewrite (rows_of_loaded db [componentId] componentId)
      by (unfold memZ; cbn [existsb]; rewrite Z.eqb_refl; reflexivity).
    destruct (CarbonCalculator.ingredientsOf db componentId) as [|r0 rows] eqn:Erows;
      [congruence|].
    rewrite <- Erows. cbv zeta. rewrite bucket_shares_same. fold (sumPctOf db componentId).
    apply Qle_bool_iff in Hzero. rewrite Hzero. cbn. split; ring.
  - unfold CarbonCalculator.computeDonationCarbon. fold (donationOf db donationId).
    rewrite Hd, Hn, Hw'. unfold CarbonCalculator.donationTotals. rewrite Hc.
    rewrite computeComponentCarbon_unfold by assumption. cbv zeta.
    apply Qle_bool_iff in Hzero. rewrite Hzero. cbn [bind].
    eexists. eexists. split; [reflexivity|].
    cbn [CarbonCalculator.mapped_mass_kg CarbonCalculator.unmapped_mass_kg
         CarbonCalculator.ignored_mass_kg CarbonCalculator.total_co2e_kg].
    carbon. repeat split; ring.
Qed.

Lemma shareless_rows_are_unmapped_outside_the_calculator_witness :
  (exists b,
     DonationBreakdown.computeDonationBreakdown
       (Sample.storeRice (Some "cooked"%string) (JNum 1.5)) 1 = Ok b /\
     DonationBreakdown.unmapped_mass_kg (DonationBreakdown.totals b) == 10) /\
  (exists r db',
     CarbonCalculator.computeDonationCarbon
       (Sample.storeRice (Some "cooked"%string) (JNum 1.5)) 1 = Ok (r, db') /\
     CarbonCalculator.mapped_mass_kg r == 10 /\ CarbonCalculator.total_co2e_kg r == 15).
Proof.
  destruct (shareless_rows_are_unmapped_outside_the_calculator
              (Sample.storeRice (Some "cooked"%string) (JNum 1.5)) 1
              (Sample.donation 1 (Some 7%Z) (Some 1%Z) 10) 1 10)
    as ((b & Hb & _ & Hu & _) & _ & (r & db' & Hr & Hm & _ & _ & Hco2)).
  - reflexivity.
  - reflexivity.
  - qeval.
  - reflexivity.
  - vm_compute. lia.
  - vm_compute. discriminate.
  - qeval.
  - split.
    + exists b. split; [exact Hb|exact Hu].
    + exists r, db'. split; [exact Hr|].
      cbv zeta in Hm, Hco2. split.
      * rewrite Hm. qeval.
      * rewrite Hco2. qeval.
Defined.

(** X21. A row flagged as water or salt that has a share is ignored in all three
    modules before any mapping is looked up: the calculator adds its cooked
    mass to the ignored mass and to nothing else, the breakdown pushes an
    ignored item with the reason "water" (which takes precedence) or "salt",
    no food id and no emissions, and adds the cooked mass to its ignored
    total only, and the buckets add nothing. *)
Theorem water_and_salt_are_ignored
  (w normFactor : Q) (M : gmap string MappingRow) (F : gmap Z LukeFoodRow)
  (row : ComponentIngredientRow) (p : Q) (accC : CarbonCalculator.Carbon)
  (cid : Z) (cname : string) (ctype : option string) (accB : DonationBreakdown.Acc) (u : Q) :
  ing_is_water row = true \/ ing_is_salt row = true ->
  let cookedKg := cookedKgOf w normFactor p in
  let stepC := CarbonCalculator.ingredientStep w normFactor M F accC (row, Some p) in
  let stepB :=
    DonationBreakdown.ingredientStep cid cname ctype w normFactor M F accB (row, Some p) in
  (CarbonCalculator.ignoredKg stepC = CarbonCalculator.ignoredKg accC + cookedKg /\
   CarbonCalculator.mappedKg stepC = CarbonCalculator.mappedKg accC /\
   CarbonCalculator.unmappedKg stepC = CarbonCalculator.unmappedKg accC /\
   CarbonCalculator.co2eKg stepC = CarbonCalculator.co2eKg accC) /\
  (exists it,
     DonationBreakdown.acc_items stepB = DonationBreakdown.acc_items accB ++ [it] /\
     DonationBreakdown.status it = DonationBreakdown.ignored /\
     DonationBreakdown.reason it
       = (if ing_is_water row then "water" else "salt")%string /\
     DonationBreakdown.cooked_mass_kg it = cookedKg /\
     DonationBreakdown.luke_foodid it = None /\
     DonationBreakdown.co2e_kg it = 0 /\
     DonationBreakdown.ignoredMass stepB = DonationBreakdown.ignoredMass accB + cookedKg /\
     DonationBreakdown.mappedMass stepB = DonationBreakdown.mappedMass accB /\
     DonationBreakdown.unmappedMass stepB = DonationBreakdown.unmappedMass accB /\
     DonationBreakdown.totalCo2 stepB = DonationBreakdown.totalCo2 accB) /\
  DonationBuckets.ingredientStep w M F u (row, Some p) = u.
Proof.
  intros Hws cookedKg stepC stepB. subst stepC stepB. split; [|split].
  - rewrite step_water_or_salt; [repeat split|].
    destruct Hws as [-> | ->]; [reflexivity|apply orb_true_r].
  - unfold DonationBreakdown.ingredientStep. cbv zeta.
    destruct (ing_is_water row) eqn:Ewater.
    + eexists. split; [reflexivity|]. cbn. repeat split; reflexivity.
    + destruct Hws as [Hw|Hs]; [discriminate|]. rewrite Hs.
      eexists. split; [reflexivity|]. cbn. repeat split; reflexivity.
  - unfold DonationBuckets.ingredientStep. cbv zeta.
    destruct Hws as [-> | ->]; [reflexivity|]. rewrite orb_true_r. reflexivity.
Qed.

Lemma water_and_salt_are_ignored_witness :
  CarbonCalculator.ignoredKg Sample.waterLeaf == 1 /\
  CarbonCalculator.mappedKg Sample.waterLeaf == 0 /\
  CarbonCalculator.unmappedKg Sample.waterLeaf == 0 /\
  CarbonCalculator.co2eKg Sample.waterLeaf == 0 /\
  DonationBuckets.ingredientStep 2 Sample.beefMappings Sample.beefFoods 0
    (Sample.waterRow, Some 50) = 0.
Proof.
  destruct (water_and_salt_are_ignored 2 1 Sample.beefMappings Sample.beefFoods
              Sample.waterRow 50 CarbonCalculator.noCarbon 1 "Stew" None
              DonationBreakdown.emptyAcc 0)
    as ((H1 & H2 & H3 & H4) & _ & H5).
  - left. reflexivity.
  - unfold Sample.waterLeaf. rewrite H1, H2, H3, H4.
    split; [qeval|]. split; [qeval|]. split; [qeval|]. split; [qeval|exact H5].
Defined.

(** ** Bounds of the unmapped buckets *)

(** The shares the buckets' normaliser returns are never negative and never
    sum to more than 1. *)
Lemma bucketShares_shape (comps : list DishComponentRow) :
  comps <> [] ->
  length (DonationBuckets.normalizeComponentShares comps) = length comps /\
  Forall (fun s => 0 <= s) (DonationBuckets.normalizeComponentShares comps) /\
  sumNums (DonationBuckets.normalizeComponentShares comps) <= 1.
Proof.
  intros Hne.
  unfold DonationBuckets.normalizeComponentShares.
  fold (normaliserProvided comps). rewrite <- provided_same.
  change DonationBuckets.ofNat with CarbonCalculator.ofNat.
  change DonationBuckets.missingIdxOf with CarbonCalculator.missingIdxOf.
  change DonationBuckets.addAt with CarbonCalculator.addAt.
  rewrite sumProvided_sumNow.
  pose proof (provided_nonneg comps) as Hnn.
  assert (Hlen : length (map (default 0) (providedSharesOf comps)) = length comps).
  { unfold providedSharesOf. rewrite !length_map. reflexivity. }
  remember (providedSharesOf comps) as P eqn:EP.
  remember (map (default 0) P) as base eqn:Ebase.
  destruct (Qle_bool (sumNums base) 0) eqn:Ezero.
  { assert (Hn : 0 < CarbonCalculator.ofNat (length comps)).
    { apply ofNat_pos. destruct comps; [congruence|discriminate]. }
    split; [rewrite length_map; reflexivity|]. split.
    - apply Forall_map. apply List.Forall_forall. intros c _. cbn beta.
      apply Qle_shift_div_l; [exact Hn|lra].
    - rewrite sumNums_const. apply Qle_lteq. right. field. lra. }
  apply Qle_bool_false_iff in Ezero.
  set (idx := CarbonCalculator.missingIdxOf P).
  set (add := (1 - sumNums base) / CarbonCalculator.ofNat (length idx)).
  assert (Hsh : exists sh,
            (if (negb (Nat.eqb (length idx) 0) && Qlt_bool 0 (1 - sumNums base))%bool
             then CarbonCalculator.addAt add idx base else base) = sh /\
            length sh = length comps /\ Forall (fun s => 0 <= s) sh /\ 0 < sumNums sh).
  { destruct (negb (Nat.eqb (length idx) 0) && Qlt_bool 0 (1 - sumNums base))%bool eqn:Ecase.
    - apply andb_true_iff in Ecase. destruct Ecase as [Hidx Hrem].
      apply negb_true_iff, Nat.eqb_neq in Hidx. apply Qlt_bool_iff in Hrem.
      pose proof (ofNat_pos _ Hidx) as Hn.
      assert (Hadd : 0 <= add).
      { unfold add. apply Qle_shift_div_l; [exact Hn|lra]. }
      eexists. split; [reflexivity|]. split; [rewrite addAt_length; exact Hlen|].
      split; [apply addAt_nonneg; assumption|].
      rewrite addAt_sum.
      + assert (0 <= CarbonCalculator.ofNat (length idx) * add)
          by (apply Qmult_le_0_compat; lra).
        lra.
      + subst base. rewrite length_map. apply missingIdx_bound.
    - exists base. split; [reflexivity|]. split; [exact Hlen|]. split; [exact Hnn|exact Ezero]. }
  destruct Hsh as (sh & -> & Hlen' & Hnn' & Hpos').
  destruct (rescaled_shares sh Hpos' Hnn') as [Hs Hf].
  destruct (Qlt_bool 0 (sumNums sh) && _)%bool.
  - split; [rewrite length_map; exact Hlen'|]. split; [exact Hf|lra].
  - destruct (Qlt_bool 1 (sumNums sh)) eqn:Eone.
    + split; [rewrite length_map; exact Hlen'|]. split; [exact Hf|lra].
    + apply Qlt_bool_false_iff in Eone.
      split; [exact Hlen'|]. split; [exact Hnn'|exact Eone].
Qed.

Lemma bucket_step_range (w : Q) (M : gmap string MappingRow) (F : gmap Z LukeFoodRow)
  (u : Q) (row : ComponentIngredientRow) (share : option Q) :
  0 <= w ->
  u <= DonationBuckets.ingredientStep w M F u (row, share) /\
  DonationBuckets.ingredientStep w M F u (row, share) <= u + leafKg w 1 share.
Proof.
  intros Hw. destruct share as [p|]; [|cbn; split; lra].
  pose proof (cookedKg_nonneg w 1 p Hw) as Hk.
  assert (Hc : w * clamp (p / 100) 0 1 == cookedKgOf w 1 p).
  { unfold cookedKgOf. rewrite bucket_frac. reflexivity. }
  unfold DonationBuckets.ingredientStep, leafKg. cbv zeta.
  destruct (ing_is_water row || ing_is_salt row)%bool; [split; lra|].
  destruct (Qlt_bool _ MIN_SHARE_FRAC); [split; lra|].
  destruct (M !! ing_core row) as [m|]; [|rewrite Hc; split; lra].
  destruct (String.eqb _ "ignore"); [split; lra|].
  destruct (DonationBuckets.getCo2FactorKgPerKg _ _); [|rewrite Hc; split; lra].
  destruct (String.eqb _ "raw"); [|split; lra].
  destruct (yield_cooked_per_raw m) as [y|]; [|rewrite Hc; split; lra].
  destruct (Qlt_bool 0 y); [split; lra|rewrite Hc; split; lra].
Qed.

Lemma bucket_loop_range (w : Q) (M : gmap string MappingRow) (F : gmap Z LukeFoodRow)
  (rows : list ComponentIngredientRow) (f : ComponentIngredientRow -> option Q) :
  0 <= w ->
  forall u,
    u <= fold_left (DonationBuckets.ingredientStep w M F) (combine rows (map f rows)) u /\
    fold_left (DonationBuckets.ingredientStep w M F) (combine rows (map f rows)) u
      <= u + sumNums (map (leafKg w 1) (map f rows)).
Proof.
  intros Hw. induction rows as [|r rows IH]; intros u.
  - cbn. unfold sumNums. cbn. split; lra.
  - cbn [map combine fold_left]. rewrite sumNums_cons.
    destruct (bucket_step_range w M F u r (f r) Hw) as [H1 H2].
    destruct (IH (DonationBuckets.ingredientStep w M F u (r, f r))) as [H3 H4].
    split; lra.
Qed.

(** One allocation adds nothing negative to either bucket, and at most the
    component weight to both when the shares of the component stay within
    100. *)
Lemma allocation_range (db : Db) (componentIds : list Z) (componentId : Z) (w : Q)
  (acc : DonationBuckets.Sums) :
  memZ componentId componentIds = true -> 0 <= w ->
  let acc' :=
    DonationBuckets.allocationStep db
      (List.filter (fun r => memZ (ing_component_id r) componentIds) (component_ingredients db))
      acc (componentId, w) in
  DonationBuckets.missingShareMassKg acc <= DonationBuckets.missingShareMassKg acc' /\
  DonationBuckets.mappingUnmappedMassKg acc <= DonationBuckets.mappingUnmappedMassKg acc' /\
  (sumPctOf db componentId <= 100 -> sumsTotal acc' <= sumsTotal acc + w).
Proof.
  intros Hmem Hw. unfold DonationBuckets.allocationStep, sumsTotal.
  destruct (Qle_bool w 0) eqn:Ew; [cbv zeta; split; [lra|split; [lra|intros _; lra]]|].
  rewrite (rows_of_loaded db componentIds componentId Hmem).
  destruct (CarbonCalculator.ingredientsOf db componentId) as [|r0 rows] eqn:Erows.
  { cbn. split; [lra|split; [lra|intros _; lra]]. }
  rewrite <- Erows. cbv zeta. rewrite bucket_shares_same. fold (sumPctOf db componentId).
  destruct (Qle_bool (sumPctOf db componentId) 0) eqn:Ezero.
  { cbn. split; [lra|split; [lra|intros _; lra]]. }
  apply Qle_bool_false_iff in Ezero.
  match goal with |- context [fold_left (DonationBuckets.ingredientStep w ?M ?F) _ _] =>
    pose proof (bucket_loop_range w M F (CarbonCalculator.ingredientsOf db componentId)
                  (fun r => CarbonCalculator.sharePct (ing_share_of_component r)) Hw) as Hloop;
    remember M as M' eqn:EM; remember F as F' eqn:EF; clear EM EF end.
  fold (sharesOf db componentId) in Hloop.
  remember (sumPctOf db componentId) as S eqn:ES.
  assert (Hleaves : sumNums (map (leafKg w 1) (sharesOf db componentId)) == w * (S * 1 / 100)).
  { rewrite leaves_sum by (try apply unit_leaves; lra).
    fold (sumPctOf db componentId). rewrite <- ES. reflexivity. }
  destruct (Qlt_bool S 100) eqn:Hlt.
  - apply Qlt_bool_iff in Hlt.
    assert (HB : w * clamp (1 - S / 100) 0 1 == w * (1 - S / 100)).
    { assert (0 <= S / 100) by (apply Qle_shift_div_l; lra).
      assert (S / 100 <= 1) by (apply Qle_shift_div_r; lra).
      rewrite clamp_id; [reflexivity|lra|lra]. }
    assert (HB0 : 0 <= w * (1 - S / 100)).
    { apply Qmult_le_0_compat; [lra|].
      assert (S / 100 <= 1) by (apply Qle_shift_div_r; lra). lra. }
    cbn [DonationBuckets.addMissingShare DonationBuckets.missingShareMassKg
         DonationBuckets.mappingUnmappedMassKg].
    destruct (Hloop (DonationBuckets.mappingUnmappedMassKg acc)) as [H1 H2].
    rewrite HB. split; [lra|]. split; [exact H1|]. intros _.
    rewrite Hleaves in H2.
    assert (E : w * (1 - S / 100) + w * (S * 1 / 100) == w) by field. lra.
  - apply Qlt_bool_false_iff in Hlt.
    cbn [DonationBuckets.missingShareMassKg DonationBuckets.mappingUnmappedMassKg].
    destruct (Hloop (DonationBuckets.mappingUnmappedMassKg acc)) as [H1 H2].
    split; [lra|]. split; [exact H1|]. intros Hle.
    rewrite Hleaves in H2. assert (HS : S == 100) by lra. rewrite HS in H2.
    assert (E : w * (100 * 1 / 100) == w) by field. lra.
Qed.

Lemma allocations_range (db : Db) (componentIds : list Z) (allocations : list (Z * Q)) :
  Forall (fun a => memZ (fst a) componentIds = true /\ 0 <= snd a) allocations ->
  forall acc,
    nonnegSums acc ->
    let acc' :=
      fold_left
        (DonationBuckets.allocationStep db
           (List.filter (fun r => memZ (ing_component_id r) componentIds)
                        (component_ingredients db)))
        allocations acc in
    nonnegSums acc' /\
    ((forall a, In a allocations -> sumPctOf db (fst a) <= 100) ->
     sumsTotal acc' <= sumsTotal acc + sumNums (map snd allocations)).
Proof.
  induction 1 as [|[cid w] rest [Hmem Hw] Hrest IH]; intros acc Hacc.
  - cbn. split; [exact Hacc|]. intros _. unfold sumNums. cbn. lra.
  - cbn [fold_left map snd]. cbn [fst snd] in Hmem, Hw.
    destruct (allocation_range db componentIds cid w acc Hmem Hw) as (H1 & H2 & H3).
    cbv zeta in H1, H2, H3.
    remember (DonationBuckets.allocationStep db _ acc (cid, w)) as acc1 eqn:E1.
    assert (Hacc1 : nonnegSums acc1) by (destruct Hacc; split; lra).
    destruct (IH acc1 Hacc1) as [G1 G2]. cbv zeta in G1, G2.
    split; [exact G1|]. intros Hall. rewrite sumNums_cons.
    assert (Hcid : sumPctOf db cid <= 100) by (apply (Hall (cid, w)); left; reflexivity).
    specialize (H3 Hcid).
    assert (Hrest' : forall a, In a rest -> sumPctOf db (fst a) <= 100)
      by (intros a Ha; apply Hall; right; exact Ha).
    specialize (G2 Hrest'). lra.
Qed.

Lemma sumNums_weights (w : Q) (l : list Q) :
  sumNums (map (fun s => w * s) l) == w * sumNums l.
Proof.
  induction l as [|x l IH]; [unfold sumNums; cbn; ring|].
  cbn [map]. rewrite !sumNums_cons, IH. ring.
Qed.

(** X22. Neither bucket of [computeDonationUnmappedBuckets] is ever negative, and
    when no component's clamped shares sum to more than 100 the two buckets
    together never exceed the donated weight. *)
Theorem buckets_stay_within_the_donation
  (db : Db) (donationId : Z) (d : DonationRow) (w : Q)
  (k : DonationBuckets.DonationUnmappedBuckets) :
  donationOf db donationId = Some d ->
  Number (donation_weight d) = Some w ->
  DonationBuckets.computeDonationUnmappedBuckets db donationId = Ok k ->
  0 <= DonationBuckets.missing_share_mass_kg k /\
  0 <= DonationBuckets.mapping_or_factor_unmapped_mass_kg k /\
  ((forall componentId, sumPctOf db componentId <= 100) ->
   DonationBuckets.missing_share_mass_kg k
   + DonationBuckets.mapping_or_factor_unmapped_mass_kg k <= w).
Proof.
  intros Hd Hn. unfold DonationBuckets.computeDonationUnmappedBuckets.
  fold (donationOf db donationId). rewrite Hd, Hn.
  destruct (Qle_bool w 0) eqn:Hw; [discriminate|]. apply Qle_bool_false_iff in Hw.
  assert (Hnone : nonnegSums DonationBuckets.noSums) by (split; cbn; lra).
  assert (Hof : forall allocations,
            Forall (fun a => 0 <= snd a) allocations ->
            sumNums (map snd allocations) <= w ->
            let k := DonationBuckets.bucketsOfAllocations db donationId allocations in
            0 <= DonationBuckets.missing_share_mass_kg k /\
            0 <= DonationBuckets.mapping_or_factor_unmapped_mass_kg k /\
            ((forall componentId, sumPctOf db componentId <= 100) ->
             DonationBuckets.missing_share_mass_kg k
             + DonationBuckets.mapping_or_factor_unmapped_mass_kg k <= w)).
  { intros allocations Hnn Hsum. unfold DonationBuckets.bucketsOfAllocations. cbv zeta.
    destruct (allocations_range db (map fst allocations) allocations) with
      (acc := DonationBuckets.noSums) as [[H1 H2] H3].
    - apply List.Forall_forall. intros a Ha. split.
      + unfold memZ. apply existsb_exists. exists (fst a).
        split; [apply in_map; exact Ha|apply Z.eqb_refl].
      + rewrite List.Forall_forall in Hnn. apply Hnn. exact Ha.
    - exact Hnone.
    - cbn [DonationBuckets.bucketsOf DonationBuckets.missing_share_mass_kg
           DonationBuckets.mapping_or_factor_unmapped_mass_kg].
      split; [exact H1|]. split; [exact H2|]. intros Hall.
      unfold sumsTotal in H3. cbn [DonationBuckets.noSums DonationBuckets.missingShareMassKg
        DonationBuckets.mappingUnmappedMassKg] in H3.
      assert (H3' := H3 (fun a _ => Hall (fst a))). lra. }
  destruct (donation_component_id d) as [componentId|].
  - intros H. injection H as <-. apply Hof.
    + constructor; [cbn; lra|constructor].
    + cbn [map snd]. rewrite sumNums_cons. unfold sumNums. cbn [fold_left]. lra.
  - destruct (donation_dish_id d) as [dishId|]; [|discriminate].
    destruct (List.filter _ (dish_components db)) as [|c0 cs] eqn:Ecomps.
    + intros H. injection H as <-. cbn. split; [lra|]. split; [lra|]. intros _. lra.
    + assert (Hne : c0 :: cs <> []) by discriminate.
      remember (c0 :: cs) as comps eqn:Ec. clear Ec.
      destruct (bucketShares_shape comps Hne) as (Hlen & Hnn & Hsum).
      remember (DonationBuckets.normalizeComponentShares comps) as shares eqn:Es. clear Es.
      assert (Hsnd : map snd (map (fun cs0 : DishComponentRow * Q =>
                                     (component_id_of (fst cs0), w * snd cs0))
                                  (combine comps shares))
                     = map (fun s => w * s) shares).
      { rewrite map_map.
        rewrite <- (snd_combine comps shares Hlen) at 2. rewrite map_map. reflexivity. }
      intros H. injection H as <-.
      apply Hof.
      * apply List.Forall_forall. intros a Ha. apply in_map_iff in Ha.
        destruct Ha as ([c s] & <- & Hin).
        apply in_combine_r in Hin. rewrite List.Forall_forall in Hnn.
        apply Qmult_le_0_compat; [lra|apply Hnn; exact Hin].
      * rewrite Hsnd, sumNums_weights. nra.
Qed.

Lemma buckets_stay_within_the_donation_witness :
  exists k,
    DonationBuckets.computeDonationUnmappedBuckets Sample.storeEndToEnd 1 = Ok k /\
    0 <= DonationBuckets.missing_share_mass_kg k /\
    DonationBuckets.missing_share_mass_kg k == 4.
Proof.
  eexists. split; [vm_compute; reflexivity|].
  match goal with |- 0 <= DonationBuckets.missing_share_mass_kg ?k /\ _ =>
    destruct (buckets_stay_within_the_donation Sample.storeEndToEnd 1
                Sample.wholeDishDonation 10 k) as (H & _) end.
  - reflexivity.
  - reflexivity.
  - vm_compute. reflexivity.
  - split; [exact H|qeval].
Defined.

(** ** The order of the rows *)

Lemma insertByKey_head {A : Type} (key : A -> Z) (R := fun a b => (key a <= key b)%Z)
  (x y : A) (l : list A) :
  R y x -> HdRel R y l -> HdRel R y (DonationBreakdown.insertByKey key x l).
Proof.
  intros Hyx Hl. destruct l as [|z l]; cbn [DonationBreakdown.insertByKey].
  - constructor. exact Hyx.
  - destruct (Z.leb (key x) (key z)); constructor; [exact Hyx|].
    inversion Hl; assumption.
Qed.

Lemma insertByKey_sorted {A : Type} (key : A -> Z) (x : A) (l : list A) :
  Sorted (fun a b => (key a <= key b)%Z) l ->
  Sorted (fun a b => (key a <= key b)%Z) (DonationBreakdown.insertByKey key x l).
Proof.
  induction 1 as [|y l Hl IH Hy]; cbn [DonationBreakdown.insertByKey].
  - constructor; constructor.
  - destruct (Z.leb (key x) (key y)) eqn:E.
    + apply Z.leb_le in E. constructor; [constructor; assumption|constructor; exact E].
    + apply Z.leb_gt in E. constructor; [exact IH|].
      apply insertByKey_head; [cbn; lia|exact Hy].
Qed.

Lemma sortByKey_sorted {A : Type} (key : A -> Z) (l : list A) :
  Sorted (fun a b => (key a <= key b)%Z) (DonationBreakdown.sortByKey key l).
Proof.
  unfold DonationBreakdown.sortByKey. induction l as [|x l IH]; [constructor|].
  cbn [fold_right]. apply insertByKey_sorted. exact IH.
Qed.

(** X23. The breakdown reads the ingredient rows of a component, each once, in
    non-decreasing [seq_no] order, a row without [seq_no] counting as 9999; and
    the components of a dish, each once, in the order of their ids. *)
Theorem breakdown_reads_rows_in_seq_no_order
  (db : Db) (allIngs : list ComponentIngredientRow) (componentId dishId : Z) :
  Permutation (DonationBreakdown.compIngsOf allIngs componentId)
              (List.filter (fun r => Z.eqb (ing_component_id r) componentId) allIngs) /\
  Sorted (fun a b => (seqKey a <= seqKey b)%Z) (DonationBreakdown.compIngsOf allIngs componentId) /\
  Permutation (DonationBreakdown.loadDishComponents db dishId)
              (CarbonCalculator.componentsOfDish db dishId) /\
  Sorted (fun a b => (component_id_of a <= component_id_of b)%Z)
         (DonationBreakdown.loadDishComponents db dishId).
Proof.
  split; [apply sortByKey_perm|]. split; [apply (sortByKey_sorted seqKey)|].
  split; [apply sortByKey_perm|apply sortByKey_sorted].
Qed.

(** ** The shape of a mapping key *)

Lemma isChar_eq (c : ascii) : Str.isChar 95 c = true <-> c = "_"%char.
Proof.
  unfold Str.isChar, Str.code. split.
  - intros H. apply N.eqb_eq in H. rewrite <- (ascii_N_embedding c), H. reflexivity.
  - intros ->. reflexivity.
Qed.

Lemma runLen_le (s : list ascii) : (runLen s <= length s)%nat.
Proof.
  induction s as [|c rest IH]; cbn [runLen length]; [lia|].
  destruct (Str.isChar 95 c); lia.
Qed.

Lemma kStar_greedy (s : list ascii) :
  forall prev, Str.kStarFrom (Str.isChar 95) Str.kEnd prev s = Some (length s - runLen s)%nat.
Proof.
  induction s as [|c rest IH]; intros prev; [reflexivity|].
  cbn [Str.kStarFrom runLen]. destruct (Str.isChar 95 c).
  - rewrite IH. reflexivity.
  - reflexivity.
Qed.

Lemma kStar_toEnd (s : list ascii) :
  forall prev,
    Str.kStarFrom (Str.isChar 95) (Str.kEos Str.kEnd) prev s
    = if forallb (Str.isChar 95) s then Some 0%nat else None.
Proof.
  induction s as [|c rest IH]; intros prev; [reflexivity|].
  cbn [Str.kStarFrom forallb]. destruct (Str.isChar 95 c); cbn [andb].
  - rewrite IH. destruct (forallb (Str.isChar 95) rest); reflexivity.
  - reflexivity.
Qed.

Lemma underscores_match (prev : option ascii) (c : ascii) (rest : list ascii) :
  Str.matchLen Str.reUnderscores prev (c :: rest)
  = if Str.isChar 95 c then Some (S (runLen rest)) else None.
Proof.
  unfold Str.matchLen, Str.reUnderscores, Str.kPlus, Str.kChar, Str.kStar.
  destruct (Str.isChar 95 c); [|reflexivity].
  rewrite kStar_greedy. pose proof (runLen_le rest). cbn [length]. f_equal. lia.
Qed.

Lemma edge_match_start (c : ascii) (rest : list ascii) :
  Str.matchLen Str.reEdgeUnderscores None (c :: rest)
  = if Str.isChar 95 c then Some (S (runLen rest)) else None.
Proof.
  unfold Str.matchLen, Str.reEdgeUnderscores, Str.kOr, Str.kBegin, Str.kPlus, Str.kChar,
    Str.kStar.
  destruct (Str.isChar 95 c); [|reflexivity].
  rewrite kStar_greedy. pose proof (runLen_le rest). cbn [length]. f_equal. lia.
Qed.

Lemma edge_match_inside (p c : ascii) (rest : list ascii) :
  Str.matchLen Str.reEdgeUnderscores (Some p) (c :: rest)
  = if (Str.isChar 95 c && forallb (Str.isChar 95) rest)%bool
    then Some (S (length rest)) else None.
Proof.
  unfold Str.matchLen, Str.reEdgeUnderscores, Str.kOr, Str.kBegin, Str.kPlus, Str.kChar,
    Str.kStar.
  destruct (Str.isChar 95 c); cbn [andb]; [|reflexivity].
  rewrite kStar_toEnd. destruct (forallb (Str.isChar 95) rest); [|reflexivity].
  cbn [length]. f_equal; lia.
Qed.

Lemma noDouble_after (s : list ascii) :
  noDouble false s = true -> head s <> Some "_"%char -> noDouble true s = true.
Proof.
  destruct s as [|c rest]; [reflexivity|]. cbn [noDouble head].
  destruct (Str.isChar 95 c) eqn:E; [|tauto].
  apply isChar_eq in E. subst c. intros _ H. exfalso. apply H. reflexivity.
Qed.

Lemma noDouble_weaken (b : bool) (s : list ascii) :
  noDouble b s = true -> noDouble false s = true.
Proof.
  destruct s as [|c rest]; [reflexivity|]. cbn [noDouble].
  destruct (Str.isChar 95 c); [|tauto]. destruct b; cbn [negb andb]; [discriminate|tauto].
Qed.

(** After [s.replace(/_+/g, "_")] no two underscores are adjacent. *)
Lemma underscores_collapsed (rest : list ascii) :
  forall prev skip,
    skip = 0%nat \/ skip = runLen rest ->
    let out := Str.replaceFrom Str.reUnderscores ["_"%char] prev skip rest in
    noDouble false out = true /\ (skip = runLen rest -> head out <> Some "_"%char).
Proof.
  induction rest as [|c rest IH]; intros prev skip Hskip; cbn zeta.
  - cbn [Str.replaceFrom]. split; [reflexivity|discriminate].
  - cbn [Str.replaceFrom]. destruct skip as [|k].
    + rewrite underscores_match. cbn [runLen]. destruct (Str.isChar 95 c) eqn:E.
      * destruct (IH (Some c) (runLen rest) (or_intror eq_refl)) as [Hn Hh].
        cbn [app noDouble]. split; [|discriminate].
        change (Str.isChar 95 "_") with true. cbn [negb andb].
        apply noDouble_after; [exact Hn|apply Hh; reflexivity].
      * destruct (IH (Some c) 0%nat (or_introl eq_refl)) as [Hn _].
        cbn [noDouble head]. rewrite E. split; [exact Hn|].
        intros _ H. injection H as ->. discriminate E.
    + cbn [runLen] in Hskip. destruct Hskip as [H|H]; [discriminate|].
      destruct (Str.isChar 95 c); [|discriminate]. injection H as ->.
      destruct (IH (Some c) (runLen rest) (or_intror eq_refl)) as [Hn Hh].
      split; [exact Hn|]. intros _. apply Hh. reflexivity.
Qed.

Lemma replace_skips_all (m : Str.matcher) (rep : list ascii) (s : list ascii) :
  forall prev, Str.replaceFrom m rep prev (length s) s = [].
Proof.
  induction s as [|c rest IH]; intros prev; [reflexivity|].
  cbn [Str.replaceFrom length]. apply IH.
Qed.

Lemma edge_inside (s : list ascii) :
  forall p, Str.replaceFrom Str.reEdgeUnderscores [] (Some p) 0 s = stripEnd s.
Proof.
  induction s as [|c rest IH]; intros p; [reflexivity|].
  cbn [Str.replaceFrom stripEnd]. rewrite edge_match_inside.
  destruct (Str.isChar 95 c && forallb (Str.isChar 95) rest)%bool.
  - cbn [app]. apply replace_skips_all.
  - rewrite IH. reflexivity.
Qed.

Lemma edge_after_run (s : list ascii) :
  forall p, Str.replaceFrom Str.reEdgeUnderscores [] (Some p) (runLen s) s
            = stripEnd (dropRun s).
Proof.
  induction s as [|c rest IH]; intros p; [reflexivity|].
  cbn [runLen dropRun]. destruct (Str.isChar 95 c) eqn:E.
  - cbn [Str.replaceFrom]. apply IH.
  - apply edge_inside.
Qed.

(** [s.replace(/^_+|_+$/g, "")] removes the underscores at both ends. *)
Lemma edges_stripped (s : list ascii) :
  Str.replaceAll Str.reEdgeUnderscores [] s = stripEnd (dropRun s).
Proof.
  unfold Str.replaceAll. destruct s as [|c rest]; [reflexivity|].
  cbn [Str.replaceFrom dropRun]. rewrite edge_match_start.
  destruct (Str.isChar 95 c) eqn:E.
  - cbn [app]. apply edge_after_run.
  - cbn [stripEnd]. rewrite E. cbn [andb]. rewrite edge_inside. reflexivity.
Qed.

Lemma dropRun_head (s : list ascii) : head (dropRun s) <> Some "_"%char.
Proof.
  induction s as [|c rest IH]; [discriminate|]. cbn [dropRun].
  destruct (Str.isChar 95 c) eqn:E; [exact IH|].
  cbn [head]. intros H. injection H as ->. discriminate E.
Qed.

Lemma dropRun_noDouble (s : list ascii) :
  forall b, noDouble b s = true -> noDouble false (dropRun s) = true.
Proof.
  induction s as [|c rest IH]; intros b H; [reflexivity|].
  cbn [dropRun]. destruct (Str.isChar 95 c) eqn:E.
  - cbn [noDouble] in H. rewrite E in H. apply andb_true_iff in H. apply (IH true). apply H.
  - apply (noDouble_weaken b). exact H.
Qed.

Lemma stripEnd_head (s : list ascii) :
  head s <> Some "_"%char -> head (stripEnd s) <> Some "_"%char.
Proof.
  destruct s as [|c rest]; [intros _; discriminate|]. cbn [stripEnd head].
  destruct (Str.isChar 95 c && forallb (Str.isChar 95) rest)%bool; [intros _; discriminate|].
  tauto.
Qed.

Lemma stripEnd_nil (s : list ascii) :
  stripEnd s = [] -> forallb (Str.isChar 95) s = true.
Proof.
  destruct s as [|c rest]; [reflexivity|]. cbn [stripEnd forallb].
  destruct (Str.isChar 95 c && forallb (Str.isChar 95) rest)%bool; [reflexivity|discriminate].
Qed.

Lemma stripEnd_last (s : list ascii) : last (stripEnd s) <> Some "_"%char.
Proof.
  induction s as [|c rest IH]; [discriminate|]. cbn [stripEnd].
  destruct (Str.isChar 95 c && forallb (Str.isChar 95) rest)%bool eqn:E; [discriminate|].
  destruct (stripEnd rest) as [|d more] eqn:Er.
  - cbn. intros H. injection H as ->. apply stripEnd_nil in Er. rewrite Er in E.
    discriminate E.
  - change (last (c :: d :: more)) with (last (d :: more)). exact IH.
Qed.

Lemma stripEnd_noDouble (s : list ascii) :
  forall b, noDouble b s = true -> noDouble b (stripEnd s) = true.
Proof.
  induction s as [|c rest IH]; intros b H; [reflexivity|]. cbn [stripEnd].
  destruct (Str.isChar 95 c && forallb (Str.isChar 95) rest)%bool; [reflexivity|].
  cbn [noDouble] in H |- *. destruct (Str.isChar 95 c).
  - apply andb_true_iff in H. destruct H as [H1 H2]. rewrite H1. cbn [andb].
    apply IH. exact H2.
  - apply IH. exact H.
Qed.

Lemma noDouble_pair (pre post : list ascii) :
  forall b, noDouble b (pre ++ "_"%char :: "_"%char :: post) = false.
Proof.
  induction pre as [|c pre IH]; intros b.
  - cbn [app noDouble]. change (Str.isChar 95 "_") with true. cbn [negb andb].
    apply andb_false_r.
  - cbn [app noDouble]. destruct (Str.isChar 95 c); [|apply IH].
    rewrite IH. apply andb_false_r.
Qed.

(** X24. The key [normalizeCoreFromName] returns neither starts nor ends with
    an underscore and holds no two underscores in a row. *)
Theorem name_core_has_no_stray_underscores (nameRaw : string) :
  let key := list_ascii_of_string (normalizeCoreFromName nameRaw) in
  head key <> Some "_"%char /\
  last key <> Some "_"%char /\
  forall pre post, key <> pre ++ "_"%char :: "_"%char :: post.
Proof.
  unfold normalizeCoreFromName. cbv zeta.
  match goal with |- context [Str.replaceAll Str.reUnderscores _ ?s] =>
    remember s as s5 eqn:E5; clear E5 end.
  rewrite edges_stripped.
  destruct (underscores_collapsed s5 None 0%nat (or_introl eq_refl)) as [Hn _].
  fold (Str.replaceAll Str.reUnderscores ["_"%char] s5) in Hn.
  remember (Str.replaceAll Str.reUnderscores ["_"%char] s5) as s6 eqn:E6. clear E6.
  pose proof (stripEnd_head _ (dropRun_head s6)) as Hh.
  pose proof (stripEnd_last (dropRun s6)) as Hl.
  pose proof (stripEnd_noDouble _ _ (dropRun_noDouble _ _ Hn)) as Hd.
  destruct (stripEnd (dropRun s6)) as [|c s7] eqn:E7.
  - split; [vm_compute; discriminate|]. split; [vm_compute; discriminate|].
    intros pre post H.
    assert (noDouble false (list_ascii_of_string "UNKNOWN") = true) as Hu by reflexivity.
    rewrite H, noDouble_pair in Hu. discriminate Hu.
  - rewrite list_ascii_of_string_of_list_ascii.
    split; [exact Hh|]. split; [exact Hl|].
    intros pre post H. rewrite H, noDouble_pair in Hd. discriminate Hd.
Qed.
